(** * SOW criticality pipeline

    A shallow embedding of the training pipeline of the SOW compliance agent:
    [train/feature_engineering.py] (class [SOWFeatureEngineering]) and
    [train/train_criticality_model.py] (class [CriticalityClassifier] and the
    training script), together with the properties of the specification that
    are about them; then the data generator ([data/generator.py]) and the
    service that stores SOWs and sends the alerts ([app/crud.py],
    [app/main.py], [app/api.py]).

    Conventions of the embedding.
    - Python [int] and pandas [int64] cells are [Z]; the pipeline only ever
      handles day counts, head counts and 0/1 flags.
    - [float64] feature cells are carried as real numbers ([R]): the pipeline
      computes them ([/], [log1p]) but never branches on them, so the model
      gives their exact value and says nothing about rounding.
    - Feature importances are finite [float64] numbers that are only compared;
      they are rationals ([Q]) with the rational order.
    - [0.2 * n_samples] in the train/test split decides an integer size, so it
      is computed on binary64 floats ([PrimFloat]), bit for bit.
    - A pandas [DataFrame] is a finite map from column name to typed column;
      frames live in a store indexed by object identity, because the code
      passes them by reference and mutates them.
    - Python exceptions are values of [exn]; a method of an object is a
      function from the state before to an outcome and the state after.
    - What lies outside the repository and decides some outcome (the fit and
      the predictions of scikit-learn, the order NumPy's sort leaves equal
      scores in, the random generator, the file read by
      [read_csv], pydantic's conversions of numbers and dates, the language
      model, the mail server) is a variable of a section: the definitions
      and theorems hold for every such function.
    - A record sent to the service is a finite map from field name to JSON
      value; the table of the service is the list of its rows in key order.
      [strip] and [lower] are modelled on ASCII text. *)

From Stdlib Require Import ZArith Ascii String List Reals QArith Floats Uint63.
From Stdlib Require Import Lia Lra Sorted Permutation DecimalString DecimalPos.
From Stdlib Require Import OrdersEx.
From stdpp Require Import gmap strings sorting.

Close Scope Q_scope.
Close Scope R_scope.
Local Open Scope string_scope.
Local Open Scope Z_scope.

(** ** Exceptions and outcomes

    [Unmodelled] is not a Python exception: it marks an input that the
    embedding does not cover (a dtype the data model excludes, a value the
    real numbers do not have). No statement below is about such an input.
    The message of an exception is the library's, cut before the values it
    quotes. *)

Inductive exn : Type :=
| KeyError (key : string)
| ValueError (msg : string)
| TypeError (msg : string)
| IndexError
| AttributeError
| NotFittedError
| FileNotFoundError (path : string)
| FileExistsError (path : string)
| IsADirectoryError (path : string)
| NotADirectoryError (path : string)
| Unmodelled (what : string).

Inductive outcome (A : Type) : Type :=
| Ok (a : A)
| Raise (e : exn).
Arguments Ok {A} a.
Arguments Raise {A} e.

Definition obind {A B} (x : outcome A) (f : A -> outcome B) : outcome B :=
  match x with
  | Ok a => f a
  | Raise e => Raise e
  end.

Definition is_ok {A} (x : outcome A) : bool :=
  match x with Ok _ => true | Raise _ => false end.

(** A computation over a state [S] that may raise: Python keeps every
    mutation made before the exception, so the state after is returned in
    both cases. *)
Definition M (S A : Type) : Type := S -> outcome A * S.

Definition ret {S A} (a : A) : M S A := fun s => (Ok a, s).
Definition raise {S A} (e : exn) : M S A := fun s => (Raise e, s).
Definition bind {S A B} (m : M S A) (f : A -> M S B) : M S B :=
  fun s => match m s with
           | (Ok a, s') => f a s'
           | (Raise e, s') => (Raise e, s')
           end.
Definition lift {S A} (x : outcome A) : M S A := fun s => (x, s).
Definition get {S} : M S S := fun s => (Ok s, s).
Definition modify {S} (f : S -> S) : M S unit := fun s => (Ok tt, f s).

#[export] Instance outcome_ret : MRet outcome := fun A a => Ok a.
#[export] Instance outcome_bind : MBind outcome := fun A B f x => obind x f.
#[export] Instance M_ret {S} : MRet (M S) := fun A a => ret a.
#[export] Instance M_bind {S} : MBind (M S) := fun A B f m => bind m f.

(** ** feature_engineering.py *)

Module FeatureEngineering.

(** The four labels, lowest to highest; [label_name] is the Python string. *)
Inductive Criticality : Type := BAJO | MEDIO | ALTO | CRITICO.

Definition label_name (c : Criticality) : string :=
  match c with
  | BAJO => "BAJO"
  | MEDIO => "MEDIO"
  | ALTO => "ALTO"
  | CRITICO => "CRÍTICO"
  end.

(** [classify(row)], on the two cells it reads. *)
Definition classify (days workers : Z) : Criticality :=
  if (days <=? 30) && (workers >? 0) then CRITICO
  else if ((days <=? 30) && (workers =? 0))
          || ((31 <=? days) && (days <=? 60) && (workers >? 5)) then ALTO
  else if (31 <=? days) && (days <=? 90) then MEDIO
  else BAJO.

(** *** Frames and the object store *)

(** A pandas column with its dtype. *)
Inductive column : Type :=
| IntCol (xs : list Z)
| FloatCol (xs : list R)
| StrCol (xs : list string).

Abbreviation DataFrame := (gmap string column).

(** [df[col]] *)
Definition getitem (df : DataFrame) (col : string) : outcome column :=
  match df !! col with
  | Some c => Ok c
  | None => Raise (KeyError col)
  end.

(** The cells of a column the code compares with integers. The model covers
    [int64] columns, the type the data model gives day and head counts. *)
Definition int_cells (c : column) : outcome (list Z) :=
  match c with
  | IntCol xs => Ok xs
  | FloatCol _ | StrCol _ =>
      Raise (Unmodelled "comparison on a column that is not int64")
  end.

(** The cells of a column the code divides: [int64] cells are converted. *)
Definition float_cells (c : column) : outcome (list R) :=
  match c with
  | IntCol xs => Ok (map IZR xs)
  | FloatCol xs => Ok xs
  | StrCol _ => Raise (Unmodelled "arithmetic on an object column")
  end.

(** [Series.astype(str)] *)
Definition astype_str (c : column) : outcome (list string) :=
  match c with
  | StrCol xs => Ok xs
  | IntCol xs => Ok (map (fun z => NilZero.string_of_int (Z.to_int z)) xs)
  | FloatCol _ => Raise (Unmodelled "str of a float64 cell")
  end.

Definition astype_int (b : bool) : Z := if b then 1 else 0.

(** *** scikit-learn's LabelEncoder

    [classes_] is [np.unique] of the fitted values: sorted, without
    repetition. An encoder that was created and not fitted has none. *)
Abbreviation LabelEncoder := (option (list string)).

Fixpoint insert_sorted (x : string) (l : list string) : list string :=
  match l with
  | [] => [x]
  | y :: l' =>
      match String.compare x y with
      | Lt => x :: l
      | Eq => l
      | Gt => y :: insert_sorted x l'
      end
  end.

Definition np_unique (ys : list string) : list string :=
  foldr insert_sorted [] ys.

Fixpoint index_of (x : string) (l : list string) : option nat :=
  match l with
  | [] => None
  | y :: l' => if String.eqb x y then Some 0%nat else S <$> index_of x l'
  end.

Definition encode_label (classes : list string) (y : string) : outcome Z :=
  match index_of y classes with
  | Some i => Ok (Z.of_nat i)
  | None => Raise (ValueError "y contains previously unseen labels")
  end.

Fixpoint traverse {A B} (f : A -> outcome B) (l : list A) : outcome (list B) :=
  match l with
  | [] => Ok []
  | x :: l' =>
      match f x with
      | Ok b => match traverse f l' with
                | Ok bs => Ok (b :: bs)
                | Raise e => Raise e
                end
      | Raise e => Raise e
      end
  end.

(** [LabelEncoder.transform(y)] *)
Definition LabelEncoder_transform (enc : LabelEncoder) (ys : list string)
  : outcome (list Z) :=
  match enc with
  | None => Raise NotFittedError
  | Some classes => traverse (encode_label classes) ys
  end.

(** [LabelEncoder.fit_transform(y)]: the fitted encoder and the codes. *)
Definition LabelEncoder_fit_transform (ys : list string)
  : LabelEncoder * outcome (list Z) :=
  let classes := np_unique ys in
  (Some classes, traverse (encode_label classes) ys).

(** *** scikit-learn's StandardScaler

    The fitted attributes, per column: [mean_], [var_] (population variance)
    and [scale_] (its square root, 1 for a constant column), with the number
    of rows they were computed from. A matrix is a list of columns. *)
Record ScalerStats : Type := {
  n_samples_seen_ : nat;
  mean_ : list R;
  var_ : list R;
  scale_ : list R
}.

Abbreviation StandardScaler := (option ScalerStats).

Definition Rsum (xs : list R) : R := foldr Rplus 0%R xs.

Definition col_mean (n : nat) (xs : list R) : R := (Rsum xs / INR n)%R.

Definition col_var (n : nat) (xs : list R) : R :=
  let m := col_mean n xs in
  (Rsum (map (fun x => (x - m) * (x - m)) xs) / INR n)%R.

Definition col_scale (n : nat) (xs : list R) : R :=
  let v := col_var n xs in
  if Req_dec_T v 0 then 1%R else R_sqrt.sqrt v.

Definition n_rows (X : list (list R)) : nat :=
  match X with
  | [] => 0
  | c :: _ => length c
  end.

(** [StandardScaler.fit(X)]; it refuses a matrix without rows. *)
Definition StandardScaler_fit (X : list (list R)) : outcome ScalerStats :=
  let n := n_rows X in
  match n with
  | O => Raise (ValueError "Found array with 0 sample(s)")
  | S _ =>
      Ok {| n_samples_seen_ := n;
            mean_ := map (col_mean n) X;
            var_ := map (col_var n) X;
            scale_ := map (col_scale n) X |}
  end.

(** [StandardScaler.transform(X)] with fitted statistics [st]. *)
Definition StandardScaler_transform (st : ScalerStats) (X : list (list R))
  : list (list R) :=
  zip_with (fun c ms => map (fun x => ((x - fst ms) / snd ms)%R) c)
           X (zip (mean_ st) (scale_ st)).

(** *** class SOWFeatureEngineering *)

Record SOWFeatureEngineering : Type := {
  label_encoders : gmap string LabelEncoder;
  scaler : StandardScaler
}.

(** [__init__]: no encoder, a scaler that is not fitted. *)
Definition SOWFeatureEngineering_init : SOWFeatureEngineering :=
  {| label_encoders := ∅; scaler := None |}.

Definition set_encoder (col : string) (enc : LabelEncoder)
  (fe : SOWFeatureEngineering) : SOWFeatureEngineering :=
  {| label_encoders := <[col := enc]> (label_encoders fe);
     scaler := scaler fe |}.

Definition set_scaler (sc : StandardScaler) (fe : SOWFeatureEngineering)
  : SOWFeatureEngineering :=
  {| label_encoders := label_encoders fe; scaler := sc |}.

(** The store: frames by object identity, and the one engineer [self]. *)
Record world : Type := {
  frames : gmap nat DataFrame;
  self : SOWFeatureEngineering
}.

Definition deref (r : nat) : M world DataFrame :=
  fun w => match frames w !! r with
           | Some df => (Ok df, w)
           | None => (Raise (Unmodelled "no object at this reference"), w)
           end.

Definition store (r : nat) (df : DataFrame) : M world unit :=
  modify (fun w => {| frames := <[r := df]> (frames w); self := self w |}).

(** A new object holding [df]. *)
Definition alloc (df : DataFrame) : M world nat :=
  fun w => let r := fresh (dom (frames w)) in
           (Ok r, {| frames := <[r := df]> (frames w); self := self w |}).

(** Run a method body that only touches [self]. *)
Definition on_self {A} (m : M SOWFeatureEngineering A) : M world A :=
  fun w => let '(a, fe) := m (self w) in
           (a, {| frames := frames w; self := fe |}).

(** [create_criticality_label(df)]: [df.apply(classify, axis=1)] reads the
    two cells of every row; the result is assigned to a column of the frame
    that was passed in, and that same frame is returned. *)
Definition create_criticality_label (df : nat) : M world nat :=
  d ← deref df;
  days_col ← lift (getitem d "# Days before expiration");
  workers_col ← lift (getitem d "Active SOW workers");
  days ← lift (int_cells days_col);
  workers ← lift (int_cells workers_col);
  let labels := zip_with classify days workers in
  store df (<["Criticality" := StrCol (map label_name labels)]> d);;
  mret df.

(** [np.log1p] on a head count. At -1 and below numpy gives [-inf] or [nan],
    which the real numbers do not have. *)
Definition np_log1p (w : Z) : outcome R :=
  if w <=? -1 then Raise (Unmodelled "log1p of a value <= -1")
  else Ok (ln (1 + IZR w)).

(** [int64] arithmetic wraps around. Of the integer operations of
    [engineer_features] only [30 - days] can leave the range: the products
    have a 0/1 flag as a factor. *)
Definition wrap64 (z : Z) : Z := (z + 2 ^ 63) mod 2 ^ 64 - 2 ^ 63.

Definition risk_score_cell (days workers : Z) : outcome R :=
  l ← np_log1p workers;
  mret (IZR (wrap64 (30 - days) * astype_int (workers >? 0)) * (1 + l))%R.

Definition budget_per_worker_cell (budget : R) (workers : Z) : R :=
  if workers >? 0 then (budget / IZR workers)%R else 0%R.

Definition categorical_cols : list string :=
  ["supplier"; "Business Unit"; "Primary LOB"; "currency"].

(** One turn of the loop over [categorical_cols]. A column without encoder
    gets a new one, stored before the column is read, and fitted on it; a
    column with an encoder is transformed with it. *)
Definition encode_categorical (col : string) (df : DataFrame)
  : M SOWFeatureEngineering DataFrame :=
  fe ← get;
  match label_encoders fe !! col with
  | None =>
      modify (set_encoder col None);;
      c ← lift (getitem df col);
      ys ← lift (astype_str c);
      let '(enc, codes) := LabelEncoder_fit_transform ys in
      modify (set_encoder col enc);;
      codes ← lift codes;
      mret (<[col +:+ "_encoded" := IntCol codes]> df)
  | Some enc =>
      c ← lift (getitem df col);
      ys ← lift (astype_str c);
      codes ← lift (LabelEncoder_transform enc ys);
      mret (<[col +:+ "_encoded" := IntCol codes]> df)
  end.

Fixpoint encode_categoricals (cols : list string) (df : DataFrame)
  : M SOWFeatureEngineering DataFrame :=
  match cols with
  | [] => mret df
  | col :: rest =>
      df' ← encode_categorical col df;
      encode_categoricals rest df'
  end.

(** The numeric features (sections 1 to 4 of [engineer_features]), on the
    frame the method works on. *)
Definition numeric_features (df : DataFrame) : outcome DataFrame :=
  days_col ← getitem df "# Days before expiration";
  let df := <["days_to_expire" := days_col]> df in
  days ← int_cells days_col;
  let is_critical_window := map (fun d => astype_int (d <=? 30)) days in
  let df := <["is_expired" := IntCol (map (fun d => astype_int (d <? 0)) days)]> df in
  let df := <["is_critical_window" := IntCol is_critical_window]> df in
  let df := <["is_high_priority_window" :=
                IntCol (map (fun d => astype_int ((d >? 30) && (d <=? 60))) days)]> df in
  workers_col ← getitem df "Active SOW workers";
  workers ← int_cells workers_col;
  let df := <["has_workers" := IntCol (map (fun w => astype_int (w >? 0)) workers)]> df in
  let df := <["worker_count" := workers_col]> df in
  let df := <["worker_criticality_score" :=
                IntCol (zip_with Z.mul workers is_critical_window)]> df in
  budget_col ← getitem df "Latest maximum budget";
  budget ← float_cells budget_col;
  let df := <["budget_normalized" := FloatCol (map (fun b => b / 1000000)%R budget)]> df in
  let df := <["budget_per_worker" :=
                FloatCol (zip_with budget_per_worker_cell budget workers)]> df in
  risk ← traverse (fun dw => risk_score_cell (fst dw) (snd dw)) (zip days workers);
  mret (<["risk_score" := FloatCol risk]> df).

(** [engineer_features(df)]: works on a copy, a new object, which it returns;
    the encoders of [self] are created and fitted on the way. The new object
    is reachable only through the returned reference, so the store shows it
    as copied until the method returns. *)
Definition engineer_features (df : nat) : M world nat :=
  d ← deref df;
  df' ← alloc d;
  d ← lift (numeric_features d);
  d ← on_self (encode_categoricals categorical_cols d);
  store df' d;;
  mret df'.

Definition get_feature_columns : list string :=
  ["days_to_expire"; "is_expired"; "is_critical_window";
   "is_high_priority_window"; "has_workers"; "worker_count";
   "worker_criticality_score"; "budget_normalized"; "budget_per_worker";
   "risk_score"; "supplier_encoded"; "Business Unit_encoded";
   "Primary LOB_encoded"; "currency_encoded"].

(** [df[feature_cols]] handed to the scaler: the columns as float64. *)
Definition feature_matrix (d : DataFrame) (cols : list string)
  : outcome (list (list R)) :=
  traverse (fun col => c ← getitem d col; float_cells c) cols.

(** [self.scaler.fit_transform(X)] *)
Definition scaler_fit_transform (X : list (list R))
  : M SOWFeatureEngineering (list (list R)) :=
  st ← lift (StandardScaler_fit X);
  modify (set_scaler (Some st));;
  mret (StandardScaler_transform st X).

(** [prepare_for_training(df)]: the scaled matrix [X] with its column names,
    the label column [y], and the annotated frame. *)
Definition prepare_for_training (df : nat)
  : M world (list (string * list R) * column * nat) :=
  df ← create_criticality_label df;
  df ← engineer_features df;
  d ← deref df;
  let feature_cols := get_feature_columns in
  X ← lift (feature_matrix d feature_cols);
  y ← lift (getitem d "Criticality");
  X_scaled ← on_self (scaler_fit_transform X);
  mret (zip feature_cols X_scaled, y, df).

(** *** Loading the data *)

(** [y.value_counts().sort_index()]: every label of [y] with the number of
    its rows, in the order of the labels; with [normalize=True] and times
    100, its share of the rows in percent. *)
Definition value_counts (y : list string) : list (string * nat) :=
  map (fun c => (c, length (filter (fun x => String.eqb x c) y))) (np_unique y).

Definition percentages (y : list string) : list (string * float) :=
  map (fun cn : string * nat =>
         (fst cn,
          (PrimFloat.of_uint63 (Uint63.of_Z (Z.of_nat (snd cn)))
           / PrimFloat.of_uint63 (Uint63.of_Z (Z.of_nat (length y))) * 100)%float))
      (value_counts y).

Section Loader.

(** [pd.read_csv]: the frame a file holds, if it can be read. *)
Variable read_csv : string -> outcome DataFrame.

(** [load_and_prepare_data(csv_path)]: the frame is a new object and the
    engineer a new instance, which takes the place of [self]; the two tables
    it prints are returned after the four values it returns. *)
Definition load_and_prepare_data (csv_path : string)
  : M world (list (string * list R) * column * nat * SOWFeatureEngineering
             * list (string * nat) * list (string * float)) :=
  d ← lift (read_csv csv_path);
  df ← alloc d;
  modify (fun w => {| frames := frames w; self := SOWFeatureEngineering_init |});;
  '(X, y, df_processed) ← prepare_for_training df;
  labels ← lift (match y with
                 | StrCol xs => Ok xs
                 | IntCol _ | FloatCol _ => Raise (Unmodelled "labels that are not strings")
                 end);
  w ← get;
  mret (X, y, df_processed, self w, value_counts labels, percentages labels).

End Loader.

End FeatureEngineering.

(** ** train_criticality_model.py *)

Module TrainCriticalityModel.
Import FeatureEngineering.

(** *** scikit-learn's train_test_split, as the script calls it

    [train_test_split(X, y, test_size=0.2, random_state=42, stratify=y)].
    Which rows go where is drawn from the seeded generator and is not
    modelled; the sizes of the two parts and every refusal are. *)

(** [math.ceil] of a binary64 number. *)
Definition math_ceil (f : float) : outcome Z :=
  match Prim2SF f with
  | S754_zero _ => Ok 0
  | S754_finite s m e =>
      let v := if s then Z.neg m else Z.pos m in
      Ok (if 0 <=? e then v * 2 ^ e else - ((- v) / 2 ^ (- e)))
  | S754_infinity _ | S754_nan =>
      Raise (ValueError "cannot convert float to integer")
  end.

(** [float(n)] for a row count. *)
Definition float_of_count (n : nat) : float :=
  PrimFloat.of_uint63 (Uint63.of_Z (Z.of_nat n)).

(** [_validate_shuffle_split] for a fractional [test_size] and no
    [train_size]: the sizes [(n_train, n_test)]. *)
Definition validate_shuffle_split (n_samples : nat) (test_size : float)
  : outcome (Z * Z) :=
  n_test ← math_ceil (PrimFloat.mul test_size (float_of_count n_samples));
  let n_train := Z.of_nat n_samples - n_test in
  if n_train =? 0 then Raise (ValueError "the resulting train set will be empty")
  else Ok (n_train, n_test).

(** The same validation inside the splitter, now on the two integer sizes. *)
Definition validate_sizes (n_samples : nat) (n_train n_test : Z)
  : outcome (Z * Z) :=
  if (Z.of_nat n_samples <=? n_test) || (n_test <=? 0) then
    Raise (ValueError "test_size should be positive and smaller than the number of samples")
  else if (Z.of_nat n_samples <=? n_train) || (n_train <=? 0) then
    Raise (ValueError "train_size should be positive and smaller than the number of samples")
  else Ok (n_train, n_test).

Definition count_label (y : list string) (c : string) : nat :=
  length (filter (fun x => String.eqb x c) y).

(** [np.bincount] over the classes of [y], in the order of [np.unique]. *)
Definition class_counts (y : list string) : list nat :=
  map (count_label y) (np_unique y).

Definition np_min (l : list nat) : nat := foldr Nat.min (hd 0%nat l) l.

Inductive splitter : Type := ShuffleSplit | StratifiedShuffleSplit.

Record Split : Type := {
  split_by : splitter;
  n_train : Z;
  n_test : Z
}.

(** [StratifiedShuffleSplit._iter_indices], up to the draw. *)
Definition stratified_shuffle_split (n_samples : nat) (sizes : Z * Z)
  (y : list string) : outcome Split :=
  '(n_train, n_test) ← validate_sizes n_samples (fst sizes) (snd sizes);
  let n_classes := Z.of_nat (length (np_unique y)) in
  if (np_min (class_counts y) <? 2)%nat then
    Raise (ValueError "The least populated class in y has only 1 member")
  else if n_train <? n_classes then
    Raise (ValueError "The train_size should be greater or equal to the number of classes")
  else if n_test <? n_classes then
    Raise (ValueError "The test_size should be greater or equal to the number of classes")
  else Ok {| split_by := StratifiedShuffleSplit; n_train := n_train; n_test := n_test |}.

Definition shuffle_split (n_samples : nat) (sizes : Z * Z) : outcome Split :=
  '(n_train, n_test) ← validate_sizes n_samples (fst sizes) (snd sizes);
  Ok {| split_by := ShuffleSplit; n_train := n_train; n_test := n_test |}.

Definition train_test_split (n_samples : nat) (test_size : float)
  (stratify : option (list string)) : outcome Split :=
  sizes ← validate_shuffle_split n_samples test_size;
  match stratify with
  | Some y => stratified_shuffle_split n_samples sizes y
  | None => shuffle_split n_samples sizes
  end.

(** The binary64 number the literal [0.2] denotes. *)
Definition test_size_0_2 : float := 0x1.999999999999ap-3%float.

(** Step 2 of the script, on the label column [y] of the prepared data. *)
Definition main_split (y : list string) : outcome Split :=
  train_test_split (length y) test_size_0_2 (Some y).

(** *** class CriticalityClassifier *)

(** What the pipeline reads from a fitted scikit-learn estimator. *)
Record Estimator : Type := {
  feature_names_in_ : option (list string);
  feature_importances_ : list Q
}.

Inductive metric : Type :=
| MInt (n : Z)
| MFloat (q : Q).

Record CriticalityClassifier : Type := {
  model_type : string;
  model : option Estimator;
  feature_engineer : option SOWFeatureEngineering;
  training_date : option string;
  metrics : gmap string metric
}.

(** [__init__(model_type)] *)
Definition CriticalityClassifier_init (model_type : string)
  : CriticalityClassifier :=
  {| model_type := model_type;
     model := None;
     feature_engineer := None;
     training_date := None;
     metrics := ∅ |}.

(** Python objects as they are put in the package and in files. *)
Inductive pyobj : Type :=
| PNone
| PStr (s : string)
| PList (l : list string)
| PEstimator (m : Estimator)
| PMetrics (d : gmap string metric).

Inductive file : Type :=
| PickledDict (d : gmap string pyobj)
| PickledEngineer (fe : SOWFeatureEngineering)
| JsonFile (d : gmap string metric).

(** *** The file system

    What the process finds on the disk: at each place a directory or a
    regular file. A place is the chain of names that leads to it, the last
    name first, from the root for an absolute path and from the working
    directory for a relative one; the root and the working directory are
    the places without a name and are directories. A file system has every
    place in a directory. The model has no links, no permissions and no
    full disk, and takes it that a run names its files all from the root or
    all from the working directory, so that two chains are two places. *)
Inductive node : Type :=
| Directory
| Regular (f : file).

Abbreviation place := (bool * list string)%type.

Abbreviation filesystem := (gmap place node).

(** What the system finds at the end of a chain of names: nothing when a
    name is missing (ENOENT), no way when a name before the last is a
    regular file (ENOTDIR). *)
Inductive found : Type :=
| Missing
| Blocked
| Found (n : node).

Fixpoint stat (fs : filesystem) (absolute : bool) (names : list string) : found :=
  match names with
  | [] => Found Directory
  | _ :: above =>
      match stat fs absolute above with
      | Found Directory =>
          match fs !! (absolute, names) with
          | Some n => Found n
          | None => Missing
          end
      | Found (Regular _) => Blocked
      | Missing => Missing
      | Blocked => Blocked
      end
  end.

(** [os.path.exists] and [os.path.isdir] *)
Definition path_exists (fs : filesystem) (absolute : bool) (names : list string)
  : bool :=
  match stat fs absolute names with
  | Found _ => true
  | Missing | Blocked => false
  end.

Definition path_isdir (fs : filesystem) (absolute : bool) (names : list string)
  : bool :=
  match stat fs absolute names with
  | Found Directory => true
  | _ => false
  end.

Definition slash : ascii := "/"%char.

Definition is_slash (c : ascii) : bool := Ascii.eqb c slash.

Fixpoint drop_while {A} (p : A -> bool) (l : list A) : list A :=
  match l with
  | [] => []
  | x :: l' => if p x then drop_while p l' else l
  end.

Fixpoint take_while {A} (p : A -> bool) (l : list A) : list A :=
  match l with
  | [] => []
  | x :: l' => if p x then x :: take_while p l' else []
  end.

(** [os.path.dirname]: up to the last slash, trailing slashes removed unless
    nothing else is left. *)
Definition dirname (p : string) : string :=
  let head := drop_while (fun c => negb (is_slash c)) (rev (list_ascii_of_string p)) in
  let stripped := drop_while is_slash head in
  string_of_list_ascii (rev (match stripped with [] => head | _ :: _ => stripped end)).

(** [os.path.basename]: what follows the last slash. *)
Definition basename (p : string) : string :=
  string_of_list_ascii
    (rev (take_while (fun c => negb (is_slash c)) (rev (list_ascii_of_string p)))).

(** [s.replace(old, new)] for a non-empty [old]; [skip] counts the characters
    of a replaced occurrence still to pass over. *)
Fixpoint replace_from (skip : nat) (old new s : string) : string :=
  match s with
  | EmptyString => EmptyString
  | String c rest =>
      match skip with
      | S k => replace_from k old new rest
      | O =>
          if String.prefix old s
          then new +:+ replace_from (String.length old - 1) old new rest
          else String c (replace_from 0 old new rest)
      end
  end.

Definition str_replace (s old new : string) : string :=
  replace_from 0 old new s.

(** A name as the model takes it in a path: not empty, not [.] or [..],
    without NUL and of at most 255 bytes. *)
Definition proper_name (n : string) : bool :=
  negb (String.eqb n "") && negb (String.eqb n ".") && negb (String.eqb n "..")
  && forallb (fun c => negb (Ascii.eqb c Ascii.zero)) (list_ascii_of_string n)
  && (Z.of_nat (String.length n) <=? 255).

(** [os.path.join(d, n)] for a directory [d] as [os.path.dirname] gives
    it. *)
Definition path_join (d n : string) : string :=
  if String.eqb d "" then n
  else if String.eqb d "/" then d +:+ n
  else d +:+ "/" +:+ n.

(** The place a path names, found as [os.path.split] takes paths apart: the
    last name, and the place of what is before it. The path must be its
    names joined by single slashes. *)
Fixpoint place_of (fuel : nat) (p : string) : option place :=
  if String.eqb p "" then Some (false, [])
  else if String.eqb p "/" then Some (true, [])
  else
    match fuel with
    | O => None
    | S fuel' =>
        if proper_name (basename p)
           && String.eqb (path_join (dirname p) (basename p)) p
        then
          match place_of fuel' (dirname p) with
          | Some (absolute, above) => Some (absolute, basename p :: above)
          | None => None
          end
        else None
    end.

(** Paths with an empty name (a doubled or a trailing slash), with [.] or
    [..], or longer than the system takes are outside the model. *)
Definition locate (p : string) : outcome place :=
  if 4095 <? Z.of_nat (String.length p)
  then Raise (Unmodelled "a path longer than the system takes")
  else
    match place_of (String.length p) p with
    | Some q => Ok q
    | None => Raise (Unmodelled "a path that is not a chain of names")
    end.

(** [os.mkdir(path)], [path] naming the place [p]. *)
Definition mkdir (path : string) (p : place) : M filesystem unit :=
  fs ← get;
  match p.2 with
  | [] => raise (FileExistsError path)
  | _ :: above =>
      match stat fs p.1 above with
      | Missing => raise (FileNotFoundError path)
      | Blocked | Found (Regular _) => raise (NotADirectoryError path)
      | Found Directory =>
          match fs !! p with
          | Some _ => raise (FileExistsError path)
          | None => modify (fun fs : filesystem => <[p := Directory]> fs)
          end
      end
  end.

(** [try: m  except FileExistsError: pass] *)
Definition pass_FileExistsError {S} (m : M S unit) : M S unit :=
  fun s =>
    match m s with
    | (Raise (FileExistsError _), s') => (Ok tt, s')
    | r => r
    end.

(** [try: mkdir(name)  except OSError: if not path.isdir(name): raise] *)
Definition mkdir_exist_ok (path : string) (p : place) : M filesystem unit :=
  fun fs =>
    match mkdir path p fs with
    | (Raise e, fs') =>
        if path_isdir fs' p.1 p.2 then (Ok tt, fs') else (Raise e, fs')
    | r => r
    end.

(** The recursion of [os.makedirs(name, exist_ok=True)]: the directories
    above are made first when the one just above does not exist. *)
Fixpoint makedirs_at (name : string) (absolute : bool) (names : list string)
  : M filesystem unit :=
  match names with
  | [] => mret tt
  | _ :: above =>
      fs ← get;
      match above with
      | [] => mret tt
      | _ :: _ =>
          if path_exists fs absolute above then mret tt
          else pass_FileExistsError (makedirs_at (dirname name) absolute above)
      end;;
      mkdir_exist_ok name (absolute, names)
  end.

(** [os.makedirs(name, exist_ok=True)] *)
Definition makedirs (name : string) : M filesystem unit :=
  if String.eqb name "" then raise (FileNotFoundError name)
  else
    p ← lift (locate name);
    makedirs_at name p.1 p.2.

(** [open(path, 'w')] and what is written through it, as [joblib.dump] and
    [json.dump] do. *)
Definition write_file (path : string) (f : file) : M filesystem unit :=
  if String.eqb path "" then raise (FileNotFoundError path)
  else
    p ← lift (locate path);
    fs ← get;
    match p.2 with
    | [] => raise (IsADirectoryError path)
    | _ :: above =>
        match stat fs p.1 above with
        | Missing => raise (FileNotFoundError path)
        | Blocked | Found (Regular _) => raise (NotADirectoryError path)
        | Found Directory =>
            match fs !! p with
            | Some Directory => raise (IsADirectoryError path)
            | _ => modify (fun fs : filesystem => <[p := Regular f]> fs)
            end
        end
    end.

(** [open(path, 'rb')] and what is read through it. *)
Definition read_file (fs : filesystem) (path : string) : outcome file :=
  if String.eqb path "" then Raise (FileNotFoundError path)
  else
    p ← locate path;
    match stat fs p.1 p.2 with
    | Missing => Raise (FileNotFoundError path)
    | Blocked => Raise (NotADirectoryError path)
    | Found Directory => Raise (IsADirectoryError path)
    | Found (Regular f) => Ok f
    end.

(** [self.model.feature_names_in_.tolist() if hasattr(...) else None] *)
Definition feature_names_entry (m : option Estimator) : pyobj :=
  match m with
  | Some est =>
      match feature_names_in_ est with
      | Some names => PList names
      | None => PNone
      end
  | None => PNone
  end.

Definition option_obj {A} (f : A -> pyobj) (o : option A) : pyobj :=
  match o with
  | Some a => f a
  | None => PNone
  end.

(** The dictionary [save_model] builds. *)
Definition model_package (self : CriticalityClassifier) : gmap string pyobj :=
  <["model" := option_obj PEstimator (model self)]>
  (<["model_type" := PStr (model_type self)]>
  (<["training_date" := option_obj PStr (training_date self)]>
  (<["metrics" := PMetrics (metrics self)]>
  (<["feature_names" := feature_names_entry (model self)]> ∅)))).

(** [save_model(filepath)] *)
Definition save_model (self : CriticalityClassifier) (filepath : string)
  : M filesystem unit :=
  makedirs (dirname filepath);;
  write_file filepath (PickledDict (model_package self));;
  let metrics_file := str_replace filepath ".pkl" "_metrics.json" in
  write_file metrics_file (JsonFile (metrics self)).

(** [model_package[key]] *)
Definition package_get (d : gmap string pyobj) (key : string) : outcome pyobj :=
  match d !! key with
  | Some v => Ok v
  | None => Raise (KeyError key)
  end.

(** [joblib.load(filepath)], expecting the dictionary of [save_model]. *)
Definition joblib_load_package (fs : filesystem) (filepath : string)
  : outcome (gmap string pyobj) :=
  f ← read_file fs filepath;
  match f with
  | PickledDict d => Ok d
  | PickledEngineer _ => Raise (TypeError "object is not subscriptable")
  | JsonFile _ => Raise (Unmodelled "not a pickle")
  end.

(** [load_model(filepath)]: a new classifier with the entries of the package;
    the two summary lines it prints need a [test_accuracy] metric. The
    entries are read back with the types [save_model] gave them. *)
Definition load_model (fs : filesystem) (filepath : string)
  : outcome CriticalityClassifier :=
  package ← joblib_load_package fs filepath;
  ty ← package_get package "model_type";
  ty ← match ty with
       | PStr s => Ok s
       | _ => Raise (Unmodelled "model_type is not a string")
       end;
  m ← package_get package "model";
  m ← match m with
      | PEstimator est => Ok (Some est)
      | PNone => Ok None
      | _ => Raise (Unmodelled "model is not an estimator")
      end;
  date ← package_get package "training_date";
  date ← match date with
         | PStr s => Ok (Some s)
         | PNone => Ok None
         | _ => Raise (Unmodelled "training_date is not a string")
         end;
  mt ← package_get package "metrics";
  mt ← match mt with
       | PMetrics d => Ok d
       | _ => Raise (Unmodelled "metrics is not a dictionary")
       end;
  match mt !! "test_accuracy" with
  | None => Raise (KeyError "test_accuracy")
  | Some _ =>
      Ok {| model_type := ty;
            model := m;
            feature_engineer := None;
            training_date := date;
            metrics := mt |}
  end.

(** Step 5 and 6 of the script: the classifier, then the engineer in a file
    of its own. *)
Definition main_save (classifier : CriticalityClassifier)
  (fe : SOWFeatureEngineering) : M filesystem unit :=
  save_model classifier "/app/models/criticality_model.pkl";;
  write_file "/app/models/feature_engineer.pkl" (PickledEngineer fe).

(** *** Feature importance *)

Definition enumerate {A} (start : nat) (l : list A) : list (nat * A) :=
  zip (seq start (length l)) l.

(** A printed line: rank, feature name, importance. *)
Definition line : Type := nat * string * Q.

Definition item {A} (l : list A) (i : nat) : outcome A :=
  match l !! i with
  | Some a => Ok a
  | None => Raise IndexError
  end.

Definition print {S} (x : S) : M (list S) unit :=
  modify (fun out => (out ++ [x])%list).

Fixpoint print_lines (feature_names : list string) (importances : list Q)
  (ranked : list (nat * nat)) : M (list line) unit :=
  match ranked with
  | [] => mret tt
  | (i, idx) :: rest =>
      name ← lift (item feature_names idx);
      imp ← lift (item importances idx);
      print (i, name, imp);;
      print_lines feature_names importances rest
  end.

Section Importance.

(** [np.argsort]: the indices of the scores in an order in which the scores
    ascend. NumPy's default sort is not stable, so the order it leaves
    equal scores in is its own, and is not fixed here. *)
Variable np_argsort : list Q -> list nat.

(** [np.argsort(importances)[::-1][:top_n]] *)
Definition top_indices (importances : list Q) (top_n : nat) : list nat :=
  take top_n (rev (np_argsort importances)).

(** [_print_feature_importance(feature_names, top_n)]: the state is what has
    been printed; the method returns nothing. *)
Definition _print_feature_importance (self : CriticalityClassifier)
  (feature_names : list string) (top_n : nat) : M (list line) unit :=
  est ← lift (match model self with
              | Some est => Ok est
              | None => Raise AttributeError
              end);
  let importances := feature_importances_ est in
  let indices := top_indices importances top_n in
  print_lines feature_names importances (enumerate 1 indices).

End Importance.

(** *** Prediction and the check of the gold cases *)

(** [str.contains(pat)] for a pattern without regular-expression
    operators: [pat] occurs in [s]. *)
Fixpoint contains (pat s : string) : bool :=
  String.prefix pat s
  || match s with
     | EmptyString => false
     | String _ rest => contains pat rest
     end.

(** [Series.str.contains(pat, na=False)]: the accessor exists on columns of
    strings only. *)
Definition str_contains (c : column) (pat : string) : outcome (list bool) :=
  match c with
  | StrCol xs => Ok (map (contains pat) xs)
  | IntCol _ | FloatCol _ => Raise AttributeError
  end.

(** The cells at the rows a boolean mask selects. *)
Fixpoint select {A} (mask : list bool) (l : list A) : list A :=
  match mask, l with
  | b :: mask', x :: l' => if b then x :: select mask' l' else select mask' l'
  | _, _ => []
  end.

Definition select_column (mask : list bool) (c : column) : column :=
  match c with
  | IntCol xs => IntCol (select mask xs)
  | FloatCol xs => FloatCol (select mask xs)
  | StrCol xs => StrCol (select mask xs)
  end.

(** [df[mask]] *)
Definition select_rows (mask : list bool) (df : DataFrame) : DataFrame :=
  select_column mask <$> df.

(** A column of labels as strings. *)
Definition label_cells (c : column) : outcome (list string) :=
  match c with
  | StrCol xs => Ok xs
  | IntCol _ | FloatCol _ => Raise (Unmodelled "labels that are not strings")
  end.

(** What [validate_critical_cases] reports: nothing to check, or the mark of
    each gold case, the accuracy in percent and whether the alert is
    printed. *)
Inductive validation : Type :=
| NoCriticalCases
| Checked (marks : list bool) (accuracy : float) (alert : bool).

(** [(marks.sum() / len(marks)) * 100] *)
Definition percent_true (marks : list bool) : float :=
  (float_of_count (length (filter (fun b : bool => b) marks))
   / float_of_count (length marks) * 100)%float.

Definition results_columns : list string :=
  ["SOW ID"; "SOW title"; "# Days before expiration"; "Active SOW workers";
   "Criticality"].

Section Learner.

(** scikit-learn behind the classifier: [predict] and [predict_proba] of a
    fitted estimator on a matrix given by its named columns. *)
Variable sk_predict : Estimator -> list (string * list R) -> outcome (list string).
Variable sk_predict_proba :
  Estimator -> list (string * list R) -> outcome (list (list Q)).

(** [predict(X)] *)
Definition predict (self : CriticalityClassifier) (X : list (string * list R))
  : outcome (list string) :=
  match model self with
  | Some est => sk_predict est X
  | None => Raise AttributeError
  end.

(** [predict_proba(X)] *)
Definition predict_proba (self : CriticalityClassifier) (X : list (string * list R))
  : outcome (list (list Q)) :=
  match model self with
  | Some est => sk_predict_proba est X
  | None => Raise AttributeError
  end.

(** [validate_critical_cases(classifier, df_processed, fe)]; of [fe] only
    the constant list [get_feature_columns()] is used. The selected columns
    reach the estimator as floating-point numbers. *)
Definition validate_critical_cases (classifier : CriticalityClassifier)
  (df_processed : DataFrame) : outcome validation :=
  ids ← getitem df_processed "SOW ID";
  mask ← str_contains ids "CRIT";
  let critical_sows := select_rows mask df_processed in
  if forallb negb mask then Ok NoCriticalCases
  else
    let feature_cols := get_feature_columns in
    X_critical ← traverse (getitem critical_sows) feature_cols;
    predictions ←
      match model classifier with
      | Some est =>
          cells ← traverse float_cells X_critical;
          sk_predict est (zip feature_cols cells)
      | None => Raise AttributeError
      end;
    results ← traverse (getitem critical_sows) results_columns;
    criticality ← getitem critical_sows "Criticality";
    if negb (Nat.eqb (length predictions) (length (filter (fun b : bool => b) mask)))
    then Raise (ValueError "Length of values does not match length of index")
    else
      labels ← label_cells criticality;
      let marks := zip_with String.eqb labels predictions in
      let accuracy := percent_true marks in
      Ok (Checked marks accuracy (accuracy <? 75)%float).

End Learner.

(** *** Training *)

(** [sklearn.metrics.accuracy_score]: the share of predictions equal to the
    label; it refuses vectors of different lengths. What it answers for no
    sample at all is not modelled. *)
Definition accuracy_score (y_true y_pred : list string) : outcome Q :=
  if negb (Nat.eqb (length y_true) (length y_pred))
  then Raise (ValueError "Found input variables with inconsistent numbers of samples")
  else
    match length y_true with
    | O => Raise (Unmodelled "the accuracy of no sample")
    | S n =>
        Ok (Qmake (Z.of_nat (length (filter (fun b : bool => b)
                                       (zip_with String.eqb y_true y_pred))))
                  (Pos.of_succ_nat n))
    end.

(** [len(X)]: the rows of a matrix given by its named columns. *)
Definition n_samples (X : list (string * list R)) : nat :=
  match X with
  | [] => 0
  | (_, c) :: _ => length c
  end.

Definition set_model (m : option Estimator) (self : CriticalityClassifier)
  : CriticalityClassifier :=
  {| model_type := model_type self; model := m;
     feature_engineer := feature_engineer self;
     training_date := training_date self; metrics := metrics self |}.

Definition set_metrics (d : gmap string metric) (self : CriticalityClassifier)
  : CriticalityClassifier :=
  {| model_type := model_type self; model := model self;
     feature_engineer := feature_engineer self;
     training_date := training_date self; metrics := d |}.

Definition set_training_date (t : option string) (self : CriticalityClassifier)
  : CriticalityClassifier :=
  {| model_type := model_type self; model := model self;
     feature_engineer := feature_engineer self;
     training_date := t; metrics := metrics self |}.

(** The state of a training run: the classifier and the lines of the
    importance report printed so far. *)
Definition on_classifier (f : CriticalityClassifier -> CriticalityClassifier)
  : M (CriticalityClassifier * list line) unit :=
  modify (fun s => (f (fst s), snd s)).

Definition on_report {A} (m : M (list line) A)
  : M (CriticalityClassifier * list line) A :=
  fun s => match m (snd s) with
           | (x, out) => (x, (fst s, out))
           end.

Section Trainer.

(** scikit-learn behind [train]: [fit] of a new estimator of the model type
    ([None] when it raises: the classifier is then left with an estimator
    that is not fitted, for which this model has no value), [predict] of a
    fitted estimator, and the classification report and confusion matrix
    [_evaluate] prints, which may raise. The clock, as [train] formats it,
    and the sort of NumPy behind the importance report. *)
Variable np_argsort : list Q -> list nat.
Variable sk_fit :
  string -> list (string * list R) -> list string -> option Estimator.
Variable sk_predict : Estimator -> list (string * list R) -> outcome (list string).
Variable sk_report : list string -> list string -> outcome unit.
Variable now : string.

(** [_evaluate(X_train, y_train, X_test, y_test)] *)
Definition _evaluate (X_train : list (string * list R)) (y_train : list string)
  (X_test : list (string * list R)) (y_test : list string)
  : M (CriticalityClassifier * list line) unit :=
  s ← get;
  est ← lift (match model (fst s) with
              | Some est => Ok est
              | None => Raise AttributeError
              end);
  y_train_pred ← lift (sk_predict est X_train);
  y_test_pred ← lift (sk_predict est X_test);
  train_acc ← lift (accuracy_score y_train y_train_pred);
  test_acc ← lift (accuracy_score y_test y_test_pred);
  on_classifier
    (set_metrics
       (<["train_accuracy" := MFloat train_acc]>
        (<["test_accuracy" := MFloat test_acc]>
        (<["train_size" := MInt (Z.of_nat (n_samples X_train))]>
        (<["test_size" := MInt (Z.of_nat (n_samples X_test))]> ∅)))));;
  lift (sk_report y_test y_test_pred);;
  s ← get;
  on_report (_print_feature_importance np_argsort (fst s) (map fst X_train) 10).

(** [train(X_train, y_train, X_test, y_test)]. A model type that is neither
    of the two leaves [self.model] as it is: [None] on a new classifier;
    fitting an estimator that was put there before is not modelled. *)
Definition train (X_train : list (string * list R)) (y_train : list string)
  (X_test : list (string * list R)) (y_test : list string)
  : M (CriticalityClassifier * list line) unit :=
  s ← get;
  (if String.eqb (model_type (fst s)) "random_forest"
      || String.eqb (model_type (fst s)) "gradient_boosting"
   then
     match sk_fit (model_type (fst s)) X_train y_train with
     | Some est => on_classifier (set_model (Some est))
     | None => raise (Unmodelled "fit raised")
     end
   else
     match model (fst s) with
     | None => raise AttributeError
     | Some _ => raise (Unmodelled "fit of an estimator of another origin")
     end);;
  _evaluate X_train y_train X_test y_test;;
  on_classifier (set_training_date (Some now)).

End Trainer.

End TrainCriticalityModel.


(** ** data/generator.py *)

Module Generator.
Import FeatureEngineering TrainCriticalityModel.

Section Random.

(** Python's [random]: the state of the generator, [random.random()] and
    [random.randint(a, b)]. *)
Variable rng : Type.
Variable random_random : rng -> float * rng.
Variable random_randint : Z -> Z -> rng -> Z * rng.

(** [generate_realistic_workers(days_to_expire, budget)] *)
Definition generate_realistic_workers (days_to_expire budget : Z) (g : rng)
  : Z * rng :=
  if days_to_expire <? 0 then
    let (u, g) := random_random g in
    if (0x1.999999999999ap-5 <? u)%float then (0, g) else random_randint 1 2 g
  else if budget >? 500000 then random_randint 10 50 g
  else if budget >? 200000 then random_randint 5 20 g
  else if budget >? 50000 then random_randint 1 10 g
  else random_randint 0 5 g.

End Random.

(** [str(n)] of an integer. *)
Definition str (n : Z) : string := NilZero.string_of_int (Z.to_int n).

(** [s.zfill(width)]: zeros on the left up to [width] characters, after the
    sign if there is one. *)
Definition zeros (n : nat) : string := string_of_list_ascii (repeat "0"%char n).

Definition zfill (width : nat) (s : string) : string :=
  let pad := zeros (width - String.length s) in
  match s with
  | String c rest =>
      if Ascii.eqb c "-" || Ascii.eqb c "+" then String c (pad +:+ rest)
      else pad +:+ s
  | EmptyString => pad
  end.

(** [generate_sow_id(year, index)] and [generate_contract_id(year, index)] *)
Definition generate_sow_id (year index : Z) : string :=
  "SOW-" +:+ str year +:+ "-" +:+ zfill 4 (str index).

Definition generate_contract_id (year index : Z) : string :=
  "CNT-" +:+ str year +:+ "-" +:+ zfill 4 (str index).

(** A sum of a column: [int64] sums wrap around. *)
Inductive number : Type :=
| NInt (n : Z)
| NFloat (x : R).

Definition Zsum (xs : list Z) : Z := foldr Z.add 0 xs.

Definition column_sum (c : column) : outcome number :=
  match c with
  | IntCol xs => Ok (NInt (wrap64 (Zsum xs)))
  | FloatCol xs => Ok (NFloat (Rsum xs))
  | StrCol _ => Raise (Unmodelled "a sum of strings")
  end.

Definition count_true (mask : list bool) : nat :=
  length (filter (fun b : bool => b) mask).

(** The entries of the dictionary [generate_statistics] returns, in its
    order. *)
Record statistics : Type := {
  total_sows : nat;
  critical_sows : nat;
  sows_with_workers : nat;
  critical_sows_with_workers : nat;
  workers_at_risk : Z;
  budget_total_usd : number;
  mean_workers : R;
  expired_sows : nat
}.

(** [generate_statistics(df)]. The comparisons are modelled on [int64]
    columns and the test of the currency on a column of strings; the mean of
    no row is not a number. *)
Definition generate_statistics (df : DataFrame) : outcome statistics :=
  days_col ← getitem df "# Days before expiration";
  days ← int_cells days_col;
  workers_col ← getitem df "Active SOW workers";
  workers ← int_cells workers_col;
  let critical := map (fun d => d <=? 30) days in
  let staffed := map (fun w => w >? 0) workers in
  currency_col ← getitem df "currency";
  currency ← label_cells currency_col;
  budget_col ← getitem df "Latest maximum budget";
  budget ← column_sum
             (select_column (map (fun c => String.eqb c "USD") currency) budget_col);
  mean ← match workers with
         | [] => Raise (Unmodelled "the mean of no row")
         | _ => Ok (IZR (Zsum workers) / INR (length workers))%R
         end;
  Ok {| total_sows := length days;
        critical_sows := count_true critical;
        sows_with_workers := count_true staffed;
        critical_sows_with_workers := count_true (zip_with andb critical staffed);
        workers_at_risk := wrap64 (Zsum (select critical workers));
        budget_total_usd := budget;
        mean_workers := mean;
        expired_sows := count_true (map (fun d => d <? 0) days) |}.

End Generator.


(** ** The service: app/crud.py, app/main.py, app/api.py *)

Module App.

(** A value of a JSON record as Python holds it. Of a list or an object only
    the emptiness is ever looked at. *)
Inductive jvalue : Type :=
| JNull
| JBool (b : bool)
| JInt (n : Z)
| JFloat (x : float)
| JStr (s : string)
| JContainer (empty : bool).

(** Python's truth value: [if not v], [v or ""]. *)
Definition truthy (v : jvalue) : bool :=
  match v with
  | JNull => false
  | JBool b => b
  | JInt n => negb (n =? 0)
  | JFloat x => negb (PrimFloat.eqb x 0%float)
  | JStr s => negb (String.eqb s "")
  | JContainer empty => negb empty
  end.

(** The exceptions of the service: Python's own, pydantic's, SQLAlchemy's,
    FastAPI's, and whatever the language model client or the mail server
    raises. *)
Inductive app_exn : Type :=
| Py (e : exn)
| ValidationError
| IntegrityError
| HTTPException (status_code : Z) (detail : string)
| ExternalError (what : string).

Inductive result (A : Type) : Type :=
| Return (a : A)
| Throw (e : app_exn).
Arguments Return {A} a.
Arguments Throw {A} e.

Definition Eff (S A : Type) : Type := S -> result A * S.

#[export] Instance result_ret : MRet result := fun A a => Return a.
#[export] Instance result_bind : MBind result :=
  fun A B f x => match x with Return a => f a | Throw e => Throw e end.
#[export] Instance Eff_ret {S} : MRet (Eff S) := fun A a s => (Return a, s).
#[export] Instance Eff_bind {S} : MBind (Eff S) :=
  fun A B f m s => match m s with
                   | (Return a, s') => f a s'
                   | (Throw e, s') => (Throw e, s')
                   end.

Definition pure_ {S A} (x : result A) : Eff S A := fun s => (x, s).

(** *** crud.py *)

Definition KEY_MAPPING : gmap string string :=
  list_to_map
    [("SOW ID", "sow_id");
     ("# Days before expiration", "days_before_expiration");
     ("SOW Status", "sow_status");
     ("SOW title", "sow_title");
     ("Contract Id", "contract_id");
     ("Active SOW workers", "active_sow_workers");
     ("Start Date", "start_date");
     ("End date", "end_date");
     ("Latest maximum budget", "latest_maximum_budget");
     ("currency", "currency");
     ("supplier", "supplier");
     ("Business Unit", "business_unit");
     ("Primary LOB", "primary_lob");
     ("SOW owner", "sow_owner");
     ("risk", "risk");
     ("status", "status")].

(** [normalize_sow_data]: the loop over the items of the dictionary. *)
Definition normalize_sow_data (raw_dict : gmap string jvalue)
  : gmap string jvalue :=
  map_fold (fun key value normalized =>
              match KEY_MAPPING !! key with
              | Some key' => <[key' := value]> normalized
              | None => normalized
              end)
           ∅ raw_dict.

Record date : Type := { year : Z; month : Z; day : Z }.

(** models.py: a row of table [sow]. *)
Record SOW : Type := {
  id : Z;
  sow_id : string;
  days_before_expiration : Z;
  sow_status : string;
  sow_title : string;
  contract_id : string;
  active_sow_workers : Z;
  start_date : date;
  end_date : date;
  latest_maximum_budget : float;
  currency : string;
  supplier : string;
  business_unit : string;
  primary_lob : string;
  sow_owner : string;
  risk : string;
  status : string
}.

Inductive action : Type := Created | Updated.

(** A [str] field of the request: pydantic takes a string and nothing else. *)
Definition str_field (normalized : gmap string jvalue) (key : string)
  : option string :=
  match normalized !! key with
  | Some (JStr s) => Some s
  | _ => None
  end.

Definition set_risk (s : string) (r : SOW) : SOW :=
  {| id := id r; sow_id := sow_id r;
     days_before_expiration := days_before_expiration r;
     sow_status := sow_status r; sow_title := sow_title r;
     contract_id := contract_id r; active_sow_workers := active_sow_workers r;
     start_date := start_date r; end_date := end_date r;
     latest_maximum_budget := latest_maximum_budget r; currency := currency r;
     supplier := supplier r; business_unit := business_unit r;
     primary_lob := primary_lob r; sow_owner := sow_owner r;
     risk := s; status := status r |}.

Definition set_status (s : string) (r : SOW) : SOW :=
  {| id := id r; sow_id := sow_id r;
     days_before_expiration := days_before_expiration r;
     sow_status := sow_status r; sow_title := sow_title r;
     contract_id := contract_id r; active_sow_workers := active_sow_workers r;
     start_date := start_date r; end_date := end_date r;
     latest_maximum_budget := latest_maximum_budget r; currency := currency r;
     supplier := supplier r; business_unit := business_unit r;
     primary_lob := primary_lob r; sow_owner := sow_owner r;
     risk := risk r; status := s |}.

(** [existing.risk = normalized["risk"]] followed by the commit: the column
    is a string that may not be null. A value that is neither is stored
    under SQLite's conversion rules, which are not modelled. *)
Definition assign (setter : string -> SOW -> SOW)
  (normalized : gmap string jvalue) (key : string) (r : SOW) : result SOW :=
  match normalized !! key with
  | None => Return r
  | Some (JStr s) => Return (setter s r)
  | Some JNull => Throw IntegrityError
  | Some _ => Throw (Py (Unmodelled "a value that is not a string in a string column"))
  end.

(** The table: its rows in the order of their keys. *)
Definition first_with_sow_id (db : list SOW) (s : string) : option SOW :=
  List.find (fun r => String.eqb (sow_id r) s) db.

Definition replace_row (r' : SOW) (db : list SOW) : list SOW :=
  map (fun r => if id r =? id r' then r' else r) db.

(** The key SQLite gives a new row: one more than the largest. *)
Definition next_id (db : list SOW) : Z := 1 + foldr Z.max 0 (map id db).

(** What SQLite stores as it is given: a 64-bit integer, a float that is a
    number. *)
Definition int64 (n : Z) : bool := (- 2 ^ 63 <=? n) && (n <? 2 ^ 63).

Definition storable (r : SOW) : bool :=
  int64 (days_before_expiration r) && int64 (active_sow_workers r)
  && negb (PrimFloat.is_nan (latest_maximum_budget r)).

(** *** main.py: text of a risk or status *)

Definition code (c : ascii) : Z := Z.of_N (N_of_ascii c).

Definition is_ascii (s : string) : bool :=
  forallb (fun c => code c <? 128) (list_ascii_of_string s).

(** [str.isspace] on an ASCII character. *)
Definition isspace (c : ascii) : bool :=
  ((9 <=? code c) && (code c <=? 13)) || ((28 <=? code c) && (code c <=? 32)).

Definition strip (s : string) : string :=
  string_of_list_ascii
    (rev (TrainCriticalityModel.drop_while isspace
            (rev (TrainCriticalityModel.drop_while isspace
                    (list_ascii_of_string s))))).

Definition lower_char (c : ascii) : ascii :=
  if (65 <=? code c) && (code c <=? 90)
  then ascii_of_N (N_of_ascii c + 32)
  else c.

Definition lower (s : string) : string :=
  string_of_list_ascii (map lower_char (list_ascii_of_string s)).

(** [s.strip().lower()]; outside ASCII Python consults the Unicode tables,
    which are not modelled. *)
Definition strip_lower (s : string) : result string :=
  if is_ascii s then Return (lower (strip s))
  else Throw (Py (Unmodelled "text outside ASCII")).

(** [is_high_risk_or_status(risk, status)]. *)
Definition is_high_risk_or_status (risk status : option string) : result bool :=
  risk_val ← strip_lower (default "" risk);
  status_val ← strip_lower (default "" status);
  Return (String.eqb risk_val "high" || String.eqb status_val "flagged").

(** [(sow_data.get('risk') or "").strip().lower()]. *)
Definition risk_text (v : option jvalue) : result string :=
  match v with
  | None => Return ""
  | Some (JStr s) => strip_lower s
  | Some v => if truthy v then Throw (Py AttributeError) else Return ""
  end.

(** A value of the record handed to the language model. *)
Inductive pvalue : Type :=
| VStr (s : string)
| VInt (n : Z)
| VFloat (x : float)
| VDate (d : date).

(** The answer of the language model: its text, and what [json.loads] makes
    of it. *)
Inductive llm_reply : Type :=
| NotJson (content : string)
| JsonObject (content : string) (fields : gmap string jvalue)
| JsonOther (content : string).

(** The service: the table, the mail that was sent, the console. *)
Record server : Type := {
  db : list SOW;
  outbox : list (jvalue * jvalue);
  stdout : list string
}.

Definition on_db {A} (m : Eff (list SOW) A) : Eff server A :=
  fun s => match m (db s) with
           | (x, db') => (x, {| db := db'; outbox := outbox s; stdout := stdout s |})
           end.

Definition print_line (l : string) : Eff server unit :=
  fun s => (Return tt, {| db := db s; outbox := outbox s; stdout := (stdout s ++ [l])%list |}).

(** [email_data.get(key, fallback)] inside the [try]: the fallback pair on a
    text that is not JSON, and no [get] on JSON that is not an object. *)
Definition subject_and_body (reply : llm_reply) (fallback_subject : string)
  : result (jvalue * jvalue) :=
  match reply with
  | NotJson content => Return (JStr fallback_subject, JStr content)
  | JsonObject content fields =>
      Return (default (JStr fallback_subject) (fields !! "subject"),
              default (JStr content) (fields !! "body"))
  | JsonOther content => Throw (Py AttributeError)
  end.

Record upload_response : Type := {
  message : string;
  total_received : nat;
  created : Z;
  updated : Z;
  sow_ids : list string
}.

Record email_response : Type := {
  email_message : string;
  email_sow_id : string;
  email_subject : jvalue
}.

Section Service.

(** pydantic's conversions of the fields that are not strings. *)
Variable parse_int : jvalue -> option Z.
Variable parse_float : jvalue -> option float.
Variable parse_date : jvalue -> option date.

(** The language model behind [email_chain.invoke] and the mail server behind
    [send_email]. *)
Variable invoke : list (string * pvalue) -> result llm_reply.
Variable deliver : jvalue -> jvalue -> result unit.

(** The row built from [CreateSOWRequest] on the normalized fields, with key
    [new_id]: every field is required and validated. *)
Definition CreateSOWRequest (normalized : gmap string jvalue) (new_id : Z)
  : option SOW :=
  sow_id ← str_field normalized "sow_id";
  days ← normalized !! "days_before_expiration" ≫= parse_int;
  sow_status ← str_field normalized "sow_status";
  sow_title ← str_field normalized "sow_title";
  contract_id ← str_field normalized "contract_id";
  workers ← normalized !! "active_sow_workers" ≫= parse_int;
  start_date ← normalized !! "start_date" ≫= parse_date;
  end_date ← normalized !! "end_date" ≫= parse_date;
  budget ← normalized !! "latest_maximum_budget" ≫= parse_float;
  currency ← str_field normalized "currency";
  supplier ← str_field normalized "supplier";
  business_unit ← str_field normalized "business_unit";
  primary_lob ← str_field normalized "primary_lob";
  sow_owner ← str_field normalized "sow_owner";
  risk ← str_field normalized "risk";
  status ← str_field normalized "status";
  Some {| id := new_id; sow_id := sow_id; days_before_expiration := days;
          sow_status := sow_status; sow_title := sow_title;
          contract_id := contract_id; active_sow_workers := workers;
          start_date := start_date; end_date := end_date;
          latest_maximum_budget := budget; currency := currency;
          supplier := supplier; business_unit := business_unit;
          primary_lob := primary_lob; sow_owner := sow_owner;
          risk := risk; status := status |}.

(** [create_or_update_sow(db, raw_sow_dict)]; the state is the table. A
    [sow_id] that is true and not a string is compared by SQLite under its
    conversion rules, which are not modelled. *)
Definition create_or_update_sow (raw_sow_dict : gmap string jvalue)
  : Eff (list SOW) (SOW * action) :=
  fun db =>
    let normalized := normalize_sow_data raw_sow_dict in
    match normalized !! "sow_id" with
    | Some (JStr s) =>
        if String.eqb s "" then
          (Throw (Py (ValueError "sow_id is required to create or update a SOW")), db)
        else
          match first_with_sow_id db s with
          | Some existing =>
              match r ← assign set_risk normalized "risk" existing;
                    assign set_status normalized "status" r with
              | Return r => (Return (r, Updated), replace_row r db)
              | Throw e => (Throw e, db)
              end
          | None =>
              match CreateSOWRequest normalized (next_id db) with
              | Some new_sow =>
                  if storable new_sow
                  then (Return (new_sow, Created), (db ++ [new_sow])%list)
                  else (Throw (Py (Unmodelled "a number SQLite does not store as given")), db)
              | None => (Throw ValidationError, db)
              end
          end
    | Some v =>
        if truthy v then
          (Throw (Py (Unmodelled "a sow_id that is not a string")), db)
        else
          (Throw (Py (ValueError "sow_id is required to create or update a SOW")), db)
    | None =>
        (Throw (Py (ValueError "sow_id is required to create or update a SOW")), db)
    end.

(** [send_email(subject, body, ALERT_EMAIL_TO)]. *)
Definition send_email (subject body : jvalue) : Eff server unit :=
  fun s => match deliver subject body with
           | Return _ =>
               (Return tt, {| db := db s;
                              outbox := (outbox s ++ [(subject, body)])%list;
                              stdout := stdout s |})
           | Throw e => (Throw e, s)
           end.

(** The record of a row sent to the model by [process_sow_record]. *)
Definition sow_json (sow_obj : SOW) : list (string * pvalue) :=
  [("sow_id", VStr (sow_id sow_obj));
   ("sow_title", VStr (sow_title sow_obj));
   ("sow_status", VStr (sow_status sow_obj));
   ("risk", VStr (risk sow_obj));
   ("status", VStr (status sow_obj));
   ("supplier", VStr (supplier sow_obj));
   ("business_unit", VStr (business_unit sow_obj));
   ("primary_lob", VStr (primary_lob sow_obj));
   ("sow_owner", VStr (sow_owner sow_obj));
   ("start_date", VDate (start_date sow_obj));
   ("end_date", VDate (end_date sow_obj));
   ("latest_maximum_budget", VFloat (latest_maximum_budget sow_obj));
   ("currency", VStr (currency sow_obj))].

(** [process_sow_record(db, raw_sow_dict)]. *)
Definition process_sow_record (raw_sow_dict : gmap string jvalue)
  : Eff server (SOW * action) :=
  let sow_data := raw_sow_dict in
  risk_val ← pure_ (risk_text (sow_data !! "risk"));
  let sow_data :=
    match sow_data !! "status" with
    | None =>
        if String.eqb risk_val "high"
        then <["status" := JStr "flagged"]> sow_data
        else <["status" := JStr "healthy"]> sow_data
    | Some _ => sow_data
    end in
  '(sow_obj, action) ← on_db (create_or_update_sow sow_data);
  match action with
  | Created =>
      alert ← pure_ (is_high_risk_or_status (Some (risk sow_obj))
                                            (Some (status sow_obj)));
      if (alert : bool) then
        llm_response ← pure_ (invoke (sow_json sow_obj));
        '(subject, body) ← pure_ (subject_and_body llm_response
                                    ("High Risk SOW: " ++ sow_id sow_obj));
        send_email subject body;;
        print_line ("Email sent for HIGH RISK SOW " ++ sow_id sow_obj)
      else
        print_line ("New SOW created (not high risk): " ++ sow_id sow_obj)
  | Updated =>
      print_line ("SOW updated: " ++ sow_id sow_obj)
  end;;
  mret (sow_obj, action).

(** *** api.py *)

(** The loop of [upload_sows]. *)
Fixpoint upload_loop (sows : list (gmap string jvalue))
  (created updated : Z) (sow_ids : list string)
  : Eff server (Z * Z * list string) :=
  match sows with
  | [] => mret (created, updated, sow_ids)
  | raw_sow :: rest =>
      '(sow_obj, action) ← process_sow_record raw_sow;
      let sow_ids := (sow_ids ++ [sow_id sow_obj])%list in
      match action with
      | Created => upload_loop rest (created + 1) updated sow_ids
      | Updated => upload_loop rest created (updated + 1) sow_ids
      end
  end.

Definition upload_sows (sows : list (gmap string jvalue))
  : Eff server upload_response :=
  '(created, updated, sow_ids) ← upload_loop sows 0 0 [];
  mret {| message := "Dataset procesado correctamente";
          total_received := length sows;
          created := created; updated := updated; sow_ids := sow_ids |}.

(** An item of [analyze_sows]. *)
Definition analyze_item (sow : SOW) : list (string * pvalue) :=
  [("sow_id", VStr (sow_id sow));
   ("contract_id", VStr (contract_id sow));
   ("title", VStr (sow_title sow));
   ("status", VStr (status sow));
   ("risk", VStr (risk sow));
   ("days_before_expiration", VInt (days_before_expiration sow));
   ("active_workers", VInt (active_sow_workers sow));
   ("latest_maximum_budget", VFloat (latest_maximum_budget sow));
   ("currency", VStr (currency sow));
   ("supplier", VStr (supplier sow));
   ("business_unit", VStr (business_unit sow));
   ("primary_lob", VStr (primary_lob sow));
   ("sow_owner", VStr (sow_owner sow))].

Definition analyze_sows : Eff server (nat * list (list (string * pvalue))) :=
  fun s => let items := map analyze_item (db s) in
           (Return (length items, items), s).

(** The record of a row sent to the model by [generate_email]. *)
Definition sow_payload (sow_obj : SOW) : list (string * pvalue) :=
  [("sow_id", VStr (sow_id sow_obj));
   ("sow_title", VStr (sow_title sow_obj));
   ("sow_status", VStr (sow_status sow_obj));
   ("risk", VStr (risk sow_obj));
   ("status", VStr (status sow_obj));
   ("supplier", VStr (supplier sow_obj));
   ("business_unit", VStr (business_unit sow_obj));
   ("primary_lob", VStr (primary_lob sow_obj));
   ("sow_owner", VStr (sow_owner sow_obj));
   ("start_date", VDate (start_date sow_obj));
   ("end_date", VDate (end_date sow_obj));
   ("days_before_expiration", VInt (days_before_expiration sow_obj));
   ("active_sow_workers", VInt (active_sow_workers sow_obj));
   ("latest_maximum_budget", VFloat (latest_maximum_budget sow_obj));
   ("currency", VStr (currency sow_obj))].

(** [generate_email(sow_id, db)]. *)
Definition generate_email (sow_id_ : string) : Eff server email_response :=
  fun s =>
    match first_with_sow_id (db s) sow_id_ with
    | None => (Throw (HTTPException 404 "SOW no encontrado"), s)
    | Some sow_obj =>
        (llm_response ← pure_ (invoke (sow_payload sow_obj));
         '(subject, body) ← pure_ (subject_and_body llm_response
                                     ("[SOW Compliance] High Risk SOW " ++ sow_id sow_obj));
         send_email subject body;;
         mret {| email_message := "Email generado y enviado";
                 email_sow_id := sow_id sow_obj;
                 email_subject := subject |}) s
    end.

End Service.

End App.
Import FeatureEngineering TrainCriticalityModel.

(** ** The statements of the specification, and sample data *)

(** The rules of the label engine as the rule table words them. *)
Definition rule1 (days workers : Z) : Prop :=
  days <= 30 /\ workers > 0.

Definition rule2 (days workers : Z) : Prop :=
  (days <= 30 /\ workers = 0) \/ (31 <= days <= 60 /\ workers > 5).

Definition rule3 (days : Z) : Prop :=
  31 <= days <= 90.

Definition boundary_days : list Z := [-1; 0; 30; 31; 60; 61; 90; 91].
Definition boundary_workers : list Z := [0; 1; 6].

(** The label the rule table gives each boundary pair, worked out by hand. *)
Definition boundary_table : list (Z * Z * Criticality) :=
  [(-1, 0, ALTO); (-1, 1, CRITICO); (-1, 6, CRITICO);
   (0, 0, ALTO); (0, 1, CRITICO); (0, 6, CRITICO);
   (30, 0, ALTO); (30, 1, CRITICO); (30, 6, CRITICO);
   (31, 0, MEDIO); (31, 1, MEDIO); (31, 6, ALTO);
   (60, 0, MEDIO); (60, 1, MEDIO); (60, 6, ALTO);
   (61, 0, MEDIO); (61, 1, MEDIO); (61, 6, MEDIO);
   (90, 0, MEDIO); (90, 1, MEDIO); (90, 6, MEDIO);
   (91, 0, BAJO); (91, 1, BAJO); (91, 6, BAJO)].

(** A frame has column [col], and [cells] reads [xs] from it. *)
Definition has_cells {A} (d : DataFrame) (col : string)
  (cells : column -> outcome A) (xs : A) : Prop :=
  exists c, d !! col = Some c /\ cells c = Ok xs.

(** The column [create_criticality_label] adds. *)
Definition criticality_column (days workers : list Z) : column :=
  StrCol (map label_name (zip_with classify days workers)).

(** Two contracts: the first expires in 28 days with 25 people on it. *)
Definition sample_frame : DataFrame :=
  list_to_map
    [("# Days before expiration", IntCol [28; 100]);
     ("Active SOW workers", IntCol [25; 0]);
     ("Latest maximum budget", IntCol [1500000; 20000]);
     ("supplier", StrCol ["Zeta"; "Acme"]);
     ("Business Unit", StrCol ["IT"; "IT"]);
     ("Primary LOB", StrCol ["Ops"; "Fin"]);
     ("currency", StrCol ["USD"; "EUR"])].

(** A new engineer and one frame, at reference 0. *)
Definition sample_world : world :=
  {| frames := {[ 0%nat := sample_frame ]};
     self := SOWFeatureEngineering_init |}.

(** The value of [risk_score] in exact arithmetic. *)
Definition risk_value (days workers : Z) : R :=
  (IZR (wrap64 (30 - days) * astype_int (workers >? 0))
   * (1 + ln (1 + IZR workers)))%R.

(** The frame after the numeric sections of [engineer_features], for day
    counts [days], head counts [workers] and budgets [budget]. *)
Definition numeric_frame (d : DataFrame) (days workers : list Z)
  (budget : list R) : DataFrame :=
  <["risk_score" := FloatCol (zip_with risk_value days workers)]>
  (<["budget_per_worker" :=
       FloatCol (zip_with budget_per_worker_cell budget workers)]>
  (<["budget_normalized" := FloatCol (map (fun b => b / 1000000)%R budget)]>
  (<["worker_criticality_score" :=
       IntCol (zip_with Z.mul workers
                 (map (fun d => astype_int (d <=? 30)) days))]>
  (<["worker_count" := IntCol workers]>
  (<["has_workers" := IntCol (map (fun w => astype_int (w >? 0)) workers)]>
  (<["is_high_priority_window" :=
       IntCol (map (fun d => astype_int ((d >? 30) && (d <=? 60))) days)]>
  (<["is_critical_window" := IntCol (map (fun d => astype_int (d <=? 30)) days)]>
  (<["is_expired" := IntCol (map (fun d => astype_int (d <? 0)) days)]>
  (<["days_to_expire" := IntCol days]> d))))))))).

(** The raw numeric columns of a frame, as the data model types them; head
    counts are not below zero. *)
Record numeric_columns (d : DataFrame) (days workers : list Z)
  (budget : list R) : Prop := {
  col_days : has_cells d "# Days before expiration" int_cells days;
  col_workers : has_cells d "Active SOW workers" int_cells workers;
  col_budget : has_cells d "Latest maximum budget" float_cells budget;
  workers_not_negative : Forall (fun w => 0 <= w) workers
}.

(** The code of a value among fitted classes: its position in them. *)
Definition code_of (classes : list string) (y : string) : Z :=
  match index_of y classes with
  | Some i => Z.of_nat i
  | None => 0
  end.

(** The frame after the loop over the categorical columns [cols], when
    column [col] holds [cells col] and is encoded with [classes col]. *)
Definition with_encoded (cells classes : string -> list string)
  (cols : list string) (d : DataFrame) : DataFrame :=
  foldl (fun d col =>
           <[col +:+ "_encoded" :=
               IntCol (map (code_of (classes col)) (cells col))]> d)
        d cols.

(** The encoders after each column of [cols] was fitted on [cells col]. *)
Definition with_fitted (cells : string -> list string) (cols : list string)
  (encs : gmap string LabelEncoder) : gmap string LabelEncoder :=
  foldl (fun m col => <[col := Some (np_unique (cells col))]> m) encs cols.

(** The categorical columns of a frame hold [cells col], read as strings. *)
Definition categorical_columns (d : DataFrame)
  (cells : string -> list string) : Prop :=
  forall col, col ∈ categorical_cols -> has_cells d col astype_str (cells col).

(** Every categorical column has an encoder, fitted with [classes col]. *)
Definition fitted_with (fe : SOWFeatureEngineering)
  (classes : string -> list string) : Prop :=
  forall col, col ∈ categorical_cols ->
    label_encoders fe !! col = Some (Some (classes col)).

(** No name of an encoded column is the name of a column to encode. *)
Definition names_apart (cols : list string) : Prop :=
  forall c c', c ∈ cols -> c' ∈ cols -> c +:+ "_encoded" <> c'.

Definition unseen_labels : exn :=
  ValueError "y contains previously unseen labels".

(** The strings a frame holds in column [col] (none when it has no such
    column). *)
Definition cells_of (d : DataFrame) (col : string) : list string :=
  match d !! col with
  | Some c => match astype_str c with
              | Ok ys => ys
              | Raise _ => []
              end
  | None => []
  end.

(** A later batch: three contracts, every category already in
    [sample_frame]. *)
Definition later_frame : DataFrame :=
  list_to_map
    [("# Days before expiration", IntCol [10; 45; 200]);
     ("Active SOW workers", IntCol [3; 8; 1]);
     ("Latest maximum budget", IntCol [50000; 850000; 450000]);
     ("supplier", StrCol ["Acme"; "Acme"; "Zeta"]);
     ("Business Unit", StrCol ["IT"; "IT"; "IT"]);
     ("Primary LOB", StrCol ["Fin"; "Ops"; "Fin"]);
     ("currency", StrCol ["EUR"; "USD"; "USD"])].

(** A contract of a supplier that [sample_frame] does not have. *)
Definition unseen_frame : DataFrame :=
  list_to_map
    [("# Days before expiration", IntCol [15]);
     ("Active SOW workers", IntCol [12]);
     ("Latest maximum budget", IntCol [850000]);
     ("supplier", StrCol ["Nova"]);
     ("Business Unit", StrCol ["IT"]);
     ("Primary LOB", StrCol ["Ops"]);
     ("currency", StrCol ["USD"])].

(** A new engineer and three frames, at references 0, 1 and 2. *)
Definition three_frames : world :=
  {| frames := <[0%nat := sample_frame]>
                 (<[1%nat := later_frame]> {[ 2%nat := unseen_frame ]});
     self := SOWFeatureEngineering_init |}.

(** The classes an engineer holds for column [col] (none when it has no
    fitted encoder for it). *)
Definition classes_of (fe : SOWFeatureEngineering) (col : string)
  : list string :=
  match label_encoders fe !! col with
  | Some (Some classes) => classes
  | _ => []
  end.

(** [three_frames] after the engineer has seen [sample_frame]. *)
Definition fitted_world : world := (engineer_features 0%nat three_frames).2.

(** [three_frames] after a first and after a second [prepare_for_training],
    on [sample_frame] and then on [later_frame]. *)
Definition prepared_once : world := (prepare_for_training 0%nat three_frames).2.
Definition prepared_twice : world := (prepare_for_training 1%nat prepared_once).2.

(** A fifth of [n], rounded up: what [ceil(0.2 * n)] is in exact arithmetic. *)
Definition fifth_up (n : Z) : Z := (n + 4) / 5.

(** The binary64 computation gives [fifth_up n] for row count [n]. *)
Definition ceil_agrees (n : Z) : bool :=
  match math_ceil (PrimFloat.mul test_size_0_2 (PrimFloat.of_uint63 (Uint63.of_Z n))) with
  | Ok c => c =? fifth_up n
  | Raise _ => false
  end.

(** [ceil_agrees] on the [fuel] row counts from [n] on. *)
Fixpoint ceil_agrees_from (fuel : nat) (n : Z) : bool :=
  match fuel with
  | O => true
  | S fuel' => if ceil_agrees n then ceil_agrees_from fuel' (n + 1) else false
  end.

(** The largest row count for which the sizes are checked. *)
Definition checked_rows : Z := 20000.

(** Label vectors with four classes: two, and four, contracts per class. *)
Definition two_per_class : list string :=
  ["BAJO"; "BAJO"; "MEDIO"; "MEDIO"; "ALTO"; "ALTO"; "CRÍTICO"; "CRÍTICO"].

Definition four_per_class : list string :=
  (two_per_class ++ two_per_class)%list.

(** [metrics_file] of [save_model]. *)
Definition metrics_file (filepath : string) : string :=
  str_replace filepath ".pkl" "_metrics.json".

(** The classifier [load_model] builds from what [save_model] wrote for
    [self]. *)
Definition reloaded (self : CriticalityClassifier) : CriticalityClassifier :=
  {| model_type := model_type self;
     model := model self;
     feature_engineer := None;
     training_date := training_date self;
     metrics := metrics self |}.

(** No name on the way to a place, the place included, is the name of a
    regular file. *)
Fixpoint clear_way (fs : filesystem) (absolute : bool) (names : list string)
  : bool :=
  match names with
  | [] => true
  | _ :: above =>
      clear_way fs absolute above
      && match fs !! (absolute, names) with
         | Some (Regular _) => false
         | _ => true
         end
  end.

(** [fs'] is [fs] but for directories made on the way to a place, the place
    included. *)
Definition made_on_the_way (fs fs' : filesystem) (absolute : bool)
  (names : list string) : Prop :=
  forall k : place,
    fs' !! k = fs !! k \/
    (fs !! k = None /\ fs' !! k = Some Directory
     /\ k.1 = absolute /\ k.2 `suffix_of` names).

(** [save_model] can write at [filepath]: the path names the file [n], and
    the path of the metrics the file [m], of one directory, which is given
    with the path; no name on the way to the directory is a regular file,
    and neither [n] nor [m] is a directory. *)
Record can_save (fs : filesystem) (filepath : string) (absolute : bool)
  (above : list string) (n m : string) : Prop := {
  pickle_place : locate filepath = Ok (absolute, n :: above);
  metrics_place : locate (metrics_file filepath) = Ok (absolute, m :: above);
  directory_given : dirname filepath <> "";
  way_is_clear : clear_way fs absolute above = true;
  pickle_place_free : fs !! (absolute, n :: above) <> Some Directory;
  metrics_place_free : fs !! (absolute, m :: above) <> Some Directory
}.

(** The system finds the same kind of thing. *)
Definition same_kind (u v : found) : Prop :=
  match u, v with
  | Missing, Missing | Blocked, Blocked
  | Found Directory, Found Directory
  | Found (Regular _), Found (Regular _) => True
  | _, _ => False
  end.

(** A fitted estimator: the importances of the 14 features, some of them
    equal. *)
Definition sample_estimator : Estimator :=
  {| feature_names_in_ := Some get_feature_columns;
     feature_importances_ :=
       [3 # 10; 0; 1 # 10; 0; 1 # 20; 1 # 10; 1 # 10;
        1 # 20; 1 # 20; 1 # 5; 1 # 40; 0; 1 # 40; 0]%Q |}.

(** A trained classifier as the script has it before saving: the estimator,
    the fitted engineer, the date and the four metrics. *)
Definition trained_sample : CriticalityClassifier :=
  {| model_type := "random_forest";
     model := Some sample_estimator;
     feature_engineer := Some (self prepared_once);
     training_date := Some "2024-05-01 10:00:00";
     metrics :=
       list_to_map [("train_accuracy", MFloat 1%Q);
                    ("test_accuracy", MFloat (9 # 10)%Q);
                    ("train_size", MInt 12);
                    ("test_size", MInt 4)] |}.

(** The importance of feature [j]. *)
Definition score (importances : list Q) (j : nat) : Q :=
  default 0%Q (importances !! j).

(** Feature [j] is no less important than feature [k]. *)
Definition no_less_important (importances : list Q) (j k : nat) : Prop :=
  (score importances k <= score importances j)%Q.

(** The line printed at rank [ij.1] for feature [ij.2]. *)
Definition report_line (feature_names : list string) (importances : list Q)
  (ij : nat * nat) : line :=
  (ij.1, default "" (feature_names !! ij.2), score importances ij.2).

(** What NumPy documents of [np.argsort] on numbers: the indices of the
    array, each once, in an order in which the scores do not descend. *)
Definition sorts_ascending (argsort : list Q -> list nat) : Prop :=
  forall scores : list Q,
    argsort scores ≡ₚ seq 0 (length scores) /\
    StronglySorted (fun j k => no_less_important scores k j) (argsort scores).

(** Ascending order on (index, score) pairs. *)
Definition ascending (p q : nat * Q) : Prop := (p.2 <= q.2)%Q.

(** Sorts that do so: each score is inserted into the sorted rest, before
    the first score that is larger, or that is equal and that [tie] puts it
    before. *)
Fixpoint insert_by_score (tie : nat -> nat -> bool) (x : nat * Q)
  (l : list (nat * Q)) : list (nat * Q) :=
  match l with
  | [] => [x]
  | y :: l' =>
      if Qle_bool (snd x) (snd y)
         && (negb (Qle_bool (snd y) (snd x)) || tie (fst x) (fst y))
      then x :: l
      else y :: insert_by_score tie x l'
  end.

Definition argsort_with (tie : nat -> nat -> bool) (scores : list Q) : list nat :=
  map fst (foldr (insert_by_score tie) [] (enumerate 0 scores)).

(** Equal scores in the order of their indices: a stable sort. *)
Definition in_index_order (j k : nat) : bool := (j <? k)%nat.

(** Equal scores in the order of a list of indices, those it does not have
    last. *)
Definition rank (order : list nat) (j : nat) : nat :=
  length (take_while (fun i => negb (Nat.eqb i j)) order).

Definition in_order_of (order : list nat) (j k : nat) : bool :=
  (rank order j <=? rank order k)%nat.

(** The feature matrix before scaling, column by column, in the order of
    [get_feature_columns]. *)
Definition raw_matrix (days workers : list Z) (budget : list R)
  (cells classes : string -> list string) : list (list R) :=
  [map IZR days;
   map IZR (map (fun d => astype_int (d <? 0)) days);
   map IZR (map (fun d => astype_int (d <=? 30)) days);
   map IZR (map (fun d => astype_int ((d >? 30) && (d <=? 60))) days);
   map IZR (map (fun w => astype_int (w >? 0)) workers);
   map IZR workers;
   map IZR (zip_with Z.mul workers (map (fun d => astype_int (d <=? 30)) days));
   map (fun b => b / 1000000)%R budget;
   zip_with budget_per_worker_cell budget workers;
   zip_with risk_value days workers;
   map IZR (map (code_of (classes "supplier")) (cells "supplier"));
   map IZR (map (code_of (classes "Business Unit")) (cells "Business Unit"));
   map IZR (map (code_of (classes "Primary LOB")) (cells "Primary LOB"));
   map IZR (map (code_of (classes "currency")) (cells "currency"))].


(** ** The check of the gold cases: statement helpers and sample data *)

Definition right_marks (marks : list bool) : nat :=
  length (filter (fun b : bool => b) marks).

(** With [k] right marks out of [n], the alert of [validate_critical_cases],
    computed on binary64 numbers, is the comparison of [k/n] with three
    quarters. *)
Definition alert_agrees (n k : nat) : bool :=
  Bool.eqb (float_of_count k / float_of_count n * 100 <? 75)%float
           (4 * Z.of_nat k <? 3 * Z.of_nat n).

Definition alert_agrees_upto (N : nat) : bool :=
  forallb (fun n => forallb (alert_agrees n) (seq 0 (S n))) (seq 1 N).

(** The numbers of gold cases the comparison was checked for. *)
Definition checked_cases : nat := 200.

(** The rows of a frame whose SOW id reads as a gold case. *)
Definition gold_mask (ids : list string) : list bool := map (contains "CRIT") ids.

(** What [validate_critical_cases] reports once the estimator has answered
    for the gold cases. *)
Definition validation_of (labels : list string) (mask : list bool)
  (answer : outcome (list string)) : outcome validation :=
  match answer with
  | Ok predictions =>
      if negb (Nat.eqb (length predictions) (right_marks mask))
      then Raise (ValueError "Length of values does not match length of index")
      else
        let marks := zip_with String.eqb (select mask labels) predictions in
        Ok (Checked marks (percent_true marks) (percent_true marks <? 75)%float)
  | Raise e => Raise e
  end.

(** The two contracts of [sample_frame] with their ids and titles: the first
    is a gold case. *)
Definition gold_frame : DataFrame :=
  <["SOW ID" := StrCol ["SOW-2024-CRIT-001"; "SOW-2024-0007"] ]>
  (<["SOW title" := StrCol ["Enterprise Data Platform Development";
                            "QA Testing Services"] ]> sample_frame).

Definition gold_world : world :=
  {| frames := {[ 0%nat := gold_frame ]};
     self := SOWFeatureEngineering_init |}.

(** The annotated frame [prepare_for_training] leaves for [gold_frame]. *)
Definition gold_processed : DataFrame :=
  with_encoded (cells_of gold_frame) (fun col => np_unique (cells_of gold_frame col))
    categorical_cols
    (numeric_frame (<["Criticality" := criticality_column [28; 100] [25; 0]]> gold_frame)
       [28; 100] [25; 0] (map IZR [1500000; 20000])).

(** A frame of one contract that is no gold case, and nothing else. *)
Definition plain_frame : DataFrame := {[ "SOW ID" := StrCol ["SOW-2024-0007"] ]}.

(** An estimator that answers the same label for every row. *)
Definition always (label : string) (est : Estimator) (X : list (string * list R))
  : outcome (list string) :=
  Ok (repeat label (match X with
                    | [] => 0%nat
                    | (_, c) :: _ => length c
                    end)).

(** ** Training: statement helpers and sample data *)

(** The classifier with the engineer the script attaches after training. *)
Definition with_engineer (fe : option SOWFeatureEngineering)
  (self : CriticalityClassifier) : CriticalityClassifier :=
  {| model_type := model_type self; model := model self;
     feature_engineer := fe;
     training_date := training_date self; metrics := metrics self |}.

(** The path the script saves the classifier to. *)
Definition script_path : string := "/app/models/criticality_model.pkl".

(** The script can save on a disk: no name on the way to [/app/models] is a
    regular file, and neither the file of the classifier nor the file of
    its metrics is a directory there. *)
Definition script_can_save (fs : filesystem) : Prop :=
  can_save fs script_path true ["models"; "app"]
           "criticality_model.pkl" "criticality_model_metrics.json".

(** scikit-learn standing in for a run: a fit that yields [sample_estimator],
    reports that print. *)
Definition fits_sample (model_type : string) (X : list (string * list R))
  (y : list string) : option Estimator := Some sample_estimator.

Definition report_prints (y_true y_pred : list string) : outcome unit := Ok tt.

(** A train and a test part with the fourteen feature columns. *)
Definition sample_X (n : nat) : list (string * list R) :=
  map (fun name => (name, repeat 0%R n)) get_feature_columns.

(** ** The generator: statement helpers and sample data *)

Module GeneratorData.
Import Generator.

(** The head counts of the rows [create_criticality_label] labels [label]. *)
Definition workers_labelled (label : string) (days workers : list Z) : list Z :=
  select (map (String.eqb label) (map label_name (zip_with classify days workers)))
         workers.

(** The number a string of decimal digits writes, leading zeros allowed. *)
Definition read_index (s : string) : option Z :=
  Z.of_uint <$> NilEmpty.uint_of_string s.

(** Whether the index part of the ids of the indexes below [n] has four
    characters. *)
Definition four_wide (n : nat) : bool :=
  forallb (fun i => Nat.eqb (String.length (zfill 4 (str (Z.of_nat i)))) 4) (seq 0 n).

(** A generator of numbers for the examples: a counter. *)
Definition counter_random (g : Z) : float * Z := (0x1p-1%float, g + 1).

Definition counter_randint (a b : Z) (g : Z) : Z * Z :=
  (a + g mod (b - a + 1), g + 1).

(** [sample_frame] is a frame of the generator as it is. *)
Definition generated_frame : DataFrame := sample_frame.

End GeneratorData.

(** ** The service: statement helpers and sample data *)

Module ServiceData.
Import App.

(** The table as the service keeps it: keys and SOW ids without repetition. *)
Definition consistent (db : list SOW) : Prop :=
  NoDup (map id db) /\ NoDup (map sow_id db).

(** Conversions standing for pydantic's on the values of the sample records:
    an integer, a number, a date written YYYY-MM-DD. *)
Definition json_int (v : jvalue) : option Z :=
  match v with JInt n => Some n | _ => None end.

Definition json_float (v : jvalue) : option float :=
  match v with
  | JFloat x => Some x
  | JInt n => Some (if n <? 0 then PrimFloat.opp (PrimFloat.of_uint63 (Uint63.of_Z (- n)))
                    else PrimFloat.of_uint63 (Uint63.of_Z n))
  | _ => None
  end.

Definition digit (c : ascii) : option Z :=
  if (48 <=? code c) && (code c <=? 57) then Some (code c - 48) else None.

Definition number (l : list ascii) : option Z :=
  foldl (fun acc c => n ← acc; d ← digit c; Some (10 * n + d)) (Some 0) l.

Definition json_date (v : jvalue) : option date :=
  match v with
  | JStr s =>
      match list_ascii_of_string s with
      | [y1; y2; y3; y4; "-"%char; m1; m2; "-"%char; d1; d2] =>
          y ← number [y1; y2; y3; y4];
          m ← number [m1; m2];
          d ← number [d1; d2];
          Some {| year := y; month := m; day := d |}
      | _ => None
      end
  | _ => None
  end.

(** A language model that answers with the subject and body asked for, one
    that answers in prose, one that answers with a JSON list, one that is
    down; a mail server that accepts, one that refuses. *)
Definition model_answers (payload : list (string * pvalue)) : result llm_reply :=
  Return (JsonObject "{...}" (<["subject" := JStr "Alert"]> (<["body" := JStr "Dear owner"]> ∅))).

Definition model_writes_prose (payload : list (string * pvalue)) : result llm_reply :=
  Return (NotJson "Dear owner, ...").

Definition model_writes_list (payload : list (string * pvalue)) : result llm_reply :=
  Return (JsonOther "[1, 2]").

Definition model_down (payload : list (string * pvalue)) : result llm_reply :=
  Throw (ExternalError "connection refused").

Definition server_accepts (subject body : jvalue) : result unit := Return tt.

Definition server_refuses (subject body : jvalue) : result unit :=
  Throw (ExternalError "SMTPAuthenticationError").

(** The example dataset of main.py. *)
Definition record_22 : gmap string jvalue :=
  list_to_map
    [("SOW ID", JStr "SOW-2024-0022");
     ("# Days before expiration", JInt (-6));
     ("SOW Status", JStr "Expired");
     ("SOW title", JStr "Software Development Services");
     ("Contract Id", JStr "CNT-2024-0022");
     ("Active SOW workers", JInt 1);
     ("Start Date", JStr "2025-05-27");
     ("End date", JStr "2025-11-23");
     ("Latest maximum budget", JInt 366656);
     ("currency", JStr "USD");
     ("supplier", JStr "Cognizant");
     ("Business Unit", JStr "Finance");
     ("Primary LOB", JStr "Quality Assurance");
     ("SOW owner", JStr "John Martinez");
     ("risk", JStr "high")].

Definition record_23 : gmap string jvalue :=
  list_to_map
    [("SOW ID", JStr "SOW-2024-0023");
     ("# Days before expiration", JInt 30);
     ("SOW Status", JStr "Active");
     ("SOW title", JStr "Data Migration");
     ("Contract Id", JStr "CNT-2024-0023");
     ("Active SOW workers", JInt 3);
     ("Start Date", JStr "2025-01-01");
     ("End date", JStr "2025-12-31");
     ("Latest maximum budget", JInt 120000);
     ("currency", JStr "USD");
     ("supplier", JStr "Infosys");
     ("Business Unit", JStr "IT");
     ("Primary LOB", JStr "Cloud");
     ("SOW owner", JStr "Alice Smith");
     ("risk", JStr "low")].

Definition record_24 : gmap string jvalue :=
  list_to_map
    [("SOW ID", JStr "SOW-2024-0024");
     ("# Days before expiration", JInt 30);
     ("SOW Status", JStr "Active");
     ("SOW title", JStr "Data Analytics");
     ("Contract Id", JStr "CNT-2024-0024");
     ("Active SOW workers", JInt 3);
     ("Start Date", JStr "2025-01-01");
     ("End date", JStr "2025-12-31");
     ("Latest maximum budget", JInt 120000);
     ("currency", JStr "USD");
     ("supplier", JStr "Infosys");
     ("Business Unit", JStr "IT");
     ("Primary LOB", JStr "Cloud");
     ("SOW owner", JStr "Bob Johnson");
     ("risk", JStr "high");
     ("status", JStr "healthy")].

Definition dataset : list (gmap string jvalue) := [record_22; record_23; record_24].

Definition empty_server : server := {| db := []; outbox := []; stdout := [] |}.

(** The service after the example dataset has been uploaded. *)
Definition uploaded : server :=
  snd (upload_sows json_int json_float json_date model_answers server_accepts
                   dataset empty_server).

(** The first record with its id under the column name instead of the display
    name; the first record without its risk; a later notice that raises the
    risk of the second record and says nothing else. *)
Definition keyed_by_column_name : gmap string jvalue :=
  <["sow_id" := JStr "SOW-2024-0022"]> (delete "SOW ID" record_22).

Definition record_without_risk : gmap string jvalue := delete "risk" record_22.

Definition escalation_23 : gmap string jvalue :=
  <["SOW ID" := JStr "SOW-2024-0023"]> (<["risk" := JStr "high"]> ∅).

(** A value an update may carry for risk or status: none, or a string. *)
Definition text_or_absent (v : option jvalue) : Prop :=
  match v with
  | None | Some (JStr _) => True
  | Some _ => False
  end.

Definition new_text (v : option jvalue) (old : string) : string :=
  match v with
  | Some (JStr s) => s
  | _ => old
  end.

(** A row with risk and status blanked: what an update may not touch. *)
Definition blank (r : SOW) : SOW := set_risk "" (set_status "" r).

(** The record [process_sow_record] stores: the given one, with the status
    that goes with the risk if it has none. *)
Definition with_default_status (raw : gmap string jvalue) (risk_val : string)
  : gmap string jvalue :=
  match raw !! "status" with
  | None =>
      if String.eqb risk_val "high"
      then <["status" := JStr "flagged"]> raw
      else <["status" := JStr "healthy"]> raw
  | Some _ => raw
  end.

(** The value of a field of an item of [analyze_sows]. *)
Definition field (key : string) (item : list (string * pvalue)) : option pvalue :=
  snd <$> List.find (fun kv => String.eqb (fst kv) key) item.

(** Whether a row calls for an alert. *)
Definition alerting (r : SOW) : bool :=
  String.eqb (lower (strip (risk r))) "high"
  || String.eqb (lower (strip (status r))) "flagged".

End ServiceData.
(** ** Proofs *)

Ltac Zbool_cases :=
  repeat match goal with
    | |- context [?a <=? ?b] => destruct (Z.leb_spec a b)
    | |- context [?a <? ?b] => destruct (Z.ltb_spec a b)
    | |- context [?a >? ?b] => rewrite (Z.gtb_ltb a b)
    | |- context [?a =? ?b] => destruct (Z.eqb_spec a b)
    end.

(** C1. [classify] is a total function of the two integers; its value is the
    label of the first rule of the table that applies, for all integers (the
    head count need not even be non-negative), and on the 24 boundary pairs
    it gives the labels of [boundary_table], which lists exactly the pairs of
    [boundary_days] crossed with [boundary_workers]. *)
Theorem classify_rule_table :
  (forall days workers : Z,
      (rule1 days workers -> classify days workers = CRITICO) /\
      (~ rule1 days workers -> rule2 days workers ->
       classify days workers = ALTO) /\
      (~ rule1 days workers -> ~ rule2 days workers -> rule3 days ->
       classify days workers = MEDIO) /\
      (~ rule1 days workers -> ~ rule2 days workers -> ~ rule3 days ->
       classify days workers = BAJO)) /\
  Forall (fun row => classify row.1.1 row.1.2 = row.2) boundary_table /\
  map fst boundary_table = list_prod boundary_days boundary_workers.
Proof.
  split; [| split].
  - intros days workers. unfold rule1, rule2, rule3, classify.
    repeat split; intros; Zbool_cases; simpl; try reflexivity; lia.
  - unfold boundary_table. repeat constructor.
  - reflexivity.
Qed.

(** *** Unfolding the methods *)

Ltac unfold_M :=
  unfold mbind, M_bind, outcome_bind, obind, bind, mret, M_ret, outcome_ret,
    ret, lift, get, modify, raise in *.

Lemma int_cells_Ok (c : column) (xs : list Z) :
  int_cells c = Ok xs <-> c = IntCol xs.
Proof.
  destruct c; simpl; split; intros H; try discriminate; congruence.
Qed.

Lemma create_criticality_label_unfold (df : nat) (w : world) :
  create_criticality_label df w =
    match frames w !! df with
    | None => (Raise (Unmodelled "no object at this reference"), w)
    | Some d =>
        match
          days_col ← getitem d "# Days before expiration";
          workers_col ← getitem d "Active SOW workers";
          days ← int_cells days_col;
          workers ← int_cells workers_col;
          Ok (criticality_column days workers)
        with
        | Ok col =>
            (Ok df, {| frames := <[df := <["Criticality" := col]> d]> (frames w);
                       self := self w |})
        | Raise e => (Raise e, w)
        end
    end.
Proof.
  unfold create_criticality_label, deref, store, criticality_column. unfold_M.
  destruct (frames w !! df) as [d|]; [|reflexivity].
  destruct (getitem d "# Days before expiration"); [|reflexivity].
  destruct (getitem d "Active SOW workers"); [|reflexivity].
  destruct (int_cells a); [|reflexivity].
  destruct (int_cells a0); reflexivity.
Qed.

Lemma create_criticality_label_mutates (w : world) (df : nat) (d : DataFrame)
  (days workers : list Z) :
  frames w !! df = Some d ->
  has_cells d "# Days before expiration" int_cells days ->
  has_cells d "Active SOW workers" int_cells workers ->
  create_criticality_label df w =
    (Ok df,
     {| frames := <[df := <["Criticality" := criticality_column days workers]> d]>
                    (frames w);
        self := self w |}).
Proof.
  intros Hd (c1 & Hc1 & Hx1) (c2 & Hc2 & Hx2).
  rewrite create_criticality_label_unfold, Hd.
  unfold getitem. rewrite Hc1, Hc2. unfold_M. rewrite Hx1, Hx2. reflexivity.
Qed.

Lemma engineer_features_unfold (df : nat) (w : world) :
  engineer_features df w =
    match frames w !! df with
    | None => (Raise (Unmodelled "no object at this reference"), w)
    | Some d =>
        let r := fresh (dom (frames w)) in
        match numeric_features d with
        | Raise e =>
            (Raise e, {| frames := <[r := d]> (frames w); self := self w |})
        | Ok d1 =>
            match encode_categoricals categorical_cols d1 (self w) with
            | (Raise e, fe) =>
                (Raise e, {| frames := <[r := d]> (frames w); self := fe |})
            | (Ok d2, fe) =>
                (Ok r, {| frames := <[r := d2]> (<[r := d]> (frames w));
                          self := fe |})
            end
        end
    end.
Proof.
  unfold engineer_features, deref, alloc, store, on_self. unfold_M.
  destruct (frames w !! df) as [d|]; [|reflexivity].
  cbv zeta.
  destruct (numeric_features d) as [d1|e]; [|reflexivity].
  cbv beta iota. unfold self at 1. unfold frames at 1.
  destruct (encode_categoricals categorical_cols d1 (self w)) as [[d2|e] fe];
    reflexivity.
Qed.

(** Every frame that existed before [engineer_features] is the same after it,
    whatever the outcome. *)
Lemma engineer_features_keeps_frames (df r : nat) (w : world) :
  is_Some (frames w !! r) ->
  frames (engineer_features df w).2 !! r = frames w !! r.
Proof.
  intros Hr. rewrite engineer_features_unfold.
  assert (Hne : fresh (dom (frames w)) <> r).
  { intros <-. apply elem_of_dom in Hr. exact (is_fresh _ Hr). }
  destruct (frames w !! df) as [d|]; [|reflexivity].
  cbv zeta. destruct (numeric_features d) as [d1|e].
  - destruct (encode_categoricals categorical_cols d1 (self w)) as [[d2|e] fe];
      simpl; rewrite ?lookup_insert_ne by exact Hne; reflexivity.
  - simpl. rewrite lookup_insert_ne by exact Hne. reflexivity.
Qed.

(** The frame it returns is a new object. *)
Lemma engineer_features_returns_new (df r : nat) (w w' : world) :
  engineer_features df w = (Ok r, w') ->
  frames w !! r = None /\ is_Some (frames w' !! r).
Proof.
  rewrite engineer_features_unfold.
  destruct (frames w !! df) as [d|]; [|discriminate].
  cbv zeta. destruct (numeric_features d) as [d1|e]; [|discriminate].
  destruct (encode_categoricals categorical_cols d1 (self w)) as [[d2|e] fe];
    [|discriminate].
  intros [= <- <-]. split.
  - apply not_elem_of_dom. apply is_fresh.
  - simpl. rewrite lookup_insert_eq. eauto.
Qed.

Lemma prepare_for_training_frames (df : nat) (w : world) :
  frames (prepare_for_training df w).2 =
    match create_criticality_label df w with
    | (Ok r1, w1) => frames (engineer_features r1 w1).2
    | (Raise _, w1) => frames w1
    end.
Proof.
  unfold prepare_for_training. unfold_M.
  destruct (create_criticality_label df w) as [[r1|e] w1]; [|reflexivity].
  destruct (engineer_features r1 w1) as [[r2|e] w2]; [|reflexivity].
  unfold deref, on_self, scaler_fit_transform. unfold_M.
  destruct (frames w2 !! r2) as [d|]; [|reflexivity].
  destruct (feature_matrix d get_feature_columns); [|reflexivity].
  destruct (getitem d "Criticality"); [|reflexivity].
  simpl. destruct (StandardScaler_fit a); reflexivity.
Qed.

(** C10. [create_criticality_label] assigns the new column to the very frame
    it was given and returns that frame; so after [prepare_for_training],
    whatever its outcome, the caller's frame has the column. And
    [engineer_features] leaves every frame that existed before it as it was,
    the caller's among them: what it returns is a new object. *)
Theorem label_mutates_features_copy :
  (forall (w : world) (df : nat) (d : DataFrame) (days workers : list Z),
      frames w !! df = Some d ->
      has_cells d "# Days before expiration" int_cells days ->
      has_cells d "Active SOW workers" int_cells workers ->
      create_criticality_label df w =
        (Ok df,
         {| frames :=
              <[df := <["Criticality" := criticality_column days workers]> d]>
                (frames w);
            self := self w |}) /\
      frames (prepare_for_training df w).2 !! df =
        Some (<["Criticality" := criticality_column days workers]> d)) /\
  (forall (w : world) (df r : nat),
      is_Some (frames w !! r) ->
      frames (engineer_features df w).2 !! r = frames w !! r) /\
  (forall (w w' : world) (df r : nat),
      engineer_features df w = (Ok r, w') ->
      frames w !! r = None /\ is_Some (frames w' !! r)).
Proof.
  split; [|split].
  - intros w df d days workers Hd Hdays Hworkers.
    pose proof (create_criticality_label_mutates w df d days workers
                  Hd Hdays Hworkers) as Hc.
    split; [exact Hc|].
    rewrite prepare_for_training_frames, Hc.
    rewrite engineer_features_keeps_frames; simpl; rewrite lookup_insert_eq; eauto.
  - intros w df r. apply engineer_features_keeps_frames.
  - intros w w' df r. apply engineer_features_returns_new.
Qed.

(** *** The numeric features *)

Lemma traverse_Ok {A B} (f : A -> outcome B) (g : A -> B) (l : list A) :
  Forall (fun a => f a = Ok (g a)) l -> traverse f l = Ok (map g l).
Proof.
  induction 1 as [|a l Ha _ IH]; simpl; [reflexivity|].
  rewrite Ha, IH. reflexivity.
Qed.

Lemma risk_score_cell_Ok (days workers : Z) :
  0 <= workers -> risk_score_cell days workers = Ok (risk_value days workers).
Proof.
  intros Hw. unfold risk_score_cell, np_log1p, risk_value.
  destruct (Z.leb_spec workers (-1)); [lia|]. reflexivity.
Qed.

Lemma traverse_risk (days workers : list Z) :
  Forall (fun w => 0 <= w) workers ->
  traverse (fun dw => risk_score_cell dw.1 dw.2) (zip days workers) =
    Ok (zip_with risk_value days workers).
Proof.
  intros Hw. revert days.
  induction Hw as [|w workers Hw _ IH]; intros [|d days]; simpl; try reflexivity.
  rewrite risk_score_cell_Ok by exact Hw. rewrite IH. reflexivity.
Qed.

Lemma numeric_features_Ok (d : DataFrame) (days workers : list Z)
  (budget : list R) :
  numeric_columns d days workers budget ->
  numeric_features d = Ok (numeric_frame d days workers budget).
Proof.
  intros [(c1 & Hc1 & Hx1) (c2 & Hc2 & Hx2) (c3 & Hc3 & Hx3) Hw].
  apply int_cells_Ok in Hx1, Hx2. subst c1 c2.
  unfold numeric_features, numeric_frame, getitem. unfold_M.
  rewrite Hc1. simpl int_cells. cbv iota beta.
  rewrite !lookup_insert_ne by done. rewrite Hc2. simpl int_cells. cbv iota beta.
  rewrite !lookup_insert_ne by done. rewrite Hc3, Hx3.
  rewrite traverse_risk by exact Hw. reflexivity.
Qed.

(** *** The label encoder *)

Lemma index_of_elem (x : string) (l : list string) :
  x ∈ l -> exists i, index_of x l = Some i /\ l !! i = Some x.
Proof.
  induction l as [|y l IH]; intros Hx.
  - apply elem_of_nil in Hx. contradiction.
  - simpl. destruct (String.eqb_spec x y) as [->|Hne].
    + exists 0%nat. split; reflexivity.
    + apply elem_of_cons in Hx as [Hx|Hx]; [contradiction|].
      destruct (IH Hx) as (i & Hi & Hl). exists (S i). rewrite Hi. split; [reflexivity|exact Hl].
Qed.

Lemma index_of_None (x : string) (l : list string) :
  x ∉ l -> index_of x l = None.
Proof.
  induction l as [|y l IH]; intros Hx; [reflexivity|].
  apply not_elem_of_cons in Hx as [Hne Hx]. simpl.
  destruct (String.eqb_spec x y); [contradiction|]. rewrite IH by exact Hx. reflexivity.
Qed.

Lemma insert_sorted_elem (x z : string) (l : list string) :
  z ∈ insert_sorted x l <-> z = x \/ z ∈ l.
Proof.
  induction l as [|y l IH]; simpl.
  - rewrite list_elem_of_singleton, elem_of_nil. tauto.
  - destruct (String.compare x y) eqn:Hc.
    + apply compare_eq_iff in Hc. subst y. rewrite elem_of_cons. tauto.
    + rewrite !elem_of_cons. tauto.
    + rewrite !elem_of_cons, IH. tauto.
Qed.

(** [np.unique] keeps exactly the values it was given. *)
Lemma np_unique_elem (z : string) (ys : list string) :
  z ∈ np_unique ys <-> z ∈ ys.
Proof.
  induction ys as [|y ys IH]; simpl; [reflexivity|].
  rewrite insert_sorted_elem, IH, elem_of_cons. reflexivity.
Qed.

Lemma encode_label_seen (classes : list string) (y : string) :
  y ∈ classes -> encode_label classes y = Ok (code_of classes y).
Proof.
  intros Hy. destruct (index_of_elem y classes Hy) as (i & Hi & _).
  unfold encode_label, code_of. rewrite Hi. reflexivity.
Qed.

Lemma encode_label_unseen (classes : list string) (y : string) :
  y ∉ classes -> encode_label classes y = Raise unseen_labels.
Proof.
  intros Hy. unfold encode_label. rewrite index_of_None by exact Hy. reflexivity.
Qed.

(** Encoding a column with fitted classes: the codes when every value was
    seen at fit time, the error as soon as one was not. *)
Lemma transform_seen (classes ys : list string) :
  Forall (fun y => y ∈ classes) ys ->
  traverse (encode_label classes) ys = Ok (map (code_of classes) ys).
Proof.
  intros H. apply traverse_Ok. eapply Forall_impl; [exact H|].
  intros y Hy. apply encode_label_seen, Hy.
Qed.

Lemma transform_unseen (classes ys : list string) :
  Exists (fun y => y ∉ classes) ys ->
  traverse (encode_label classes) ys = Raise unseen_labels.
Proof.
  induction ys as [|y ys IH]; intros H.
  - inversion H.
  - simpl. destruct (decide (y ∈ classes)) as [Hy|Hy].
    + rewrite encode_label_seen by exact Hy.
      rewrite IH; [reflexivity|]. apply Exists_cons in H as [H|H]; [contradiction|exact H].
    + rewrite encode_label_unseen by exact Hy. reflexivity.
Qed.

Lemma fit_transform_codes (ys : list string) :
  LabelEncoder_fit_transform ys =
    (Some (np_unique ys), Ok (map (code_of (np_unique ys)) ys)).
Proof.
  unfold LabelEncoder_fit_transform. rewrite transform_seen; [reflexivity|].
  apply Forall_forall. intros y Hy. apply np_unique_elem, Hy.
Qed.

(** *** One turn of the loop over the categorical columns *)

Lemma encode_categorical_fit (col : string) (d : DataFrame)
  (fe : SOWFeatureEngineering) (ys : list string) :
  label_encoders fe !! col = None ->
  has_cells d col astype_str ys ->
  encode_categorical col d fe =
    (Ok (<[col +:+ "_encoded" := IntCol (map (code_of (np_unique ys)) ys)]> d),
     {| label_encoders := <[col := Some (np_unique ys)]> (label_encoders fe);
        scaler := scaler fe |}).
Proof.
  intros Henc (c & Hc & Hys). unfold encode_categorical, getitem. unfold_M.
  cbv beta iota.
  rewrite Henc, Hc, Hys, fit_transform_codes. unfold set_encoder. simpl.
  rewrite insert_insert_eq. reflexivity.
Qed.

Lemma encode_categorical_transform (col : string) (d : DataFrame)
  (fe : SOWFeatureEngineering) (classes ys : list string) :
  label_encoders fe !! col = Some (Some classes) ->
  has_cells d col astype_str ys ->
  encode_categorical col d fe =
    (match traverse (encode_label classes) ys with
     | Ok codes => Ok (<[col +:+ "_encoded" := IntCol codes]> d)
     | Raise e => Raise e
     end, fe).
Proof.
  intros Henc (c & Hc & Hys). unfold encode_categorical, getitem. unfold_M.
  cbv beta iota. rewrite Henc, Hc, Hys. simpl.
  destruct (traverse (encode_label classes) ys); reflexivity.
Qed.

(** No turn of the loop touches the scaler. *)
Lemma encode_categorical_scaler (col : string) (d : DataFrame)
  (fe : SOWFeatureEngineering) :
  scaler (encode_categorical col d fe).2 = scaler fe.
Proof.
  unfold encode_categorical, getitem, LabelEncoder_fit_transform, set_encoder.
  unfold_M. cbv beta iota.
  repeat (match goal with
          | |- context [match ?x with _ => _ end] => destruct x
          end; simpl; try reflexivity).
Qed.

(** *** The loop over the categorical columns *)

Lemma has_cells_insert_ne {A} (d : DataFrame) (k col : string) (c : column)
  (cells : column -> outcome A) (xs : A) :
  k <> col -> has_cells d col cells xs -> has_cells (<[k := c]> d) col cells xs.
Proof.
  intros Hne (c' & Hc' & Hxs). exists c'. rewrite lookup_insert_ne by exact Hne.
  split; assumption.
Qed.

Lemma names_apart_tail (col : string) (cols : list string) :
  names_apart (col :: cols) -> names_apart cols.
Proof.
  intros H c c' Hc Hc'. apply H; apply elem_of_cons; right; assumption.
Qed.

Lemma categorical_names_apart : names_apart categorical_cols.
Proof.
  intros c c' Hc Hc'. unfold categorical_cols in *.
  repeat (apply elem_of_cons in Hc as [->|Hc]);
    try (apply elem_of_nil in Hc; contradiction);
    repeat (apply elem_of_cons in Hc' as [->|Hc']);
    try (apply elem_of_nil in Hc'; contradiction);
    discriminate.
Qed.

Lemma categorical_NoDup : NoDup categorical_cols.
Proof.
  unfold categorical_cols.
  repeat (apply NoDup_cons; split;
          [rewrite ?elem_of_cons, ?elem_of_nil; intuition discriminate|]).
  apply NoDup_nil. exact I.
Qed.

Section CategoricalLoop.
Variable cells : string -> list string.

Lemma encode_categoricals_fit (cols : list string) :
  forall (d : DataFrame) (fe : SOWFeatureEngineering),
    NoDup cols ->
    names_apart cols ->
    (forall col, col ∈ cols -> label_encoders fe !! col = None) ->
    (forall col, col ∈ cols -> has_cells d col astype_str (cells col)) ->
    encode_categoricals cols d fe =
      (Ok (with_encoded cells (fun col => np_unique (cells col)) cols d),
       {| label_encoders := with_fitted cells cols (label_encoders fe);
          scaler := scaler fe |}).
Proof.
  induction cols as [|col cols IH]; intros d fe Hnd Hap Hnone Hcells.
  - destruct fe. reflexivity.
  - apply NoDup_cons in Hnd as [Hcol Hnd].
    simpl encode_categoricals. unfold mbind, M_bind, bind.
    rewrite (encode_categorical_fit col d fe (cells col)).
    + rewrite IH; [reflexivity|exact Hnd|eapply names_apart_tail, Hap| |].
      * intros c Hc. simpl. rewrite lookup_insert_ne.
        -- apply Hnone, elem_of_cons. right. exact Hc.
        -- intros ->. contradiction.
      * intros c Hc. apply has_cells_insert_ne.
        -- apply Hap; apply elem_of_cons; [left|right]; [reflexivity|exact Hc].
        -- apply Hcells, elem_of_cons. right. exact Hc.
    + apply Hnone, elem_of_cons. left. reflexivity.
    + apply Hcells, elem_of_cons. left. reflexivity.
Qed.

Variable classes : string -> list string.

Lemma encode_categoricals_seen (cols : list string) :
  forall (d : DataFrame) (fe : SOWFeatureEngineering),
    names_apart cols ->
    (forall col, col ∈ cols ->
                 label_encoders fe !! col = Some (Some (classes col))) ->
    (forall col, col ∈ cols -> has_cells d col astype_str (cells col)) ->
    (forall col, col ∈ cols ->
                 Forall (fun y => y ∈ classes col) (cells col)) ->
    encode_categoricals cols d fe =
      (Ok (with_encoded cells classes cols d), fe).
Proof.
  induction cols as [|col cols IH]; intros d fe Hap Henc Hcells Hseen.
  - reflexivity.
  - simpl encode_categoricals. unfold mbind, M_bind, bind.
    rewrite (encode_categorical_transform col d fe (classes col) (cells col)).
    + rewrite transform_seen.
      * rewrite IH; [reflexivity|eapply names_apart_tail, Hap| | |].
        -- intros c Hc. apply Henc, elem_of_cons. right. exact Hc.
        -- intros c Hc. apply has_cells_insert_ne.
           ++ apply Hap; apply elem_of_cons; [left|right]; [reflexivity|exact Hc].
           ++ apply Hcells, elem_of_cons. right. exact Hc.
        -- intros c Hc. apply Hseen, elem_of_cons. right. exact Hc.
      * apply Hseen, elem_of_cons. left. reflexivity.
    + apply Henc, elem_of_cons. left. reflexivity.
    + apply Hcells, elem_of_cons. left. reflexivity.
Qed.

Lemma encode_categoricals_unseen (cols : list string) :
  forall (d : DataFrame) (fe : SOWFeatureEngineering),
    names_apart cols ->
    (forall col, col ∈ cols ->
                 label_encoders fe !! col = Some (Some (classes col))) ->
    (forall col, col ∈ cols -> has_cells d col astype_str (cells col)) ->
    (exists col, col ∈ cols /\ Exists (fun y => y ∉ classes col) (cells col)) ->
    encode_categoricals cols d fe = (Raise unseen_labels, fe).
Proof.
  induction cols as [|col cols IH]; intros d fe Hap Henc Hcells (bad & Hbad & Hex).
  - apply elem_of_nil in Hbad. contradiction.
  - simpl encode_categoricals. unfold mbind, M_bind, bind.
    rewrite (encode_categorical_transform col d fe (classes col) (cells col)).
    + destruct (decide (Forall (fun y => y ∈ classes col) (cells col)))
        as [Hall|Hnot].
      * rewrite transform_seen by exact Hall.
        apply IH; [eapply names_apart_tail, Hap| | |].
        -- intros c Hc. apply Henc, elem_of_cons. right. exact Hc.
        -- intros c Hc. apply has_cells_insert_ne.
           ++ apply Hap; apply elem_of_cons; [left|right]; [reflexivity|exact Hc].
           ++ apply Hcells, elem_of_cons. right. exact Hc.
        -- exists bad. split; [|exact Hex].
           apply elem_of_cons in Hbad as [->|Hbad]; [|exact Hbad].
           exfalso. apply Exists_exists in Hex as (y & Hy & Hny).
           rewrite Forall_forall in Hall. exact (Hny (Hall y Hy)).
      * rewrite transform_unseen; [reflexivity|].
        apply not_Forall_Exists in Hnot; [exact Hnot|]. intros y. apply _.
    + apply Henc, elem_of_cons. left. reflexivity.
    + apply Hcells, elem_of_cons. left. reflexivity.
Qed.

End CategoricalLoop.

(** The loop leaves the scaler as it finds it. *)
Lemma encode_categoricals_scaler (cols : list string) :
  forall (d : DataFrame) (fe : SOWFeatureEngineering),
    scaler (encode_categoricals cols d fe).2 = scaler fe.
Proof.
  induction cols as [|col cols IH]; intros d fe; [reflexivity|].
  simpl encode_categoricals. unfold mbind, M_bind, bind.
  pose proof (encode_categorical_scaler col d fe) as H.
  destruct (encode_categorical col d fe) as [[d'|e] fe']; simpl in H.
  - rewrite IH. exact H.
  - exact H.
Qed.

(** The numeric sections do not write a categorical column. *)
Lemma numeric_frame_categorical (d : DataFrame) (days workers : list Z)
  (budget : list R) (cells : string -> list string) :
  categorical_columns d cells ->
  categorical_columns (numeric_frame d days workers budget) cells.
Proof.
  intros H col Hcol. specialize (H col Hcol). unfold numeric_frame.
  unfold categorical_cols in Hcol.
  repeat (apply elem_of_cons in Hcol as [->|Hcol]);
    try (apply elem_of_nil in Hcol; contradiction);
    repeat (apply has_cells_insert_ne; [discriminate|]); exact H.
Qed.

(** *** [engineer_features] on an engineer without encoders, and with them *)

Lemma engineer_features_fit_mode
  (w : world) (df : nat) (d : DataFrame) (days workers : list Z)
  (budget : list R) (cells : string -> list string) :
  frames w !! df = Some d ->
  numeric_columns d days workers budget ->
  categorical_columns d cells ->
  (forall col, col ∈ categorical_cols -> label_encoders (self w) !! col = None) ->
  engineer_features df w =
    (Ok (fresh (dom (frames w))),
     {| frames :=
          <[fresh (dom (frames w)) :=
              with_encoded cells (fun col => np_unique (cells col))
                categorical_cols (numeric_frame d days workers budget)]>
            (frames w);
        self :=
          {| label_encoders :=
               with_fitted cells categorical_cols (label_encoders (self w));
             scaler := scaler (self w) |} |}).
Proof.
  intros Hd Hnum Hcat Hnone.
  rewrite engineer_features_unfold, Hd. cbv zeta.
  rewrite (numeric_features_Ok d days workers budget Hnum).
  rewrite (encode_categoricals_fit cells categorical_cols).
  - rewrite insert_insert_eq. reflexivity.
  - exact categorical_NoDup.
  - exact categorical_names_apart.
  - exact Hnone.
  - apply numeric_frame_categorical, Hcat.
Qed.

Lemma with_fitted_lookup (cells : string -> list string) (cols : list string) :
  forall (encs : gmap string LabelEncoder) (col : string),
    NoDup cols ->
    with_fitted cells cols encs !! col =
      if decide (col ∈ cols) then Some (Some (np_unique (cells col)))
      else encs !! col.
Proof.
  unfold with_fitted.
  induction cols as [|c cols IH]; intros encs col Hnd.
  - case_decide as H; [apply elem_of_nil in H; contradiction|reflexivity].
  - apply NoDup_cons in Hnd as [Hc Hnd].
    change (foldl (fun m col0 => <[col0 := Some (np_unique (cells col0))]> m)
                  (<[c := Some (np_unique (cells c))]> encs) cols !! col
            = if decide (col ∈ c :: cols)
              then Some (Some (np_unique (cells col))) else encs !! col).
    rewrite IH by exact Hnd.
    repeat case_decide; try reflexivity.
    + exfalso. apply H0, elem_of_cons. right. assumption.
    + apply elem_of_cons in H0 as [->|?]; [|contradiction].
      apply lookup_insert_eq.
    + apply lookup_insert_ne. intros ->. apply H0, list_elem_of_here.
Qed.

Lemma engineer_features_unseen
  (w : world) (df : nat) (d : DataFrame) (days workers : list Z)
  (budget : list R) (cells classes : string -> list string) :
  frames w !! df = Some d ->
  numeric_columns d days workers budget ->
  categorical_columns d cells ->
  fitted_with (self w) classes ->
  (exists col, col ∈ categorical_cols /\
               Exists (fun y => y ∉ classes col) (cells col)) ->
  engineer_features df w =
    (Raise unseen_labels,
     {| frames := <[fresh (dom (frames w)) := d]> (frames w);
        self := self w |}).
Proof.
  intros Hd Hnum Hcat Hfit H.
  pose proof (numeric_frame_categorical d days workers budget cells Hcat) as Hcat'.
  rewrite engineer_features_unfold, Hd. cbv zeta.
  rewrite (numeric_features_Ok d days workers budget Hnum).
  rewrite (encode_categoricals_unseen cells classes categorical_cols);
    [reflexivity|exact categorical_names_apart|exact Hfit|exact Hcat'|exact H].
Qed.

Lemma engineer_features_transform_mode
  (w : world) (df : nat) (d : DataFrame) (days workers : list Z)
  (budget : list R) (cells classes : string -> list string) :
  frames w !! df = Some d ->
  numeric_columns d days workers budget ->
  categorical_columns d cells ->
  fitted_with (self w) classes ->
  (forall col, col ∈ categorical_cols ->
               Forall (fun y => y ∈ classes col) (cells col)) ->
  engineer_features df w =
    (Ok (fresh (dom (frames w))),
     {| frames :=
          <[fresh (dom (frames w)) :=
              with_encoded cells classes categorical_cols
                (numeric_frame d days workers budget)]>
            (frames w);
        self := self w |}).
Proof.
  intros Hd Hnum Hcat Hfit H.
  pose proof (numeric_frame_categorical d days workers budget cells Hcat) as Hcat'.
  rewrite engineer_features_unfold, Hd. cbv zeta.
  rewrite (numeric_features_Ok d days workers budget Hnum).
  rewrite (encode_categoricals_seen cells classes categorical_cols);
    [|exact categorical_names_apart|exact Hfit|exact Hcat'|exact H].
  rewrite insert_insert_eq. reflexivity.
Qed.

(** The code of a fitted value is its position among the classes. *)
Lemma code_of_position (classes : list string) (y : string) :
  y ∈ classes ->
  0 <= code_of classes y < Z.of_nat (length classes) /\
  classes !! Z.to_nat (code_of classes y) = Some y.
Proof.
  intros Hy. destruct (index_of_elem y classes Hy) as (i & Hi & Hl).
  unfold code_of. rewrite Hi. rewrite Nat2Z.id. split; [|exact Hl].
  apply lookup_lt_Some in Hl. lia.
Qed.


(** C5 (as the code has it). With an encoder fitted for each categorical
    column, [engineer_features] raises ValueError, "y contains previously
    unseen labels", as soon as one column holds a value that is not among
    the classes of its encoder: there is no code for an unknown value, and no
    frame is returned. The engineer is left as it was. When every value is
    among the classes, each is encoded by its position in them and the
    encoders are not touched. *)
Theorem unseen_category_raises
  (w : world) (df : nat) (d : DataFrame) (days workers : list Z)
  (budget : list R) (cells classes : string -> list string) :
  frames w !! df = Some d ->
  numeric_columns d days workers budget ->
  categorical_columns d cells ->
  fitted_with (self w) classes ->
  ((exists col, col ∈ categorical_cols /\
                Exists (fun y => y ∉ classes col) (cells col)) ->
   engineer_features df w =
     (Raise unseen_labels,
      {| frames := <[fresh (dom (frames w)) := d]> (frames w);
         self := self w |})) /\
  ((forall col, col ∈ categorical_cols ->
                Forall (fun y => y ∈ classes col) (cells col)) ->
   engineer_features df w =
     (Ok (fresh (dom (frames w))),
      {| frames :=
           <[fresh (dom (frames w)) :=
               with_encoded cells classes categorical_cols
                 (numeric_frame d days workers budget)]>
             (frames w);
         self := self w |}) /\
   forall col y, col ∈ categorical_cols -> y ∈ cells col ->
     0 <= code_of (classes col) y < Z.of_nat (length (classes col)) /\
     classes col !! Z.to_nat (code_of (classes col) y) = Some y).
Proof.
  intros Hd Hnum Hcat Hfit. split; intros H.
  - apply (engineer_features_unseen w df d days workers budget cells classes);
      assumption.
  - split.
    + apply (engineer_features_transform_mode w df d days workers budget
               cells classes); assumption.
    + intros col y Hcol Hy. apply code_of_position.
      specialize (H col Hcol). rewrite Forall_forall in H. apply H, Hy.
Qed.

(** *** The scaler *)

Lemma engineer_features_scaler (df : nat) (w : world) :
  scaler (self (engineer_features df w).2) = scaler (self w).
Proof.
  rewrite engineer_features_unfold.
  destruct (frames w !! df) as [d|]; [|reflexivity].
  cbv zeta. destruct (numeric_features d) as [d1|e]; [|reflexivity].
  pose proof (encode_categoricals_scaler categorical_cols d1 (self w)) as H.
  destruct (encode_categoricals categorical_cols d1 (self w)) as [[d2|e] fe];
    exact H.
Qed.

Lemma create_criticality_label_self (df : nat) (w : world) :
  self (create_criticality_label df w).2 = self w.
Proof.
  rewrite create_criticality_label_unfold.
  destruct (frames w !! df) as [d|]; [|reflexivity].
  match goal with |- context [match ?x with Ok _ => _ | Raise _ => _ end] =>
    destruct x end; reflexivity.
Qed.

(** C3 (as the code has it). The scaler is fitted by [prepare_for_training],
    and by every call of it: after a call that succeeds, the statistics held
    by the engineer are those of the feature matrix of that call, whatever
    they were before, and the returned matrix is scaled with them. The other
    two methods, [engineer_features] and [create_criticality_label], neither
    fit the scaler nor change it. *)
Theorem scaler_refit_by_every_prepare :
  (forall (w w' : world) (df r : nat) (X : list (string * list R)) (y : column),
      prepare_for_training df w = (Ok (X, y, r), w') ->
      exists (d : DataFrame) (X_raw : list (list R)) (st : ScalerStats),
        frames w' !! r = Some d /\
        feature_matrix d get_feature_columns = Ok X_raw /\
        StandardScaler_fit X_raw = Ok st /\
        scaler (self w') = Some st /\
        X = zip get_feature_columns (StandardScaler_transform st X_raw)) /\
  (forall (w : world) (df : nat),
      scaler (self (engineer_features df w).2) = scaler (self w)) /\
  (forall (w : world) (df : nat),
      scaler (self (create_criticality_label df w).2) = scaler (self w)).
Proof.
  split; [|split].
  - intros w w' df r X y H.
    unfold prepare_for_training in H. unfold_M.
    destruct (create_criticality_label df w) as [[r1|e] w1]; [|discriminate].
    destruct (engineer_features r1 w1) as [[r2|e] w2]; [|discriminate].
    unfold deref, on_self, scaler_fit_transform in H. unfold_M.
    destruct (frames w2 !! r2) as [d|] eqn:Ed; [|discriminate].
    destruct (feature_matrix d get_feature_columns) as [X_raw|e] eqn:EX;
      [|discriminate].
    destruct (getitem d "Criticality") as [y'|e]; [|discriminate].
    simpl in H.
    destruct (StandardScaler_fit X_raw) as [st|e] eqn:Est; [|discriminate].
    simpl in H. injection H as <- <- <- <-.
    exists d, X_raw, st. simpl. repeat split; assumption.
  - intros w df. apply engineer_features_scaler.
  - intros w df. rewrite create_criticality_label_self. reflexivity.
Qed.

(** *** The theorems on the sample data *)

Lemma cells_of_columns (d : DataFrame) :
  (forall col, col ∈ categorical_cols ->
               exists c ys, d !! col = Some c /\ astype_str c = Ok ys) ->
  categorical_columns d (cells_of d).
Proof.
  intros H col Hcol. destruct (H col Hcol) as (c & ys & Hc & Hys).
  exists c. split; [exact Hc|]. unfold cells_of. rewrite Hc, Hys. reflexivity.
Qed.

Lemma classes_of_fitted (fe : SOWFeatureEngineering) :
  (forall col, col ∈ categorical_cols ->
               exists classes, label_encoders fe !! col = Some (Some classes)) ->
  fitted_with fe (classes_of fe).
Proof.
  intros H col Hcol. destruct (H col Hcol) as (classes & Hc).
  unfold classes_of. rewrite Hc. reflexivity.
Qed.

Ltac each_categorical H :=
  unfold categorical_cols in H;
  repeat (apply elem_of_cons in H as [->|H]);
  try (apply elem_of_nil in H; contradiction).

Lemma sample_frame_categorical : categorical_columns sample_frame (cells_of sample_frame).
Proof.
  apply cells_of_columns. intros col Hcol.
  each_categorical Hcol; eexists; eexists; split; vm_compute; reflexivity.
Defined.

Lemma sample_frame_numeric :
  numeric_columns sample_frame [28; 100] [25; 0] (map IZR [1500000; 20000]).
Proof.
  split; try (eexists; split; vm_compute; reflexivity).
  repeat constructor; lia.
Defined.

Lemma later_frame_categorical : categorical_columns later_frame (cells_of later_frame).
Proof.
  apply cells_of_columns. intros col Hcol.
  each_categorical Hcol; eexists; eexists; split; vm_compute; reflexivity.
Defined.

Lemma later_frame_numeric :
  numeric_columns later_frame [10; 45; 200] [3; 8; 1]
    (map IZR [50000; 850000; 450000]).
Proof.
  split; try (eexists; split; vm_compute; reflexivity).
  repeat constructor; lia.
Defined.

Lemma unseen_frame_categorical : categorical_columns unseen_frame (cells_of unseen_frame).
Proof.
  apply cells_of_columns. intros col Hcol.
  each_categorical Hcol; eexists; eexists; split; vm_compute; reflexivity.
Defined.

Lemma unseen_frame_numeric :
  numeric_columns unseen_frame [15] [12] (map IZR [850000]).
Proof.
  split; try (eexists; split; vm_compute; reflexivity).
  repeat constructor; lia.
Defined.

Lemma fitted_world_fitted : fitted_with (self fitted_world) (classes_of (self fitted_world)).
Proof.
  apply classes_of_fitted. intros col Hcol.
  each_categorical Hcol; eexists; vm_compute; reflexivity.
Defined.

(** C10 on [sample_world]: the caller's frame, at reference 0, has the label
    column after [prepare_for_training] and is untouched by
    [engineer_features]. *)
Lemma label_mutates_features_copy_witness :
  frames (prepare_for_training 0%nat sample_world).2 !! 0%nat =
    Some (<["Criticality" := StrCol ["CRÍTICO"; "BAJO"]]> sample_frame) /\
  frames (engineer_features 0%nat sample_world).2 !! 0%nat = Some sample_frame.
Proof.
  destruct label_mutates_features_copy as (Hlabel & Hkeep & _). split.
  - apply (Hlabel sample_world 0%nat sample_frame [28; 100] [25; 0]).
    + reflexivity.
    + apply sample_frame_numeric.
    + apply sample_frame_numeric.
  - rewrite (Hkeep sample_world 0%nat 0%nat).
    + reflexivity.
    + exists sample_frame. reflexivity.
Defined.



(** C5 on [fitted_world]: the frame with the unknown supplier is refused,
    the later batch of known categories is encoded. *)
Lemma unseen_category_raises_witness :
  (engineer_features 2%nat fitted_world).1 = Raise unseen_labels /\
  (engineer_features 1%nat fitted_world).1 = Ok 4%nat.
Proof.
  split.
  - destruct (unseen_category_raises fitted_world 2%nat unseen_frame
                [15] [12] (map IZR [850000]) (cells_of unseen_frame)
                (classes_of (self fitted_world))) as [Hraise _].
    + unfold fitted_world. rewrite engineer_features_keeps_frames;
        [reflexivity|eexists; reflexivity].
    + exact unseen_frame_numeric.
    + exact unseen_frame_categorical.
    + exact fitted_world_fitted.
    + rewrite Hraise; [reflexivity|].
      exists "supplier". split; [apply list_elem_of_here|].
      apply Exists_cons_hd. vm_compute. intros H.
      repeat (apply elem_of_cons in H as [H|H]; [discriminate|]).
      apply elem_of_nil in H. exact H.
  - destruct (unseen_category_raises fitted_world 1%nat later_frame
                [10; 45; 200] [3; 8; 1] (map IZR [50000; 850000; 450000])
                (cells_of later_frame)
                (classes_of (self fitted_world))) as [_ Hok].
    + unfold fitted_world. rewrite engineer_features_keeps_frames;
        [reflexivity|eexists; reflexivity].
    + exact later_frame_numeric.
    + exact later_frame_categorical.
    + exact fitted_world_fitted.
    + destruct Hok as [-> _]; [|vm_compute; reflexivity].
      intros col Hcol. each_categorical Hcol; vm_compute;
        repeat constructor.
Defined.

(** C5, the claim on the code: the engineer was fitted on [sample_frame],
    whose suppliers are Acme and Zeta; the frame of supplier Nova makes
    [engineer_features] raise, and no frame is returned. *)
Lemma unseen_supplier_is_a_hard_failure :
  classes_of (self fitted_world) "supplier" = ["Acme"; "Zeta"] /\
  cells_of unseen_frame "supplier" = ["Nova"] /\
  (engineer_features 2%nat fitted_world).1 =
    Raise (ValueError "y contains previously unseen labels").
Proof.
  repeat split; vm_compute; reflexivity.
Qed.

(** C3 on [sample_world]: the call succeeds and leaves the statistics of its
    two rows in the engineer. *)
Lemma scaler_refit_witness :
  exists st : ScalerStats,
    scaler (self (prepare_for_training 0%nat sample_world).2) = Some st /\
    n_samples_seen_ st = 2%nat.
Proof.
  destruct scaler_refit_by_every_prepare as (Hfit & _ & _).
  assert (Hok : is_ok (prepare_for_training 0%nat sample_world).1 = true)
    by (vm_compute; reflexivity).
  assert (Hn : n_samples_seen_
                 <$> scaler (self (prepare_for_training 0%nat sample_world).2)
               = Some 2%nat)
    by (vm_compute; reflexivity).
  destruct (prepare_for_training 0%nat sample_world)
    as [[[[X y] r]|e] w'] eqn:E; [|discriminate Hok].
  destruct (Hfit _ _ _ _ _ _ E) as (d & X_raw & st & _ & _ & _ & Hsc & _).
  exists st. simpl in *. rewrite Hsc in Hn. simpl in Hn.
  split; [exact Hsc|congruence].
Defined.

(** C3, the claim on the code: one engineer, two calls. The second call
    fits the scaler again: the statistics of the day count (the first column)
    go from those of [sample_frame], two rows of mean 64 and variance 1296,
    to those of [later_frame], three rows of mean 85. *)
Lemma second_prepare_refits_scaler :
  is_ok (prepare_for_training 0%nat three_frames).1 = true /\
  is_ok (prepare_for_training 1%nat prepared_once).1 = true /\
  exists st1 st2 : ScalerStats,
    scaler (self prepared_once) = Some st1 /\
    scaler (self prepared_twice) = Some st2 /\
    n_samples_seen_ st1 = 2%nat /\ n_samples_seen_ st2 = 3%nat /\
    mean_ st1 !! 0%nat = Some 64%R /\ mean_ st2 !! 0%nat = Some 85%R /\
    var_ st1 !! 0%nat = Some 1296%R /\ var_ st2 !! 0%nat = Some (20450 / 3)%R.
Proof.
  split; [vm_compute; reflexivity|]. split; [vm_compute; reflexivity|].
  eexists. eexists.
  split; [vm_compute; reflexivity|]. split; [vm_compute; reflexivity|].
  split; [reflexivity|]. split; [reflexivity|].
  repeat split; simpl; f_equal; lra.
Qed.

(** *** The train/test split *)

Lemma ceil_agrees_from_spec (fuel : nat) :
  forall a n : Z,
    ceil_agrees_from fuel a = true ->
    a <= n < a + Z.of_nat fuel ->
    ceil_agrees n = true.
Proof.
  induction fuel as [|fuel IH]; intros a n H Hn; [lia|].
  simpl in H. destruct (ceil_agrees a) eqn:Ha; [|discriminate].
  destruct (Z.eq_dec n a) as [->|Hne]; [exact Ha|].
  apply (IH (a + 1)); [exact H|lia].
Qed.

Lemma ceil_agrees_checked :
  ceil_agrees_from (Z.to_nat (checked_rows + 1)) 0 = true.
Proof. vm_compute. reflexivity. Qed.

(** Up to [checked_rows] rows the test part has a fifth of the rows,
    rounded up. *)
Lemma n_test_is_fifth_up (n : nat) :
  Z.of_nat n <= checked_rows ->
  math_ceil (PrimFloat.mul test_size_0_2 (float_of_count n)) =
    Ok (fifth_up (Z.of_nat n)).
Proof.
  intros Hn.
  pose proof (ceil_agrees_from_spec _ 0 (Z.of_nat n) ceil_agrees_checked) as H.
  unfold ceil_agrees in H. unfold float_of_count.
  destruct (math_ceil _) as [c|e].
  - f_equal. apply Z.eqb_eq, H. unfold checked_rows in *. lia.
  - discriminate H. unfold checked_rows in *. lia.
Qed.

Lemma validate_shuffle_split_raises (n : nat) (t : float) (e : exn) :
  validate_shuffle_split n t = Raise e -> exists msg, e = ValueError msg.
Proof.
  unfold validate_shuffle_split, math_ceil. unfold_M.
  destruct (Prim2SF _); try (intros [= <-]; eauto);
    match goal with |- context [if ?b then _ else _] => destruct b end;
    intros [= <-]; eauto.
Qed.

Lemma validate_sizes_raises (n : nat) (a b : Z) (e : exn) :
  validate_sizes n a b = Raise e -> exists msg, e = ValueError msg.
Proof.
  unfold validate_sizes.
  repeat match goal with |- context [if ?b then _ else _] => destruct b end;
    intros [= <-]; eauto.
Qed.

Lemma validate_sizes_Ok (n : nat) (a b a' b' : Z) :
  validate_sizes n a b = Ok (a', b') -> a' = a /\ b' = b.
Proof.
  unfold validate_sizes.
  repeat match goal with |- context [if ?b then _ else _] => destruct b end;
    intros [= <- <-]; split; reflexivity.
Qed.

Lemma foldr_min_le (l : list nat) (d x : nat) :
  x ∈ l -> (foldr Nat.min d l <= x)%nat.
Proof.
  induction l as [|a l IH]; intros Hx.
  - apply elem_of_nil in Hx. contradiction.
  - simpl. apply elem_of_cons in Hx as [->|Hx]; [lia|].
    specialize (IH Hx). lia.
Qed.

Lemma foldr_min_ge (l : list nat) (d k : nat) :
  (k <= d)%nat -> Forall (fun c => (k <= c)%nat) l -> (k <= foldr Nat.min d l)%nat.
Proof.
  intros Hd H. induction H as [|a l Ha _ IH]; simpl; lia.
Qed.

Lemma np_min_small (l : list nat) :
  Exists (fun c => (c < 2)%nat) l -> (np_min l <? 2)%nat = true.
Proof.
  intros H. apply Exists_exists in H as (x & Hx & Hlt).
  apply Nat.ltb_lt. unfold np_min.
  pose proof (foldr_min_le l (hd 0%nat l) x Hx). lia.
Qed.

Lemma np_min_large (l : list nat) :
  l <> [] -> Forall (fun c => (2 <= c)%nat) l -> (np_min l <? 2)%nat = false.
Proof.
  intros Hne H. apply Nat.ltb_ge. unfold np_min. apply foldr_min_ge; [|exact H].
  destruct l as [|a l]; [contradiction|]. apply Forall_cons in H as [Ha _]. exact Ha.
Qed.

(** Every refusal of the split is a ValueError. *)
Lemma main_split_raises (y : list string) (e : exn) :
  main_split y = Raise e -> exists msg, e = ValueError msg.
Proof.
  unfold main_split, train_test_split. unfold_M.
  destruct (validate_shuffle_split (length y) test_size_0_2) as [[a b]|e0] eqn:E.
  - unfold stratified_shuffle_split. unfold_M. simpl.
    destruct (validate_sizes (length y) a b) as [[a' b']|e1] eqn:E1.
    + repeat match goal with |- context [if ?b then _ else _] => destruct b end;
        intros [= <-]; eauto.
    + intros [= <-]. eapply validate_sizes_raises, E1.
  - intros [= <-]. eapply validate_shuffle_split_raises, E.
Qed.

(** C6 (as the library has it). The split of the script is the stratified
    one or none: it never falls back to a plain shuffle. It is refused, with
    a ValueError (there is no other error class), whenever a class has a
    single member. Classes of two members or more are not enough: with four
    classes the test part, a fifth of the rows rounded up, must hold four
    rows, so the split is refused below 16 rows and made from 16 rows on
    (row counts up to [checked_rows]). *)
Theorem stratified_split_outcomes (y : list string) :
  (Exists (fun c => (c < 2)%nat) (class_counts y) ->
   exists msg, main_split y = Raise (ValueError msg)) /\
  (length (np_unique y) = 4%nat ->
   Forall (fun c => (2 <= c)%nat) (class_counts y) ->
   Z.of_nat (length y) <= checked_rows ->
   (Z.of_nat (length y) < 16 ->
    exists msg, main_split y = Raise (ValueError msg)) /\
   (16 <= Z.of_nat (length y) ->
    main_split y =
      Ok {| split_by := StratifiedShuffleSplit;
            n_train := Z.of_nat (length y) - fifth_up (Z.of_nat (length y));
            n_test := fifth_up (Z.of_nat (length y)) |})) /\
  (forall s, main_split y = Ok s -> split_by s = StratifiedShuffleSplit).
Proof.
  split; [|split].
  - intros Hsmall.
    destruct (main_split y) as [s|e] eqn:E.
    + exfalso. revert E. unfold main_split, train_test_split. unfold_M.
      destruct (validate_shuffle_split (length y) test_size_0_2) as [[a b]|e0];
        [|discriminate].
      unfold stratified_shuffle_split. unfold_M. simpl.
      destruct (validate_sizes (length y) a b) as [[a' b']|e1]; [|discriminate].
      rewrite (np_min_small _ Hsmall). discriminate.
    + destruct (main_split_raises y e E) as (msg & ->). eauto.
  - intros Hfour Hcounts Hrows.
    assert (Hmin : (np_min (class_counts y) <? 2)%nat = false).
    { apply np_min_large; [|exact Hcounts].
      unfold class_counts. intros Hnil. apply (f_equal length) in Hnil.
      rewrite length_map, Hfour in Hnil. discriminate. }
    pose proof (n_test_is_fifth_up (length y) Hrows) as Hceil.
    assert (Hfifth : 5 * fifth_up (Z.of_nat (length y)) - 4
                     <= Z.of_nat (length y)
                     <= 5 * fifth_up (Z.of_nat (length y))).
    { unfold fifth_up.
      pose proof (Z.div_mod (Z.of_nat (length y) + 4) 5 ltac:(lia)).
      pose proof (Z.mod_pos_bound (Z.of_nat (length y) + 4) 5 ltac:(lia)). lia. }
    split; intros Hn.
    + destruct (main_split y) as [s|e] eqn:E.
      * exfalso. revert E. unfold main_split, train_test_split. unfold_M.
        unfold validate_shuffle_split. unfold_M. rewrite Hceil.
        destruct (_ =? 0); [discriminate|].
        unfold stratified_shuffle_split. unfold_M. simpl.
        destruct (validate_sizes _ _ _) as [[a' b']|e1] eqn:E1; [|discriminate].
        apply validate_sizes_Ok in E1 as [-> ->].
        rewrite Hmin, Hfour.
        destruct (_ <? _); [discriminate|].
        destruct (Z.ltb_spec (fifth_up (Z.of_nat (length y))) (Z.of_nat 4));
          [discriminate|lia].
      * destruct (main_split_raises y e E) as (msg & ->). eauto.
    + unfold main_split, train_test_split. unfold_M.
      unfold validate_shuffle_split. unfold_M. rewrite Hceil.
      destruct (Z.eqb_spec (Z.of_nat (length y) - fifth_up (Z.of_nat (length y))) 0);
        [lia|].
      unfold stratified_shuffle_split, validate_sizes. unfold_M. simpl.
      destruct (Z.leb_spec (Z.of_nat (length y)) (fifth_up (Z.of_nat (length y))));
        [lia|].
      destruct (Z.leb_spec (fifth_up (Z.of_nat (length y))) 0); [lia|]. simpl.
      destruct (Z.leb_spec (Z.of_nat (length y))
                  (Z.of_nat (length y) - fifth_up (Z.of_nat (length y)))); [lia|].
      destruct (Z.leb_spec (Z.of_nat (length y) - fifth_up (Z.of_nat (length y))) 0);
        [lia|]. simpl.
      rewrite Hmin, Hfour.
      destruct (Z.ltb_spec (Z.of_nat (length y) - fifth_up (Z.of_nat (length y)))
                  (Z.of_nat 4)); [lia|].
      destruct (Z.ltb_spec (fifth_up (Z.of_nat (length y))) (Z.of_nat 4)); [lia|].
      reflexivity.
  - intros s. unfold main_split, train_test_split. unfold_M.
    destruct (validate_shuffle_split (length y) test_size_0_2) as [[a b]|e0];
      [|discriminate].
    unfold stratified_shuffle_split. unfold_M. simpl.
    destruct (validate_sizes (length y) a b) as [[a' b']|e1]; [|discriminate].
    repeat match goal with |- context [if ?b then _ else _] => destruct b end;
      try discriminate.
    intros [= <-]. reflexivity.
Qed.

(** C6 on four contracts per class: 16 rows, split 12 to 4. *)
Lemma stratified_split_witness :
  main_split four_per_class =
    Ok {| split_by := StratifiedShuffleSplit; n_train := 12; n_test := 4 |}.
Proof.
  destruct (stratified_split_outcomes four_per_class) as (_ & Hfour & _).
  destruct Hfour as [_ Hsplit].
  - vm_compute. reflexivity.
  - vm_compute. repeat constructor.
  - vm_compute. discriminate.
  - apply Hsplit. vm_compute. discriminate.
Defined.

(** C6, the claim on the library: four classes of two members each, and the
    stratified split is refused. *)
Lemma two_per_class_is_refused :
  np_unique two_per_class = ["ALTO"; "BAJO"; "CRÍTICO"; "MEDIO"] /\
  class_counts two_per_class = [2; 2; 2; 2]%nat /\
  main_split two_per_class =
    Raise (ValueError
             "The test_size should be greater or equal to the number of classes").
Proof.
  repeat split; vm_compute; reflexivity.
Qed.

(** *** Saving and loading the classifier *)

(** **** Paths and places *)

Lemma length_string_of_list (l : list ascii) :
  String.length (string_of_list_ascii l) = length l.
Proof. induction l as [|c l IH]; simpl; congruence. Qed.

Lemma length_list_of_string (s : string) :
  length (list_ascii_of_string s) = String.length s.
Proof. induction s as [|c s IH]; simpl; congruence. Qed.

Lemma drop_while_length {A} (p : A -> bool) (l : list A) :
  (length (drop_while p l) <= length l)%nat.
Proof.
  induction l as [|x l IH]; simpl; [lia|]. destruct (p x); simpl; lia.
Qed.

Lemma take_drop_while_length {A} (p : A -> bool) (l : list A) :
  (length (take_while p l) + length (drop_while p l) = length l)%nat.
Proof.
  induction l as [|x l IH]; simpl; [lia|]. destruct (p x); simpl; lia.
Qed.

(** What is before the last name is shorter than the path. *)
Lemma dirname_shorter (p : string) :
  basename p <> "" -> (String.length (dirname p) < String.length p)%nat.
Proof.
  unfold basename, dirname. intros Hb.
  set (r := rev (list_ascii_of_string p)) in *.
  assert (length r = String.length p) as Hr
      by (unfold r; rewrite length_rev; apply length_list_of_string).
  assert (length (take_while (fun c => negb (is_slash c)) r) <> 0%nat) as Hlast.
  { intros H0. apply Hb. apply length_zero_iff_nil in H0. rewrite H0. reflexivity. }
  pose proof (take_drop_while_length (fun c => negb (is_slash c)) r) as Hsplit.
  pose proof (drop_while_length is_slash
                (drop_while (fun c => negb (is_slash c)) r)) as Hstrip.
  rewrite length_string_of_list, length_rev.
  destruct (drop_while is_slash _); simpl in *; lia.
Qed.

Lemma place_of_unfold (fuel : nat) (p : string) :
  place_of fuel p =
    if String.eqb p "" then Some (false, [])
    else if String.eqb p "/" then Some (true, [])
    else
      match fuel with
      | O => None
      | S fuel' =>
          if proper_name (basename p)
             && String.eqb (path_join (dirname p) (basename p)) p
          then
            match place_of fuel' (dirname p) with
            | Some (absolute, above) => Some (absolute, basename p :: above)
            | None => None
            end
          else None
      end.
Proof. destruct fuel; reflexivity. Qed.

Lemma place_of_mono (k k' : nat) (p : string) (q : place) :
  (k <= k')%nat -> place_of k p = Some q -> place_of k' p = Some q.
Proof.
  revert k' p q. induction k as [|k IH]; intros k' p q Hk H;
    rewrite place_of_unfold in H; rewrite place_of_unfold.
  - destruct (String.eqb p ""); [exact H|].
    destruct (String.eqb p "/"); [exact H|discriminate H].
  - destruct (String.eqb p ""); [exact H|].
    destruct (String.eqb p "/"); [exact H|].
    destruct k' as [|k']; [lia|].
    destruct (proper_name (basename p) && _); [|discriminate H].
    destruct (place_of k (dirname p)) as [[a above]|] eqn:Hd; [|discriminate H].
    rewrite (IH k' _ _ ltac:(lia) Hd). exact H.
Qed.

Lemma proper_name_not_empty (n : string) : proper_name n = true -> n <> "".
Proof.
  unfold proper_name. intros H ->. discriminate H.
Qed.

(** The length of a path is fuel enough to find its place. *)
Lemma place_of_enough (k : nat) (p : string) (q : place) :
  place_of k p = Some q -> place_of (String.length p) p = Some q.
Proof.
  revert p q. induction k as [|k IH]; intros p q H;
    rewrite place_of_unfold in H; rewrite place_of_unfold.
  - destruct (String.eqb p ""); [exact H|].
    destruct (String.eqb p "/"); [exact H|discriminate H].
  - destruct (String.eqb p ""); [exact H|].
    destruct (String.eqb p "/"); [exact H|].
    destruct (proper_name (basename p) && _) eqn:Hproper; [|discriminate H].
    destruct (place_of k (dirname p)) as [[a above]|] eqn:Hd; [|discriminate H].
    apply IH in Hd.
    apply andb_true_iff in Hproper as [Hname Hjoin].
    pose proof (dirname_shorter p (proper_name_not_empty _ Hname)) as Hshort.
    destruct (String.length p) as [|n] eqn:Hn; [lia|]. cbv beta iota.
    rewrite (place_of_mono (String.length (dirname p)) n _ _ ltac:(lia) Hd).
    exact H.
Qed.

Lemma locate_not_empty (path : string) (a : bool) (n : string) (above : list string) :
  locate path = Ok (a, n :: above) -> String.eqb path "" = false.
Proof.
  intros H. destruct (String.eqb_spec path "") as [->|]; [|reflexivity].
  discriminate H.
Qed.

(** The place of a path is the last name of the path at the place of what
    is before it. *)
Lemma locate_dirname (path : string) (a : bool) (n : string) (above : list string) :
  locate path = Ok (a, n :: above) ->
  n = basename path /\ locate (dirname path) = Ok (a, above).
Proof.
  unfold locate. intros H.
  destruct (4095 <? Z.of_nat (String.length path)) eqn:Hlen; [discriminate H|].
  destruct (place_of (String.length path) path) as [q|] eqn:Hq; [|discriminate H].
  injection H as ->. rewrite place_of_unfold in Hq.
  destruct (String.eqb path ""); [discriminate Hq|].
  destruct (String.eqb path "/"); [discriminate Hq|].
  destruct (String.length path) as [|k] eqn:Hk; [discriminate Hq|].
  destruct (proper_name (basename path) && _) eqn:Hproper; [|discriminate Hq].
  destruct (place_of k (dirname path)) as [[a' above']|] eqn:Hd; [|discriminate Hq].
  injection Hq as -> <- ->.
  apply andb_true_iff in Hproper as [Hname _].
  pose proof (dirname_shorter path (proper_name_not_empty _ Hname)) as Hshort.
  split; [reflexivity|].
  apply Z.ltb_ge in Hlen.
  replace (4095 <? Z.of_nat (String.length (dirname path))) with false
    by (symmetry; apply Z.ltb_ge; lia).
  rewrite (place_of_enough _ _ _ Hd). reflexivity.
Qed.

(** **** What the system finds *)

Lemma stat_found (fs : filesystem) (a : bool) (n : string) (above : list string)
  (x : node) :
  stat fs a (n :: above) = Found x <->
  stat fs a above = Found Directory /\ fs !! (a, n :: above) = Some x.
Proof.
  cbn [stat]. destruct (stat fs a above) as [| |[|f]].
  - split; [discriminate|intros [H _]; discriminate H].
  - split; [discriminate|intros [H _]; discriminate H].
  - destruct (fs !! (a, n :: above)) as [y|].
    + split; [intros [= ->]; auto|intros [_ [= ->]]; reflexivity].
    + split; [discriminate|intros [_ H]; discriminate H].
  - split; [discriminate|intros [H _]; discriminate H].
Qed.

(** A way without regular files ends at a directory or is not there yet. *)
Lemma clear_way_stat (fs : filesystem) (a : bool) (names : list string) :
  clear_way fs a names = true ->
  stat fs a names = Missing \/ stat fs a names = Found Directory.
Proof.
  induction names as [|n above IH]; [right; reflexivity|].
  cbn [clear_way stat]. intros H. apply andb_true_iff in H as [Habove Hn].
  destruct (IH Habove) as [->| ->]; [left; reflexivity|].
  destruct (fs !! (a, n :: above)) as [[|f]|]; [right|discriminate Hn|left];
    reflexivity.
Qed.

Lemma made_on_the_way_refl (fs : filesystem) (a : bool) (names : list string) :
  made_on_the_way fs fs a names.
Proof. intros k. left. reflexivity. Qed.

Lemma made_on_the_way_stat (fs fs' : filesystem) (a b : bool)
  (names way : list string) :
  made_on_the_way fs fs' b way ->
  stat fs a names = Found Directory -> stat fs' a names = Found Directory.
Proof.
  intros Hmade. induction names as [|n above IH]; [reflexivity|].
  intros H. apply stat_found in H as [Habove Hn]. apply stat_found.
  split; [apply IH, Habove|].
  destruct (Hmade (a, n :: above)) as [->|[Hnone _]]; [exact Hn|congruence].
Qed.

Lemma made_on_the_way_clear (fs fs' : filesystem) (a b : bool)
  (names way : list string) :
  made_on_the_way fs fs' b way ->
  clear_way fs a names = true -> clear_way fs' a names = true.
Proof.
  intros Hmade. induction names as [|n above IH]; [reflexivity|].
  cbn [clear_way]. intros H. apply andb_true_iff in H as [Habove Hn].
  rewrite (IH Habove). cbn [andb].
  destruct (Hmade (a, n :: above)) as [->|(_ & -> & _)]; [exact Hn|reflexivity].
Qed.

(** A place below the way is as it was. *)
Lemma made_on_the_way_below (fs fs' : filesystem) (a : bool) (n : string)
  (above : list string) :
  made_on_the_way fs fs' a above ->
  fs' !! (a, n :: above) = fs !! (a, n :: above).
Proof.
  intros Hmade. destruct (Hmade (a, n :: above)) as [->|(_ & _ & _ & Hsuffix)];
    [reflexivity|].
  apply suffix_length in Hsuffix. cbn [snd length] in Hsuffix. lia.
Qed.

(** Writing at a place that is no directory leaves the directories where
    they are. *)
Lemma stat_insert_other (fs : filesystem) (k : place) (x : node) (a : bool)
  (names : list string) :
  fs !! k <> Some Directory ->
  stat fs a names = Found Directory ->
  stat (<[k := x]> fs) a names = Found Directory.
Proof.
  intros Hk. induction names as [|n above IH]; [reflexivity|].
  intros H. apply stat_found in H as [Habove Hn]. apply stat_found.
  split; [apply IH, Habove|].
  rewrite lookup_insert_ne; [exact Hn|]. intros ->. congruence.
Qed.

(** Two file systems that differ in what a regular file holds let the system
    find the same kind of thing at every place. *)
Lemma stat_same_kind (fs : filesystem) (k : place) (f f' : file) (a : bool)
  (names : list string) :
  same_kind (stat (<[k := Regular f]> fs) a names)
            (stat (<[k := Regular f']> fs) a names).
Proof.
  induction names as [|n above IH]; [exact I|].
  cbn [stat].
  destruct (stat (<[k := Regular f]> fs) a above) as [| |[|g]],
           (stat (<[k := Regular f']> fs) a above) as [| |[|g']];
    try contradiction; try exact I.
  destruct (decide (k = (a, n :: above))) as [->|Hne].
  - rewrite !lookup_insert_eq. exact I.
  - rewrite !lookup_insert_ne by exact Hne.
    destruct (fs !! (a, n :: above)) as [[|g]|]; exact I.
Qed.

(** **** Making directories and writing files *)

(** [os.makedirs] on a way without regular files: it returns, the place is
    a directory afterwards, and nothing has changed but for the directories
    made on the way. *)
Lemma makedirs_at_clear (a : bool) (names : list string) :
  forall (name : string) (fs : filesystem),
    clear_way fs a names = true ->
    exists fs' : filesystem,
      makedirs_at name a names fs = (Ok tt, fs')
      /\ stat fs' a names = Found Directory
      /\ made_on_the_way fs fs' a names.
Proof.
  induction names as [|n above IH]; intros name fs Hclear.
  - exists fs. split; [reflexivity|]. split; [reflexivity|].
    apply made_on_the_way_refl.
  - cbn [clear_way] in Hclear. apply andb_true_iff in Hclear as [Habove Hn].
    assert (exists fs1 : filesystem,
               (match above with
                | [] => mret tt
                | _ :: _ =>
                    if path_exists fs a above then mret tt
                    else pass_FileExistsError (makedirs_at (dirname name) a above)
                end : M filesystem unit) fs = (Ok tt, fs1)
               /\ stat fs1 a above = Found Directory
               /\ made_on_the_way fs fs1 a above) as (fs1 & Hstep & Hdir & Hmade).
    { destruct above as [|m rest] eqn:Habove_eq.
      - exists fs. split; [reflexivity|]. split; [reflexivity|].
        apply made_on_the_way_refl.
      - rewrite <- Habove_eq in *. unfold path_exists.
        destruct (clear_way_stat fs a above Habove) as [Hstat|Hstat]; rewrite Hstat.
        + destruct (IH (dirname name) fs Habove) as (fs1 & Hrun & Hdir & Hmade).
          exists fs1. unfold pass_FileExistsError. rewrite Hrun. auto.
        + exists fs. split; [reflexivity|]. split; [exact Hstat|].
          apply made_on_the_way_refl. }
    cbn [makedirs_at]. unfold_M. cbv beta iota.
    change (match above with
            | [] => mret tt
            | _ :: _ =>
                if path_exists fs a above then mret tt
                else pass_FileExistsError (makedirs_at (dirname name) a above)
            end fs)
      with ((match above with
             | [] => mret tt
             | _ :: _ =>
                 if path_exists fs a above then mret tt
                 else pass_FileExistsError (makedirs_at (dirname name) a above)
             end : M filesystem unit) fs).
    rewrite Hstep.
    pose proof (made_on_the_way_below fs fs1 a n above Hmade) as Hsame.
    unfold mkdir_exist_ok, mkdir. unfold_M. cbn [fst snd]. rewrite Hdir.
    destruct (fs1 !! (a, n :: above)) as [[|f]|] eqn:Hplace.
    + (* already a directory *)
      unfold path_isdir.
      rewrite (proj2 (stat_found fs1 a n above Directory) (conj Hdir Hplace)).
      exists fs1. split; [reflexivity|].
      split; [apply stat_found; auto|].
      intros k. destruct (Hmade k) as [H|(H1 & H2 & H3 & H4)]; [left; exact H|].
      right. split; [exact H1|]. split; [exact H2|]. split; [exact H3|].
      apply suffix_cons_r, H4.
    + (* a regular file: excluded *)
      rewrite <- Hsame in Hn. discriminate Hn.
    + exists (<[(a, n :: above) := Directory]> fs1). split; [reflexivity|]. split.
      * apply stat_found. split; [|apply lookup_insert_eq].
        apply stat_insert_other; [congruence|exact Hdir].
      * intros k. destruct (decide (k = (a, n :: above))) as [->|Hne].
        -- right. rewrite lookup_insert_eq, <- Hsame. auto.
        -- rewrite lookup_insert_ne by (intros Heq; apply Hne; symmetry; exact Heq).
           destruct (Hmade k) as [H|(H1 & H2 & H3 & H4)]; [left; exact H|].
           right. split; [exact H1|]. split; [exact H2|]. split; [exact H3|].
           apply suffix_cons_r, H4.
Qed.

(** Writing a file in a directory, at a place that is no directory. *)
Lemma write_file_in_directory (path : string) (f : file) (fs : filesystem)
  (a : bool) (n : string) (above : list string) :
  locate path = Ok (a, n :: above) ->
  stat fs a above = Found Directory ->
  fs !! (a, n :: above) <> Some Directory ->
  write_file path f fs = (Ok tt, <[(a, n :: above) := Regular f]> fs).
Proof.
  intros Hplace Hdir Hfree. unfold write_file.
  rewrite (locate_not_empty _ _ _ _ Hplace). unfold_M. rewrite Hplace.
  cbn [fst snd]. rewrite Hdir.
  destruct (fs !! (a, n :: above)) as [[|g]|]; [contradiction|reflexivity ..].
Qed.

(** When [write_file] returns. *)
Lemma write_file_returns (path : string) (f : file) (fs fs' : filesystem) :
  write_file path f fs = (Ok tt, fs') ->
  exists (a : bool) (n : string) (above : list string),
    locate path = Ok (a, n :: above)
    /\ stat fs a above = Found Directory
    /\ fs !! (a, n :: above) <> Some Directory
    /\ fs' = <[(a, n :: above) := Regular f]> fs.
Proof.
  unfold write_file. intros H.
  destruct (String.eqb path ""); [discriminate H|]. unfold_M.
  destruct (locate path) as [[a [|n above]]|]; try discriminate H.
  cbn [fst snd] in H. exists a, n, above. split; [reflexivity|].
  destruct (stat fs a above) as [| |[|g]]; try discriminate H.
  split; [reflexivity|].
  destruct (fs !! (a, n :: above)) as [[|g]|] eqn:Hplace; try discriminate H;
    (split; [congruence|]); injection H as <-; reflexivity.
Qed.

(** Whether [write_file] returns does not depend on what is written, nor on
    what a regular file holds. *)
Lemma write_file_same_outcome (path : string) (f f' g g' : file) (k : place)
  (fs : filesystem) :
  (write_file path f (<[k := Regular g]> fs)).1
  = (write_file path f' (<[k := Regular g']> fs)).1.
Proof.
  unfold write_file. destruct (String.eqb path ""); [reflexivity|]. unfold_M.
  destruct (locate path) as [[a [|n above]]|]; try reflexivity.
  cbn [fst snd].
  pose proof (stat_same_kind fs k g g' a above) as Hkind.
  destruct (stat (<[k := Regular g]> fs) a above) as [| |[|h]],
           (stat (<[k := Regular g']> fs) a above) as [| |[|h']];
    try contradiction; try reflexivity.
  destruct (decide (k = (a, n :: above))) as [->|Hne].
  - rewrite !lookup_insert_eq. reflexivity.
  - rewrite !lookup_insert_ne by exact Hne.
    destruct (fs !! (a, n :: above)) as [[|h]|]; reflexivity.
Qed.

(** Reading a regular file that is in a directory. *)
Lemma read_file_regular (path : string) (f : file) (fs : filesystem)
  (a : bool) (n : string) (above : list string) :
  locate path = Ok (a, n :: above) ->
  stat fs a above = Found Directory ->
  fs !! (a, n :: above) = Some (Regular f) ->
  read_file fs path = Ok f.
Proof.
  intros Hplace Hdir Hfile. unfold read_file.
  rewrite (locate_not_empty _ _ _ _ Hplace). unfold_M. rewrite Hplace.
  cbn [fst snd].
  rewrite (proj2 (stat_found fs a n above (Regular f)) (conj Hdir Hfile)).
  reflexivity.
Qed.

(** **** [save_model] *)

Lemma save_model_unfold (self : CriticalityClassifier) (filepath : string)
  (fs : filesystem) :
  save_model self filepath fs =
    match makedirs (dirname filepath) fs with
    | (Ok _, fs1) =>
        match write_file filepath (PickledDict (model_package self)) fs1 with
        | (Ok _, fs2) =>
            write_file (metrics_file filepath) (JsonFile (metrics self)) fs2
        | (Raise e, fs2) => (Raise e, fs2)
        end
    | (Raise e, fs1) => (Raise e, fs1)
    end.
Proof.
  unfold save_model, metrics_file. unfold_M.
  destruct (makedirs (dirname filepath) fs) as [[[]|e] fs1]; [|reflexivity].
  destruct (write_file filepath _ fs1) as [[[]|e] fs2]; reflexivity.
Qed.

(** [os.makedirs] on the directory of a path that [save_model] can write
    at. *)
Lemma makedirs_dirname (fs : filesystem) (filepath : string) (a : bool)
  (above : list string) (n : string) :
  locate filepath = Ok (a, n :: above) ->
  dirname filepath <> "" ->
  clear_way fs a above = true ->
  exists fs1 : filesystem,
    makedirs (dirname filepath) fs = (Ok tt, fs1)
    /\ stat fs1 a above = Found Directory
    /\ made_on_the_way fs fs1 a above.
Proof.
  intros Hplace Hdir Hclear.
  destruct (locate_dirname _ _ _ _ Hplace) as [_ Habove].
  destruct (makedirs_at_clear a above (dirname filepath) fs Hclear)
    as (fs1 & Hrun & Hstat & Hmade).
  exists fs1. split; [|auto].
  unfold makedirs. apply String.eqb_neq in Hdir. rewrite Hdir.
  unfold_M. rewrite Habove. exact Hrun.
Qed.

(** [save_model] where it can write: it returns, and the two files are
    written in the file system [os.makedirs] leaves. *)
Lemma save_model_succeeds (self : CriticalityClassifier) (fs : filesystem)
  (filepath : string) (a : bool) (above : list string) (n m : string) :
  can_save fs filepath a above n m ->
  exists fs1 : filesystem,
    stat fs1 a above = Found Directory
    /\ made_on_the_way fs fs1 a above
    /\ save_model self filepath fs
       = (Ok tt,
          <[(a, m :: above) := Regular (JsonFile (metrics self))]>
            (<[(a, n :: above) := Regular (PickledDict (model_package self))]> fs1)).
Proof.
  intros [Hp Hq Hdir Hclear Hfree_p Hfree_q].
  destruct (makedirs_dirname fs filepath a above n Hp Hdir Hclear)
    as (fs1 & Hmk & Hstat & Hmade).
  pose proof (made_on_the_way_below fs fs1 a n above Hmade) as Hn.
  pose proof (made_on_the_way_below fs fs1 a m above Hmade) as Hm.
  exists fs1. split; [exact Hstat|]. split; [exact Hmade|].
  rewrite save_model_unfold, Hmk.
  rewrite (write_file_in_directory filepath _ fs1 a n above Hp Hstat)
    by (rewrite Hn; exact Hfree_p).
  apply write_file_in_directory; [exact Hq| |].
  - apply stat_insert_other; [rewrite Hn; exact Hfree_p|exact Hstat].
  - destruct (decide ((a, n :: above) = (a, m :: above))) as [Heq|Hne].
    + rewrite Heq, lookup_insert_eq. discriminate.
    + rewrite lookup_insert_ne by exact Hne. rewrite Hm. exact Hfree_q.
Qed.

(** What [save_model] leaves when it returns: the metrics in their file,
    and the package in its file unless that is the same file. *)
Lemma save_model_returns (self : CriticalityClassifier) (filepath : string)
  (fs fs' : filesystem) :
  save_model self filepath fs = (Ok tt, fs') ->
  exists p q : place,
    locate filepath = Ok p
    /\ locate (metrics_file filepath) = Ok q
    /\ read_file fs' (metrics_file filepath) = Ok (JsonFile (metrics self))
    /\ (p <> q ->
        read_file fs' filepath = Ok (PickledDict (model_package self))).
Proof.
  rewrite save_model_unfold. intros H.
  destruct (makedirs (dirname filepath) fs) as [[[]|e] fs1]; [|discriminate H].
  destruct (write_file filepath _ fs1) as [[[]|e] fs2] eqn:Hfirst; [|discriminate H].
  apply write_file_returns in Hfirst as (a & n & above & Hp & Hdir & Hfree & ->).
  apply write_file_returns in H as (b & m & above' & Hq & Hdir' & Hfree' & ->).
  exists (a, n :: above), (b, m :: above'). split; [exact Hp|]. split; [exact Hq|].
  split.
  - apply (read_file_regular _ _ _ b m above' Hq); [|apply lookup_insert_eq].
    apply stat_insert_other; [exact Hfree'|exact Hdir'].
  - intros Hne. apply (read_file_regular _ _ _ a n above Hp).
    + apply stat_insert_other; [exact Hfree'|].
      apply stat_insert_other; [exact Hfree|exact Hdir].
    + rewrite lookup_insert_ne by (intros Heq; apply Hne; symmetry; exact Heq).
      apply lookup_insert_eq.
Qed.

Lemma model_package_lookups (self : CriticalityClassifier) :
  model_package self !! "model" = Some (option_obj PEstimator (model self)) /\
  model_package self !! "model_type" = Some (PStr (model_type self)) /\
  model_package self !! "training_date"
    = Some (option_obj PStr (training_date self)) /\
  model_package self !! "metrics" = Some (PMetrics (metrics self)) /\
  model_package self !! "feature_names" = Some (feature_names_entry (model self)) /\
  model_package self !! "feature_engineer" = None.
Proof.
  unfold model_package.
  repeat split;
    repeat (first [rewrite lookup_insert_eq | rewrite lookup_insert_ne by done]);
    try reflexivity.
Qed.

(** [load_model] on a file that holds the package of [self]. *)
Lemma load_saved_package (self : CriticalityClassifier) (fs : filesystem)
  (filepath : string) :
  read_file fs filepath = Ok (PickledDict (model_package self)) ->
  is_Some (metrics self !! "test_accuracy") ->
  load_model fs filepath = Ok (reloaded self).
Proof.
  intros Hfile [acc Hacc].
  destruct (model_package_lookups self) as (Hm & Hty & Hdate & Hmt & _).
  unfold load_model, joblib_load_package, package_get. unfold_M.
  rewrite Hfile. cbv beta iota.
  rewrite Hty, Hm, Hdate, Hmt, Hacc. unfold reloaded.
  destruct (model self), (training_date self); reflexivity.
Qed.

(** C7 (as the code has it). [save_model] does not look at the state of the
    classifier: on a given file system and path it returns, or raises what
    it raises, the same for any two classifiers, trained or not. On a
    classifier that was never trained it returns wherever it can write (the
    path and the path of the metrics name two different files of the
    directory given with the path, no name on the way to that directory is a
    regular file, and neither file name is the name of a directory): the
    file then holds a package whose model entry is None, and the metrics
    file holds no metric. *)
Theorem save_model_ignores_training_state :
  (forall (self self' : CriticalityClassifier) (filepath : string)
          (fs : filesystem),
      (save_model self filepath fs).1 = (save_model self' filepath fs).1) /\
  (forall (ty filepath : string) (fs : filesystem) (a : bool)
          (above : list string) (n m : string),
      can_save fs filepath a above n m ->
      m <> n ->
      exists fs' : filesystem,
        save_model (CriticalityClassifier_init ty) filepath fs = (Ok tt, fs') /\
        read_file fs' filepath
          = Ok (PickledDict (model_package (CriticalityClassifier_init ty))) /\
        read_file fs' (metrics_file filepath) = Ok (JsonFile ∅) /\
        model_package (CriticalityClassifier_init ty) !! "model" = Some PNone).
Proof.
  split.
  - intros self self' filepath fs. rewrite !save_model_unfold.
    destruct (makedirs (dirname filepath) fs) as [[[]|e] fs1]; [|reflexivity].
    destruct (write_file filepath (PickledDict (model_package self)) fs1)
      as [[[]|e] fs2] eqn:Hfirst.
    + apply write_file_returns in Hfirst as (a & n & above & Hp & Hdir & Hfree & ->).
      rewrite (write_file_in_directory filepath _ fs1 a n above Hp Hdir Hfree).
      apply write_file_same_outcome.
    + destruct (write_file filepath (PickledDict (model_package self')) fs1)
        as [[[]|e'] fs2'] eqn:Hsecond.
      * apply write_file_returns in Hsecond
          as (a & n & above & Hp & Hdir & Hfree & ->).
        rewrite (write_file_in_directory filepath _ fs1 a n above Hp Hdir Hfree)
          in Hfirst. discriminate Hfirst.
      * cbn [fst]. revert Hfirst Hsecond. unfold write_file.
        destruct (String.eqb filepath ""); [congruence|]. unfold_M.
        destruct (locate filepath) as [[a [|n above]]|]; cbn [fst snd];
          cbv beta iota; try congruence.
        destruct (stat fs1 a above) as [| |[|g]]; cbv beta iota; try congruence.
        destruct (fs1 !! (a, n :: above)) as [[|g]|]; cbv beta iota; congruence.
  - intros ty filepath fs a above n m Hcan Hne.
    destruct (save_model_succeeds (CriticalityClassifier_init ty) fs filepath
                a above n m Hcan) as (fs1 & Hdir & Hfree & Hsave).
    eexists. split; [exact Hsave|].
    destruct (save_model_returns _ _ _ _ Hsave) as (p & q & Hp & Hq & Hjson & Hpickle).
    rewrite (pickle_place _ _ _ _ _ _ Hcan) in Hp. injection Hp as <-.
    rewrite (metrics_place _ _ _ _ _ _ Hcan) in Hq. injection Hq as <-.
    split; [apply Hpickle; congruence|]. split; [exact Hjson|].
    apply (model_package_lookups (CriticalityClassifier_init ty)).
Qed.

(** C7 on the default path of [save_model], in an empty working
    directory. *)
Lemma save_model_untrained_witness :
  exists fs' : filesystem,
    save_model (CriticalityClassifier_init "random_forest")
               "models/criticality_model.pkl" ∅ = (Ok tt, fs') /\
    read_file fs' "models/criticality_model.pkl"
      = Ok (PickledDict (model_package (CriticalityClassifier_init "random_forest"))).
Proof.
  destruct save_model_ignores_training_state as [_ Hsave].
  destruct (Hsave "random_forest" "models/criticality_model.pkl" ∅ false
              ["models"] "criticality_model.pkl" "criticality_model_metrics.json")
    as (fs' & Hrun & Hread & _).
  - split; try (vm_compute; reflexivity); vm_compute; discriminate.
  - discriminate.
  - exists fs'. split; [exact Hrun|exact Hread].
Defined.

(** C7, the claim on the code: a classifier straight from [__init__] is
    saved without error, and the file holds a package without model. *)
Lemma untrained_classifier_is_saved :
  model (CriticalityClassifier_init "random_forest") = None /\
  (save_model (CriticalityClassifier_init "random_forest")
              "models/criticality_model.pkl" ∅).1 = Ok tt /\
  read_file
    (save_model (CriticalityClassifier_init "random_forest")
                "models/criticality_model.pkl" ∅).2
    "models/criticality_model.pkl" =
    Ok (PickledDict (model_package (CriticalityClassifier_init "random_forest"))) /\
  model_package (CriticalityClassifier_init "random_forest") !! "model" = Some PNone.
Proof.
  repeat split; vm_compute; reflexivity.
Qed.

(** The three files of the script, in [/app/models]. *)
Lemma script_places :
  locate "/app/models/criticality_model.pkl"
    = Ok (true, ["criticality_model.pkl"; "models"; "app"])
  /\ locate (metrics_file "/app/models/criticality_model.pkl")
     = Ok (true, ["criticality_model_metrics.json"; "models"; "app"])
  /\ locate "/app/models/feature_engineer.pkl"
     = Ok (true, ["feature_engineer.pkl"; "models"; "app"])
  /\ dirname "/app/models/criticality_model.pkl" <> "".
Proof. repeat split; vm_compute; congruence. Qed.

(** C8 (as the code has it). The file written by [save_model] holds a
    dictionary of five entries: the model, its type, the training date, the
    metrics and the feature names. The feature engineer is not one of them;
    the script writes it to a file of its own. Where [save_model] can write
    and the metrics go to a file of their own, [load_model] builds from the
    file a classifier with the model, type, date and metrics of the one
    saved, and without feature engineer. *)
Theorem package_has_no_engineer :
  (forall (self : CriticalityClassifier) (filepath : string) (fs : filesystem)
          (a : bool) (above : list string) (n m : string),
      can_save fs filepath a above n m ->
      m <> n ->
      is_Some (metrics self !! "test_accuracy") ->
      exists fs' : filesystem,
        save_model self filepath fs = (Ok tt, fs') /\
        read_file fs' filepath = Ok (PickledDict (model_package self)) /\
        read_file fs' (metrics_file filepath) = Ok (JsonFile (metrics self)) /\
        dom (model_package self) =
          list_to_set ["model"; "model_type"; "training_date"; "metrics";
                       "feature_names"] /\
        load_model fs' filepath = Ok (reloaded self)) /\
  (forall (classifier : CriticalityClassifier) (fe : SOWFeatureEngineering)
          (fs : filesystem),
      clear_way fs true ["models"; "app"] = true ->
      Forall (fun name => fs !! (true, [name; "models"; "app"]) <> Some Directory)
             ["criticality_model.pkl"; "criticality_model_metrics.json";
              "feature_engineer.pkl"] ->
      exists fs' : filesystem,
        main_save classifier fe fs = (Ok tt, fs') /\
        read_file fs' "/app/models/criticality_model.pkl"
          = Ok (PickledDict (model_package classifier)) /\
        read_file fs' "/app/models/feature_engineer.pkl"
          = Ok (PickledEngineer fe)).
Proof.
  split.
  - intros self filepath fs a above n m Hcan Hne Hacc.
    destruct (save_model_succeeds self fs filepath a above n m Hcan)
      as (fs1 & Hdir & Hfree & Hsave).
    eexists. split; [exact Hsave|].
    destruct (save_model_returns _ _ _ _ Hsave) as (p & q & Hp & Hq & Hjson & Hpickle).
    rewrite (pickle_place _ _ _ _ _ _ Hcan) in Hp. injection Hp as <-.
    rewrite (metrics_place _ _ _ _ _ _ Hcan) in Hq. injection Hq as <-.
    assert (read_file
              (<[(a, m :: above) := Regular (JsonFile (metrics self))]>
                 (<[(a, n :: above) := Regular (PickledDict (model_package self))]>
                    fs1)) filepath
            = Ok (PickledDict (model_package self))) as Hread
        by (apply Hpickle; congruence).
    split; [exact Hread|]. split; [exact Hjson|]. split.
    + unfold model_package. rewrite !dom_insert_L, dom_empty_L. set_solver.
    + apply load_saved_package; [exact Hread|exact Hacc].
  - intros classifier fe fs Hclear Hfree.
    destruct script_places as (Hp & Hq & Hr & Hdirname).
    apply Forall_cons in Hfree as [Hfree_p Hfree].
    apply Forall_cons in Hfree as [Hfree_q Hfree].
    apply Forall_cons in Hfree as [Hfree_r _].
    destruct (save_model_succeeds classifier fs "/app/models/criticality_model.pkl"
                true ["models"; "app"] "criticality_model.pkl"
                "criticality_model_metrics.json")
      as (fs1 & Hdir & Hmade & Hsave); [split; assumption|].
    rewrite <- (made_on_the_way_below fs fs1 true _ _ Hmade) in Hfree_p.
    rewrite <- (made_on_the_way_below fs fs1 true _ _ Hmade) in Hfree_q.
    rewrite <- (made_on_the_way_below fs fs1 true _ _ Hmade) in Hfree_r.
    unfold main_save. unfold_M. rewrite Hsave.
    rewrite (write_file_in_directory "/app/models/feature_engineer.pkl" _ _ true
               "feature_engineer.pkl" ["models"; "app"] Hr).
    + eexists. split; [reflexivity|]. split.
      * apply (read_file_regular _ _ _ true "criticality_model.pkl"
                 ["models"; "app"] Hp).
        -- repeat (apply stat_insert_other;
                   [rewrite ?lookup_insert_ne by discriminate; assumption|]).
           exact Hdir.
        -- rewrite !lookup_insert_ne by discriminate. apply lookup_insert_eq.
      * apply (read_file_regular _ _ _ true "feature_engineer.pkl"
                 ["models"; "app"] Hr); [|apply lookup_insert_eq].
        repeat (apply stat_insert_other;
                [rewrite ?lookup_insert_ne by discriminate; assumption|]).
        exact Hdir.
    + repeat (apply stat_insert_other;
              [rewrite ?lookup_insert_ne by discriminate; assumption|]).
      exact Hdir.
    + rewrite !lookup_insert_ne by discriminate. exact Hfree_r.
Qed.

(** C8 on [trained_sample] and the path of the script, on a disk without
    [/app]. *)
Lemma package_has_no_engineer_witness :
  exists fs' : filesystem,
    save_model trained_sample "/app/models/criticality_model.pkl" ∅ = (Ok tt, fs')
    /\ load_model fs' "/app/models/criticality_model.pkl"
       = Ok (reloaded trained_sample).
Proof.
  destruct package_has_no_engineer as [Hsave _].
  destruct (Hsave trained_sample "/app/models/criticality_model.pkl" ∅ true
              ["models"; "app"] "criticality_model.pkl"
              "criticality_model_metrics.json")
    as (fs' & Hrun & _ & _ & _ & Hload).
  - split; try (vm_compute; reflexivity); vm_compute; discriminate.
  - discriminate.
  - eexists. vm_compute. reflexivity.
  - exists fs'. split; [exact Hrun|exact Hload].
Defined.

(** C8, the claim on the code: the classifier holds a fitted engineer when
    it is saved; the package has no entry for it, and the classifier that
    [load_model] returns has none. *)
Lemma engineer_is_not_in_the_package :
  is_Some (feature_engineer trained_sample) /\
  model_package trained_sample !! "feature_engineer" = None /\
  feature_engineer
    <$> (match load_model
                 (save_model trained_sample "/app/models/criticality_model.pkl" ∅).2
                 "/app/models/criticality_model.pkl" with
         | Ok c => Some c
         | Raise _ => None
         end) = Some None.
Proof.
  split; [eexists; reflexivity|]. split; vm_compute; reflexivity.
Qed.

(** *** Feature importance *)

Lemma insert_by_score_perm (tie : nat -> nat -> bool) (x : nat * Q)
  (l : list (nat * Q)) :
  insert_by_score tie x l ≡ₚ x :: l.
Proof.
  induction l as [|y l IH]; simpl; [reflexivity|].
  destruct (_ && _); [reflexivity|].
  rewrite IH. apply perm_swap.
Qed.

Lemma insert_by_score_sorted (tie : nat -> nat -> bool) (x : nat * Q)
  (l : list (nat * Q)) :
  StronglySorted ascending l ->
  StronglySorted ascending (insert_by_score tie x l).
Proof.
  induction 1 as [|y l Hl IH Hy]; simpl.
  - repeat constructor.
  - destruct (Qle_bool x.2 y.2) eqn:Hle; cbn [andb].
    + destruct (negb (Qle_bool y.2 x.2) || tie x.1 y.1) eqn:Hfirst.
      * apply Qle_bool_iff in Hle.
        constructor; [constructor; assumption|].
        constructor; [exact Hle|].
        eapply Forall_impl; [exact Hy|]. intros z Hz. unfold ascending in *.
        eapply Qle_trans; eassumption.
      * apply orb_false_iff in Hfirst as [Hge _].
        apply negb_false_iff, Qle_bool_iff in Hge.
        constructor; [exact IH|].
        rewrite insert_by_score_perm. constructor; assumption.
    + constructor; [exact IH|].
      rewrite insert_by_score_perm. constructor; [|exact Hy].
      unfold ascending. apply Qlt_le_weak, Qnot_le_lt.
      intros Hle'. apply Qle_bool_iff in Hle'. congruence.
Qed.

Lemma sorted_pairs (tie : nat -> nat -> bool) (pairs : list (nat * Q)) :
  StronglySorted ascending (foldr (insert_by_score tie) [] pairs) /\
  foldr (insert_by_score tie) [] pairs ≡ₚ pairs.
Proof.
  induction pairs as [|x pairs [Hs Hp]]; simpl.
  - split; [constructor|reflexivity].
  - split; [apply insert_by_score_sorted, Hs|].
    rewrite insert_by_score_perm, Hp. reflexivity.
Qed.

Lemma enumerate_lookup {A} (l : list A) (i : nat) (x : A) :
  (i, x) ∈ enumerate 0 l -> l !! i = Some x.
Proof.
  unfold enumerate. intros H.
  apply list_elem_of_lookup in H as (k & Hk).
  apply lookup_zip_with_Some in Hk as (a & b & [= <- <-] & Ha & Hb).
  apply lookup_seq in Ha as [-> _]. exact Hb.
Qed.

Lemma StronglySorted_with {A} (R : relation A) (P : A -> Prop) (l : list A) :
  StronglySorted R l -> Forall P l ->
  StronglySorted (fun x y => R x y /\ P x /\ P y) l.
Proof.
  induction 1 as [|x l Hl IH Hx]; intros HP; [constructor|].
  apply Forall_cons in HP as [Px HP]. constructor; [apply IH, HP|].
  rewrite Forall_forall in Hx, HP |- *. intros y Hy. auto.
Qed.

Lemma StronglySorted_rev_flip {A} (R : relation A) (l : list A) :
  StronglySorted R l -> StronglySorted (flip R) (rev l).
Proof.
  induction 1 as [|x l Hl IH Hx]; simpl; [constructor|].
  apply StronglySorted_app_2; [|exact IH|repeat constructor].
  intros y z Hy Hz. apply list_elem_of_singleton in Hz as ->.
  rewrite Forall_forall in Hx. apply Hx.
  apply list_elem_of_In. apply list_elem_of_In, in_rev in Hy. exact Hy.
Qed.

(** A sort by insertion does what NumPy documents of [np.argsort], however
    it orders equal scores. *)
Lemma argsort_with_sorts (tie : nat -> nat -> bool) :
  sorts_ascending (argsort_with tie).
Proof.
  intros scores. unfold argsort_with.
  destruct (sorted_pairs tie (enumerate 0 scores)) as [Hs Hp].
  set (pairs := foldr (insert_by_score tie) [] (enumerate 0 scores)) in *.
  split.
  - rewrite Hp. unfold enumerate. rewrite fst_zip; [reflexivity|].
    rewrite length_seq. lia.
  - assert (Hscore : Forall (fun p => p.2 = score scores p.1) pairs).
    { apply Forall_forall. intros [i x] Hix. rewrite Hp in Hix.
      apply enumerate_lookup in Hix. unfold score. simpl. rewrite Hix. reflexivity. }
    pose proof (StronglySorted_with _ _ _ Hs Hscore) as Hs'.
    eapply (StronglySorted_fmap fst); [|exact Hs'].
    intros [j sj] [k sk] (Hasc & Hj & Hk). simpl in *. subst sj sk.
    exact Hasc.
Qed.

(** [np.argsort] reversed lists the features by importance, the most
    important first. *)
Lemma reversed_argsort_sorted (np_argsort : list Q -> list nat)
  (importances : list Q) :
  sorts_ascending np_argsort ->
  StronglySorted (no_less_important importances) (rev (np_argsort importances)).
Proof.
  intros Hsorts. destruct (Hsorts importances) as [_ Hs].
  apply StronglySorted_rev_flip in Hs. exact Hs.
Qed.

Lemma print_lines_all (feature_names : list string) (importances : list Q)
  (ranked : list (nat * nat)) :
  forall out : list line,
    Forall (fun ij => (ij.2 < length feature_names)%nat
                      /\ (ij.2 < length importances)%nat) ranked ->
    print_lines feature_names importances ranked out =
      (Ok tt, (out ++ map (report_line feature_names importances) ranked)%list).
Proof.
  induction ranked as [|[i j] ranked IH]; intros out H; simpl.
  - rewrite app_nil_r. reflexivity.
  - apply Forall_cons in H as [[Hn Hi] H]. simpl in Hn, Hi.
    destruct (lookup_lt_is_Some_2 _ _ Hn) as [name Hname].
    destruct (lookup_lt_is_Some_2 _ _ Hi) as [imp Himp].
    unfold item, print. unfold_M. rewrite Hname, Himp.
    rewrite IH by exact H. rewrite <- app_assoc. simpl.
    unfold report_line, score. simpl. rewrite Hname, Himp. reflexivity.
Qed.

Lemma top_indices_elem (np_argsort : list Q -> list nat) (importances : list Q)
  (top_n j : nat) :
  sorts_ascending np_argsort ->
  j ∈ top_indices np_argsort importances top_n -> (j < length importances)%nat.
Proof.
  intros Hsorts. destruct (Hsorts importances) as [Hperm _].
  unfold top_indices. intros H. apply elem_of_take in H as (i & H & _).
  apply list_elem_of_lookup_2 in H.
  apply list_elem_of_In, in_rev, list_elem_of_In in H.
  rewrite Hperm in H. apply elem_of_seq in H. lia.
Qed.

(** C9 (as the code has it). [_print_feature_importance] returns nothing: it
    prints a line (rank, name, importance) for the [top_n] most important
    features only, ten unless told otherwise. Whatever order [np.argsort]
    leaves equal scores in, the lines are in an order in which the
    importance does not increase, no feature is printed twice, and no
    feature left out is more important than one that is printed. The code
    fixes no order among features of equal importance. *)
Theorem importance_report_order
  (np_argsort : list Q -> list nat)
  (self : CriticalityClassifier) (est : Estimator) (feature_names : list string)
  (top_n : nat) (out : list line) :
  sorts_ascending np_argsort ->
  model self = Some est ->
  (length (feature_importances_ est) <= length feature_names)%nat ->
  let printed := top_indices np_argsort (feature_importances_ est) top_n in
  _print_feature_importance np_argsort self feature_names top_n out =
    (Ok tt,
     (out ++ map (report_line feature_names (feature_importances_ est))
                 (enumerate 1 printed))%list) /\
  length printed = Nat.min top_n (length (feature_importances_ est)) /\
  NoDup printed /\
  StronglySorted (no_less_important (feature_importances_ est)) printed /\
  (forall j k : nat,
      j ∈ printed ->
      (k < length (feature_importances_ est))%nat ->
      k ∉ printed ->
      no_less_important (feature_importances_ est) j k).
Proof.
  intros Hsorts Hmodel Hnames printed. subst printed.
  set (imps := feature_importances_ est) in *.
  destruct (Hsorts imps) as [Hperm _].
  pose proof (reversed_argsort_sorted np_argsort imps Hsorts) as Hsorted.
  pose proof (take_drop top_n (rev (np_argsort imps))) as Hsplit.
  rewrite <- Hsplit in Hsorted.
  split; [|split; [|split; [|split]]].
  - unfold _print_feature_importance. unfold_M. rewrite Hmodel.
    fold imps. apply print_lines_all.
    apply Forall_forall. intros [i j] Hij. simpl.
    apply elem_of_zip_r, (top_indices_elem np_argsort _ _ _ Hsorts) in Hij. lia.
  - unfold top_indices. rewrite length_take, length_rev.
    rewrite (Permutation_length Hperm), length_seq. reflexivity.
  - unfold top_indices. apply (sublist_NoDup _ (rev (np_argsort imps)));
      [|apply sublist_take].
    rewrite <- (Permutation_rev (np_argsort imps)), Hperm.
    apply NoDup_seq.
  - unfold top_indices. eapply StronglySorted_app_1_l, Hsorted.
  - intros j k Hj Hk Hnot. unfold top_indices in Hj, Hnot.
    eapply StronglySorted_app_1_elem_of; [exact Hsorted|exact Hj|].
    assert (Hin : k ∈ rev (np_argsort imps)).
    { rewrite <- (Permutation_rev (np_argsort imps)), Hperm.
      apply elem_of_seq. lia. }
    rewrite <- Hsplit in Hin. apply elem_of_app in Hin as [Hin|Hin];
      [contradiction|exact Hin].
Qed.

(** C9 on [trained_sample], with a stable sort: ten of the 14 features are
    printed. *)
Lemma importance_report_witness :
  (_print_feature_importance (argsort_with in_index_order) trained_sample
     get_feature_columns 10 []).1 = Ok tt /\
  length (top_indices (argsort_with in_index_order)
            (feature_importances_ sample_estimator) 10) = 10%nat.
Proof.
  destruct (importance_report_order (argsort_with in_index_order) trained_sample
              sample_estimator get_feature_columns 10 [])
    as (Hprint & Hlen & _).
  - apply argsort_with_sorts.
  - reflexivity.
  - vm_compute. lia.
  - cbv zeta in Hprint, Hlen. rewrite Hprint, Hlen. split; reflexivity.
Defined.

(** C9, the claim on the code: of the 14 features ten are printed and
    nothing is returned, and features of equal importance need not come in
    the order of their columns. Under a sort that does what NumPy documents
    of [np.argsort], the three features of importance 1/10 (columns 2, 5 and
    6) come out as 5, 2, 6 and those of importance 1/20 (columns 4, 7 and 8)
    as 8, 4, 7; under another such sort, a stable one, they come out as
    6, 5, 2 and 8, 7, 4. *)
Lemma equal_scores_in_no_fixed_order :
  model trained_sample = Some sample_estimator /\
  length (feature_importances_ sample_estimator) = 14%nat /\
  sorts_ascending (argsort_with (in_order_of [6; 2; 5; 7; 4; 8]%nat)) /\
  sorts_ascending (argsort_with in_index_order) /\
  (exists rest : list line,
      _print_feature_importance (argsort_with (in_order_of [6; 2; 5; 7; 4; 8]%nat))
        trained_sample get_feature_columns 10 [] =
      (Ok tt,
       [(1%nat, "days_to_expire", (3 # 10)%Q);
        (2%nat, "risk_score", (1 # 5)%Q);
        (3%nat, "worker_count", (1 # 10)%Q);
        (4%nat, "is_critical_window", (1 # 10)%Q);
        (5%nat, "worker_criticality_score", (1 # 10)%Q);
        (6%nat, "budget_per_worker", (1 # 20)%Q);
        (7%nat, "has_workers", (1 # 20)%Q);
        (8%nat, "budget_normalized", (1 # 20)%Q)] ++ rest)%list
      /\ length rest = 2%nat) /\
  (exists rest : list line,
      _print_feature_importance (argsort_with in_index_order)
        trained_sample get_feature_columns 10 [] =
      (Ok tt,
       [(1%nat, "days_to_expire", (3 # 10)%Q);
        (2%nat, "risk_score", (1 # 5)%Q);
        (3%nat, "worker_criticality_score", (1 # 10)%Q);
        (4%nat, "worker_count", (1 # 10)%Q);
        (5%nat, "is_critical_window", (1 # 10)%Q);
        (6%nat, "budget_per_worker", (1 # 20)%Q);
        (7%nat, "budget_normalized", (1 # 20)%Q);
        (8%nat, "has_workers", (1 # 20)%Q)] ++ rest)%list
      /\ length rest = 2%nat).
Proof.
  split; [reflexivity|]. split; [reflexivity|].
  split; [apply argsort_with_sorts|]. split; [apply argsort_with_sorts|].
  split; eexists; (split; [vm_compute; reflexivity|reflexivity]).
Qed.

(** *** Further properties of the code *)

Lemma wrap64_small (z : Z) : - 2 ^ 63 <= z < 2 ^ 63 -> wrap64 z = z.
Proof.
  intros H. unfold wrap64. rewrite Z.mod_small by lia. lia.
Qed.






(** X1. In exact arithmetic the numeric sections of [engineer_features] give
    the columns of [numeric_frame]; a cell of [budget_per_worker] is the
    budget divided by the head count when there are workers and 0 otherwise;
    a cell of [risk_score] is (30 - days) x has_workers x (1 + ln (1 +
    workers)) as long as 30 - days is an [int64]; for 28 days and 25 workers
    it is 2 (1 + ln 26). *)
Theorem numeric_features_formulas
  (d : DataFrame) (days workers : list Z) (budget : list R) :
  numeric_columns d days workers budget ->
  numeric_features d = Ok (numeric_frame d days workers budget) /\
  (forall (b : R) (w : Z), 0 < w -> budget_per_worker_cell b w = (b / IZR w)%R) /\
  (forall (b : R) (w : Z), w <= 0 -> budget_per_worker_cell b w = 0%R) /\
  (forall dd w : Z,
      30 - 2 ^ 63 < dd < 2 ^ 63 -> 0 < w ->
      risk_value dd w = ((30 - IZR dd) * 1 * (1 + ln (1 + IZR w)))%R) /\
  (forall dd : Z, risk_value dd 0 = 0%R) /\
  risk_value 28 25 = (2 * (1 + ln 26))%R.
Proof.
  intros Hnum. split; [apply numeric_features_Ok, Hnum|].
  split; [|split; [|split; [|split]]].
  - intros b w Hw. unfold budget_per_worker_cell.
    rewrite Z.gtb_ltb. destruct (Z.ltb_spec 0 w); [reflexivity|lia].
  - intros b w Hw. unfold budget_per_worker_cell.
    rewrite Z.gtb_ltb. destruct (Z.ltb_spec 0 w); [lia|reflexivity].
  - intros dd w Hdd Hw. unfold risk_value.
    rewrite wrap64_small by lia.
    rewrite Z.gtb_ltb. destruct (Z.ltb_spec 0 w); [|lia].
    unfold astype_int. rewrite Z.mul_1_r, minus_IZR. ring.
  - intros dd. unfold risk_value. simpl astype_int.
    rewrite Z.mul_0_r. simpl. ring.
  - unfold risk_value. replace (wrap64 (30 - 28) * astype_int (25 >? 0)) with 2
      by reflexivity.
    replace (1 + 25)%R with 26%R by lra. reflexivity.
Qed.

Lemma numeric_features_formulas_witness :
  numeric_features sample_frame =
    Ok (numeric_frame sample_frame [28; 100] [25; 0] (map IZR [1500000; 20000])).
Proof.
  apply (numeric_features_formulas sample_frame [28; 100] [25; 0]
           (map IZR [1500000; 20000]) sample_frame_numeric).
Defined.

(** X2. The gold cases of the specification: 28 days with 25 workers and an
    expired contract with 8 workers are critical, 20 days without workers is
    high, 150 days with 3 workers is low. *)
Theorem classify_gold_cases :
  classify 28 25 = CRITICO /\
  classify (-5) 8 = CRITICO /\
  classify 20 0 = ALTO /\
  classify 150 3 = BAJO /\
  forall days workers : Z,
    days < 0 -> workers > 0 -> classify days workers = CRITICO.
Proof.
  repeat split. intros days workers Hd Hw. unfold classify.
  Zbool_cases; simpl; try reflexivity; lia.
Qed.

(** X3. Idempotence. After a first [engineer_features] has fitted the
    encoders on a frame, a second call on the same frame returns another new
    frame with the same columns, and leaves the engineer as the first call
    left it. *)
Theorem second_pass_repeats_first
  (w : world) (df : nat) (d : DataFrame) (days workers : list Z)
  (budget : list R) (cells : string -> list string) :
  frames w !! df = Some d ->
  numeric_columns d days workers budget ->
  categorical_columns d cells ->
  (forall col, col ∈ categorical_cols -> label_encoders (self w) !! col = None) ->
  exists (r1 r2 : nat) (w1 w2 : world),
    engineer_features df w = (Ok r1, w1) /\
    engineer_features df w1 = (Ok r2, w2) /\
    r1 <> r2 /\
    frames w2 !! r2 = frames w1 !! r1 /\
    frames w2 !! r1 = frames w1 !! r1 /\
    self w2 = self w1.
Proof.
  intros Hd Hnum Hcat Hnone.
  pose proof (engineer_features_fit_mode w df d days workers budget cells
                Hd Hnum Hcat Hnone) as H1.
  set (r1 := fresh (dom (frames w))) in *.
  match type of H1 with _ = (_, ?x) => set (w1 := x) in * end.
  assert (Hr1 : r1 <> df).
  { intros Heq. apply (is_fresh (dom (frames w))). fold r1. rewrite Heq.
    apply elem_of_dom. eauto. }
  assert (Hd1 : frames w1 !! df = Some d).
  { unfold w1. simpl. rewrite lookup_insert_ne by exact Hr1. exact Hd. }
  assert (Hfit : fitted_with (self w1) (fun col => np_unique (cells col))).
  { intros col Hcol. unfold w1.
    change (with_fitted cells categorical_cols (label_encoders (self w)) !! col
            = Some (Some (np_unique (cells col)))).
    rewrite with_fitted_lookup by exact categorical_NoDup.
    rewrite decide_True by exact Hcol. reflexivity. }
  pose proof (engineer_features_transform_mode w1 df d days workers budget cells
                (fun col => np_unique (cells col)) Hd1 Hnum Hcat Hfit) as H2.
  exists r1, (fresh (dom (frames w1))), w1. eexists.
  split; [exact H1|]. split.
  - apply H2. intros col _. apply Forall_forall. intros y Hy.
    apply np_unique_elem, Hy.
  - assert (Hr2 : r1 <> fresh (dom (frames w1))).
    { intros Heq. apply (is_fresh (dom (frames w1))). rewrite <- Heq.
      apply elem_of_dom. unfold w1. simpl. rewrite lookup_insert_eq. eauto. }
    split; [exact Hr2|]. cbn [frames self]. split; [|split; [|reflexivity]].
    + rewrite lookup_insert_eq. unfold w1. cbn [frames].
      rewrite lookup_insert_eq. reflexivity.
    + apply lookup_insert_ne. intros Heq. apply Hr2. symmetry. exact Heq.
Qed.

Lemma second_pass_repeats_first_witness :
  exists (r1 r2 : nat) (w1 w2 : world),
    engineer_features 0%nat sample_world = (Ok r1, w1) /\
    engineer_features 0%nat w1 = (Ok r2, w2) /\
    r1 <> r2 /\
    frames w2 !! r2 = frames w1 !! r1 /\
    frames w2 !! r1 = frames w1 !! r1 /\
    self w2 = self w1.
Proof.
  apply (second_pass_repeats_first sample_world 0%nat sample_frame
           [28; 100] [25; 0] (map IZR [1500000; 20000]) (cells_of sample_frame)).
  - reflexivity.
  - exact sample_frame_numeric.
  - exact sample_frame_categorical.
  - intros col _. apply lookup_empty.
Defined.

Lemma feature_matrix_engineered (d : DataFrame) (days workers : list Z)
  (budget : list R) (cells classes : string -> list string) :
  feature_matrix
    (with_encoded cells classes categorical_cols
       (numeric_frame d days workers budget))
    get_feature_columns =
  Ok (raw_matrix days workers budget cells classes).
Proof.
  unfold feature_matrix, get_feature_columns, with_encoded, categorical_cols,
    numeric_frame, raw_matrix, getitem.
  cbn [foldl traverse String.append Ascii.ascii_dec].
  unfold_M.
  repeat (rewrite ?lookup_insert_eq; rewrite ?lookup_insert_ne by done;
          rewrite ?lookup_insert_eq; cbn [float_cells traverse]).
  reflexivity.
Qed.

Lemma criticality_survives (d : DataFrame) (c : column) (days workers : list Z)
  (budget : list R) (cells classes : string -> list string) :
  getitem
    (with_encoded cells classes categorical_cols
       (numeric_frame (<["Criticality" := c]> d) days workers budget))
    "Criticality" = Ok c.
Proof.
  unfold with_encoded, categorical_cols, numeric_frame, getitem.
  cbn [foldl String.append].
  rewrite !lookup_insert_ne by done. rewrite lookup_insert_eq. reflexivity.
Qed.

Lemma numeric_columns_labelled (d : DataFrame) (c : column)
  (days workers : list Z) (budget : list R) :
  numeric_columns d days workers budget ->
  numeric_columns (<["Criticality" := c]> d) days workers budget.
Proof.
  intros [H1 H2 H3 H4].
  split; try (apply has_cells_insert_ne; [discriminate|assumption]). exact H4.
Qed.

Lemma categorical_columns_labelled (d : DataFrame) (c : column)
  (cells : string -> list string) :
  categorical_columns d cells ->
  categorical_columns (<["Criticality" := c]> d) cells.
Proof.
  intros H col Hcol. specialize (H col Hcol).
  each_categorical Hcol; (apply has_cells_insert_ne; [discriminate|exact H]).
Qed.

(** X4. On a new engineer, a frame with the raw columns and at least one row
    is prepared without error: the label vector is the label of every row,
    in the order of the rows of the input; the matrix has the 14 feature
    columns in the order of [get_feature_columns], scaled with the
    statistics of this very matrix; and the annotated frame is a new object. *)
Theorem prepare_for_training_in_row_order
  (w : world) (df : nat) (d : DataFrame) (days workers : list Z)
  (budget : list R) (cells : string -> list string) :
  frames w !! df = Some d ->
  numeric_columns d days workers budget ->
  categorical_columns d cells ->
  (forall col, col ∈ categorical_cols -> label_encoders (self w) !! col = None) ->
  days <> [] ->
  exists (st : ScalerStats) (r : nat) (w' : world),
    StandardScaler_fit
      (raw_matrix days workers budget cells (fun col => np_unique (cells col)))
      = Ok st /\
    prepare_for_training df w =
      (Ok (zip get_feature_columns
             (StandardScaler_transform st
                (raw_matrix days workers budget cells
                   (fun col => np_unique (cells col)))),
           criticality_column days workers, r), w') /\
    r <> df /\
    scaler (self w') = Some st.
Proof.
  intros Hd Hnum Hcat Hnone Hrows.
  pose proof (create_criticality_label_mutates w df d days workers Hd
                (col_days _ _ _ _ Hnum) (col_workers _ _ _ _ Hnum)) as Hlabel.
  match type of Hlabel with _ = (_, ?x) => set (w0 := x) in * end.
  set (crit := criticality_column days workers) in *.
  assert (Hd0 : frames w0 !! df = Some (<["Criticality" := crit]> d))
    by (unfold w0; cbn [frames]; apply lookup_insert_eq).
  pose proof (engineer_features_fit_mode w0 df _ days workers budget cells Hd0
                (numeric_columns_labelled _ crit _ _ _ Hnum)
                (categorical_columns_labelled _ crit _ Hcat) Hnone) as Heng.
  match type of Heng with _ = (_, ?x) => set (w1 := x) in * end.
  set (r := fresh (dom (frames w0))) in *.
  set (X := raw_matrix days workers budget cells
              (fun col => np_unique (cells col))).
  assert (Hfit : exists st, StandardScaler_fit X = Ok st).
  { unfold StandardScaler_fit, X, raw_matrix, n_rows.
    rewrite length_map. destruct days; [contradiction|]. simpl. eauto. }
  destruct Hfit as [st Hst].
  exists st, r. eexists. split; [exact Hst|]. split; [|split].
  - unfold prepare_for_training. unfold_M. rewrite Hlabel, Heng.
    unfold deref, on_self, scaler_fit_transform. unfold_M.
    unfold w1 at 1. cbn [frames]. rewrite lookup_insert_eq.
    rewrite feature_matrix_engineered, criticality_survives. fold X.
    rewrite Hst. reflexivity.
  - intros Heq. apply (is_fresh (dom (frames w0))). fold r. rewrite Heq.
    apply elem_of_dom. eauto.
  - reflexivity.
Qed.

Lemma prepare_for_training_witness :
  exists (st : ScalerStats) (r : nat) (w' : world),
    StandardScaler_fit
      (raw_matrix [28; 100] [25; 0] (map IZR [1500000; 20000])
         (cells_of sample_frame)
         (fun col => np_unique (cells_of sample_frame col)))
      = Ok st /\
    prepare_for_training 0%nat sample_world =
      (Ok (zip get_feature_columns
             (StandardScaler_transform st
                (raw_matrix [28; 100] [25; 0] (map IZR [1500000; 20000])
                   (cells_of sample_frame)
                   (fun col => np_unique (cells_of sample_frame col)))),
           criticality_column [28; 100] [25; 0], r), w') /\
    r <> 0%nat /\
    scaler (self w') = Some st.
Proof.
  apply (prepare_for_training_in_row_order sample_world 0%nat sample_frame).
  - reflexivity.
  - exact sample_frame_numeric.
  - exact sample_frame_categorical.
  - intros col _. apply lookup_empty.
  - discriminate.
Defined.

(** * The service *)

Import App ServiceData.

Lemma KEY_MAPPING_injective :
  map_Forall (fun k1 v1 => map_Forall (fun k2 v2 => v1 = v2 -> k1 = k2) KEY_MAPPING)
             KEY_MAPPING.
Proof. apply (bool_decide_unpack _). vm_compute. reflexivity. Qed.

Lemma KEY_MAPPING_inj k1 k2 k' :
  KEY_MAPPING !! k1 = Some k' -> KEY_MAPPING !! k2 = Some k' -> k1 = k2.
Proof.
  intros H1 H2.
  exact (KEY_MAPPING_injective k1 k' H1 k2 k' H2 eq_refl).
Qed.

Lemma normalize_sow_data_spec raw :
  (forall k k', KEY_MAPPING !! k = Some k' ->
                normalize_sow_data raw !! k' = raw !! k)
  /\ (forall k', (forall k, KEY_MAPPING !! k <> Some k') ->
                 normalize_sow_data raw !! k' = None).
Proof.
  unfold normalize_sow_data.
  apply (map_fold_weak_ind
           (fun r m => (forall k k', KEY_MAPPING !! k = Some k' -> r !! k' = m !! k)
                       /\ (forall k', (forall k, KEY_MAPPING !! k <> Some k') ->
                                      r !! k' = None))).
  - split; intros; rewrite !lookup_empty; reflexivity.
  - intros i x m r Hi [IH1 IH2]. destruct (KEY_MAPPING !! i) as [i'|] eqn:Hmap.
    + split.
      * intros k k' Hk. destruct (decide (k = i)) as [->|Hne].
        -- rewrite Hmap in Hk. injection Hk as <-.
           rewrite !lookup_insert_eq. reflexivity.
        -- assert (i' <> k') by (intros ->; apply Hne; eapply KEY_MAPPING_inj; eauto).
           rewrite !lookup_insert_ne by done. apply IH1, Hk.
      * intros k' Hk'. assert (i' <> k') by (intros ->; exact (Hk' i Hmap)).
        rewrite lookup_insert_ne by done. apply IH2, Hk'.
    + split.
      * intros k k' Hk. assert (i <> k) by (intros ->; congruence).
        rewrite lookup_insert_ne by done. apply IH1, Hk.
      * exact IH2.
Qed.

Lemma normalized_sow_id raw : normalize_sow_data raw !! "sow_id" = raw !! "SOW ID".
Proof. apply normalize_sow_data_spec. vm_compute. reflexivity. Qed.

Lemma normalized_risk raw : normalize_sow_data raw !! "risk" = raw !! "risk".
Proof. apply normalize_sow_data_spec. vm_compute. reflexivity. Qed.

Lemma normalized_status raw : normalize_sow_data raw !! "status" = raw !! "status".
Proof. apply normalize_sow_data_spec. vm_compute. reflexivity. Qed.

Lemma first_with_sow_id_Some db s old :
  first_with_sow_id db s = Some old -> In old db /\ sow_id old = s.
Proof.
  unfold first_with_sow_id. intros H. apply find_some in H as [Hin Heq].
  split; [exact Hin|]. apply String.eqb_eq, Heq.
Qed.

Lemma first_with_sow_id_None db s :
  first_with_sow_id db s = None <-> ~ In s (map sow_id db).
Proof.
  unfold first_with_sow_id. split.
  - intros H Hin. apply in_map_iff in Hin as (r & Hr & Hin).
    pose proof (find_none _ _ H r Hin) as Hf. cbv beta in Hf.
    rewrite Hr, String.eqb_refl in Hf. discriminate.
  - intros H. destruct (List.find _ db) as [r|] eqn:Hf; [|reflexivity].
    apply find_some in Hf as [Hin Heq]. apply String.eqb_eq in Heq.
    exfalso. apply H. apply in_map_iff. exists r. split; assumption.
Qed.

Lemma first_with_sow_id_In db s :
  In s (map sow_id db) -> exists old, first_with_sow_id db s = Some old.
Proof.
  intros Hin. destruct (first_with_sow_id db s) as [old|] eqn:Hf; [eauto|].
  apply first_with_sow_id_None in Hf. contradiction.
Qed.

Lemma NoDup_map_eq {A B} (f : A -> B) (l : list A) x y :
  NoDup (map f l) -> In x l -> In y l -> f x = f y -> x = y.
Proof.
  induction l as [|a l IH]; simpl; [contradiction|].
  intros Hnd Hx Hy Hf. apply NoDup_cons in Hnd as [Hna Hnd].
  destruct Hx as [->|Hx], Hy as [->|Hy].
  - reflexivity.
  - exfalso. apply Hna. rewrite Hf. apply list_elem_of_In, in_map, Hy.
  - exfalso. apply Hna. rewrite <- Hf. apply list_elem_of_In, in_map, Hx.
  - apply IH; assumption.
Qed.

Lemma next_id_above db r : In r db -> id r < next_id db.
Proof.
  unfold next_id. induction db as [|a db IH]; simpl; [contradiction|].
  intros [->|Hin]; [lia|]. specialize (IH Hin). lia.
Qed.

Lemma replace_row_ids r' db : map id (replace_row r' db) = map id db.
Proof.
  unfold replace_row. rewrite map_map. apply map_ext. intros r.
  destruct (id r =? id r') eqn:E; [|reflexivity]. apply Z.eqb_eq in E. congruence.
Qed.

Lemma replace_row_by_sow_id r' old db :
  consistent db -> In old db -> id r' = id old -> 
  replace_row r' db = map (fun r => if String.eqb (sow_id r) (sow_id old) then r' else r) db.
Proof.
  intros [Hid Hsid] Hold Hr'. unfold replace_row. apply map_ext_in. intros r Hr.
  rewrite Hr'. destruct (id r =? id old) eqn:E.
  - apply Z.eqb_eq in E.
    assert (r = old) as -> by (apply (NoDup_map_eq id db); assumption).
    rewrite String.eqb_refl. reflexivity.
  - destruct (String.eqb (sow_id r) (sow_id old)) eqn:E'; [|reflexivity].
    apply String.eqb_eq in E'.
    assert (r = old) as -> by (apply (NoDup_map_eq sow_id db); assumption).
    rewrite Z.eqb_refl in E. discriminate.
Qed.

Lemma replace_row_fresh r' db :
  (forall r, In r db -> id r <> id r') -> replace_row r' db = db.
Proof.
  intros H. unfold replace_row. rewrite <- (map_id db) at 2. apply map_ext_in.
  intros r Hr. destruct (id r =? id r') eqn:E; [|reflexivity].
  apply Z.eqb_eq in E. exfalso. eapply H; eauto.
Qed.

Lemma assign_text setter normalized key r :
  text_or_absent (normalized !! key) ->
  assign setter normalized key r
  = Return (match normalized !! key with
            | Some (JStr s) => setter s r
            | _ => r
            end).
Proof.
  unfold assign, text_or_absent. destruct (normalized !! key) as [[]|]; simpl; tauto.
Qed.

Lemma with_default_status_other raw risk_val key :
  key <> "status" -> with_default_status raw risk_val !! key = raw !! key.
Proof.
  intros Hne. unfold with_default_status.
  destruct (raw !! "status"); [reflexivity|].
  destruct (String.eqb risk_val "high"); apply lookup_insert_ne; congruence.
Qed.

Lemma with_default_status_status raw risk_val :
  with_default_status raw risk_val !! "status"
  = match raw !! "status" with
    | Some v => Some v
    | None => Some (JStr (if String.eqb risk_val "high" then "flagged" else "healthy"))
    end.
Proof.
  unfold with_default_status. destruct (raw !! "status") eqn:E; [exact E|].
  destruct (String.eqb risk_val "high"); apply lookup_insert_eq.
Qed.

Lemma set_risk_same r : set_risk (risk r) r = r.
Proof. destruct r; reflexivity. Qed.

Lemma set_status_same r : set_status (status r) r = r.
Proof. destruct r; reflexivity. Qed.

Lemma replace_row_twice r db : replace_row r (replace_row r db) = replace_row r db.
Proof.
  unfold replace_row. rewrite map_map. apply map_ext. intros x.
  destruct (id x =? id r) eqn:E; [rewrite Z.eqb_refl; reflexivity|].
  rewrite E. reflexivity.
Qed.

Lemma first_with_sow_id_replaced db s old r :
  first_with_sow_id db s = Some old -> id r = id old -> sow_id r = s ->
  first_with_sow_id (replace_row r db) s = Some r.
Proof.
  unfold first_with_sow_id, replace_row. intros Hf Hid Hsid.
  induction db as [|a db IH]; [discriminate|]. cbn [List.find map] in *.
  destruct (String.eqb (sow_id a) s) eqn:E.
  - injection Hf as ->. rewrite Hid, Z.eqb_refl, Hsid, String.eqb_refl. reflexivity.
  - destruct (id a =? id r).
    + rewrite Hsid, String.eqb_refl. reflexivity.
    + rewrite E. apply IH, Hf.
Qed.

Lemma first_with_sow_id_appended db r :
  ~ In (sow_id r) (map sow_id db) ->
  first_with_sow_id (db ++ [r]) (sow_id r) = Some r.
Proof.
  unfold first_with_sow_id. intros Hnew.
  induction db as [|a db IH]; cbn [List.find app map] in *.
  - rewrite String.eqb_refl. reflexivity.
  - destruct (String.eqb (sow_id a) (sow_id r)) eqn:E.
    + apply String.eqb_eq in E. exfalso. apply Hnew. left. exact E.
    + apply IH. intros Hin. apply Hnew. right. exact Hin.
Qed.

Lemma replace_row_appended db r :
  id r = next_id db -> replace_row r (db ++ [r]) = (db ++ [r])%list.
Proof.
  intros Hid. unfold replace_row. rewrite map_app. cbn [map].
  rewrite Z.eqb_refl. f_equal. apply replace_row_fresh.
  intros x Hx Heq. pose proof (next_id_above db x Hx). lia.
Qed.

Lemma strip_lower_Return s t :
  strip_lower s = Return t -> is_ascii s = true /\ t = lower (strip s).
Proof.
  unfold strip_lower. destruct (is_ascii s); [|discriminate].
  intros [= <-]. auto.
Qed.

Lemma is_high_risk_or_status_Return r t b :
  is_high_risk_or_status (Some r) (Some t) = Return b ->
  b = (String.eqb (lower (strip r)) "high" || String.eqb (lower (strip t)) "flagged").
Proof.
  unfold is_high_risk_or_status. cbn [from_option]. unfold mbind, result_bind, Datatypes.id.
  destruct (strip_lower r) as [r'|] eqn:Er; cbv beta iota; [|discriminate].
  destruct (strip_lower t) as [t'|] eqn:Et; cbv beta iota; [|discriminate].
  apply strip_lower_Return in Er as [_ ->]. apply strip_lower_Return in Et as [_ ->].
  intros [= <-]. reflexivity.
Qed.

Lemma risk_text_of_string r t :
  risk_text (Some (JStr r)) = Return t -> t = lower (strip r).
Proof. cbn [risk_text]. intros H. apply strip_lower_Return in H as [_ H]. exact H. Qed.

(** One field of the request, outermost first. *)
Ltac request_step H :=
  match type of H with
  | mbind _ (match ?n !! ?k with _ => _ end) = _ => destruct (n !! k) as [[]|]
  | mbind _ (mbind _ (?n !! ?k)) = _ => destruct (n !! k)
  | mbind _ (?p ?v) = _ => destruct (p v)
  end;
  cbn [mbind option_bind] in H; try discriminate H.

Section ServiceProofs.

Variable parse_int : jvalue -> option Z.
Variable parse_float : jvalue -> option float.
Variable parse_date : jvalue -> option date.

Abbreviation create_or_update := (create_or_update_sow parse_int parse_float parse_date).
Abbreviation request := (CreateSOWRequest parse_int parse_float parse_date).

Lemma request_fields normalized new_id row :
  request normalized new_id = Some row ->
  id row = new_id
  /\ normalized !! "sow_id" = Some (JStr (sow_id row))
  /\ normalized !! "risk" = Some (JStr (risk row))
  /\ normalized !! "status" = Some (JStr (status row)).
Proof.
  unfold CreateSOWRequest, str_field. intros H.
  repeat request_step H.
  injection H as <-. cbn [id sow_id risk status]. auto.
Qed.

Lemma request_needs_field normalized new_id key key' :
  KEY_MAPPING !! key = Some key' ->
  normalized !! key' = None ->
  request normalized new_id = None.
Proof.
  intros Hkey Hnone. unfold KEY_MAPPING in Hkey.
  apply elem_of_list_to_map_2 in Hkey.
  unfold CreateSOWRequest, str_field.
  repeat (apply elem_of_cons in Hkey as [Hkey|Hkey];
          [injection Hkey as -> ->; rewrite Hnone;
           repeat (cbn [mbind option_bind];
                   first [ reflexivity
                         | match goal with
                           | |- mbind _ (match ?n !! ?k with _ => _ end) = _ =>
                               destruct (n !! k) as [[]|]
                           | |- mbind _ (mbind _ (?n !! ?k)) = _ => destruct (n !! k)
                           | |- mbind _ (?p ?v) = _ => destruct (p v)
                           end ])
          |]).
  apply elem_of_nil in Hkey. contradiction.
Qed.

Lemma create_or_update_known raw db s old :
  raw !! "SOW ID" = Some (JStr s) -> s <> "" ->
  first_with_sow_id db s = Some old ->
  create_or_update raw db
  = match r ← assign set_risk (normalize_sow_data raw) "risk" old;
          assign set_status (normalize_sow_data raw) "status" r with
    | Return r => (Return (r, Updated), replace_row r db)
    | Throw e => (Throw e, db)
    end.
Proof.
  intros Hs Hne Hold. unfold create_or_update_sow. cbv zeta.
  rewrite normalized_sow_id, Hs.
  destruct (String.eqb s "") eqn:E; [apply String.eqb_eq in E; contradiction|].
  rewrite Hold. reflexivity.
Qed.

Lemma create_or_update_new raw db s :
  raw !! "SOW ID" = Some (JStr s) -> s <> "" ->
  ~ In s (map sow_id db) ->
  create_or_update raw db
  = match request (normalize_sow_data raw) (next_id db) with
    | Some new_sow =>
        if storable new_sow
        then (Return (new_sow, Created), (db ++ [new_sow])%list)
        else (Throw (Py (Unmodelled "a number SQLite does not store as given")), db)
    | None => (Throw ValidationError, db)
    end.
Proof.
  intros Hs Hne Hnew. unfold create_or_update_sow. cbv zeta.
  rewrite normalized_sow_id, Hs.
  destruct (String.eqb s "") eqn:E; [apply String.eqb_eq in E; contradiction|].
  apply first_with_sow_id_None in Hnew. rewrite Hnew. reflexivity.
Qed.

(** The results of [create_or_update_sow], by cases. *)
Lemma create_or_update_cases raw db :
  (exists e, create_or_update raw db = (Throw e, db))
  \/ (exists s old r,
        raw !! "SOW ID" = Some (JStr s) /\ s <> ""
        /\ first_with_sow_id db s = Some old
        /\ id r = id old /\ sow_id r = s /\ blank r = blank old
        /\ (forall v, raw !! "risk" = Some v -> v = JStr (risk r))
        /\ (raw !! "risk" = None -> risk r = risk old)
        /\ (forall v, raw !! "status" = Some v -> v = JStr (status r))
        /\ (raw !! "status" = None -> status r = status old)
        /\ create_or_update raw db = (Return (r, Updated), replace_row r db))
  \/ (exists s r,
        raw !! "SOW ID" = Some (JStr s) /\ s <> ""
        /\ ~ In s (map sow_id db)
        /\ id r = next_id db /\ sow_id r = s
        /\ raw !! "risk" = Some (JStr (risk r))
        /\ raw !! "status" = Some (JStr (status r))
        /\ create_or_update raw db = (Return (r, Created), (db ++ [r])%list)).
Proof.
  destruct (raw !! "SOW ID") as [v|] eqn:Hs.
  2:{ left. eexists. unfold create_or_update_sow. cbv zeta.
      rewrite normalized_sow_id, Hs. reflexivity. }
  destruct v as [| | | |s|];
    try (left; unfold create_or_update_sow; cbv zeta;
         rewrite normalized_sow_id, Hs; destruct (truthy _); eexists; reflexivity).
  destruct (String.eqb s "") eqn:E.
  { left. eexists. unfold create_or_update_sow. cbv zeta.
    rewrite normalized_sow_id, Hs, E. reflexivity. }
  assert (s <> "") as Hne by (intros ->; discriminate E).
  destruct (first_with_sow_id db s) as [old|] eqn:Hf.
  - rewrite (create_or_update_known raw db s old Hs Hne Hf).
    pose proof (first_with_sow_id_Some _ _ _ Hf) as [Hin Hsid].
    unfold assign. rewrite normalized_risk, normalized_status.
    destruct (raw !! "risk") as [[| | | |r|]|]; cbn [mbind result_bind];
      try (left; eexists; reflexivity);
      (destruct (raw !! "status") as [[| | | |t|]|]; cbn [mbind result_bind];
       try (left; eexists; reflexivity)).
    all: right; left;
      match goal with |- context [Return (?r, Updated)] => exists s, old, r end;
      repeat (split; [first [eassumption | reflexivity | idtac]|]);
      try reflexivity; try (intros ? [=]; subst; reflexivity);
      try discriminate.
  - apply first_with_sow_id_None in Hf.
    rewrite (create_or_update_new raw db s Hs Hne Hf).
    destruct (request (normalize_sow_data raw) (next_id db)) as [r|] eqn:Hr;
      [|left; eexists; reflexivity].
    destruct (storable r); [|left; eexists; reflexivity].
    apply request_fields in Hr as (Hid & Hsid & Hrisk & Hstatus).
    rewrite normalized_sow_id, Hs in Hsid. injection Hsid as Hsid.
    rewrite normalized_risk in Hrisk. rewrite normalized_status in Hstatus.
    right; right. exists s, r. subst s. auto 10.
Qed.

(** X5. [normalize_sow_data] keeps the fields whose key is a known display
    name, each under its column name and with its value, and nothing else: a
    field under any other key, the column names themselves included, is
    dropped. *)
Theorem normalize_sow_data_keeps_known_fields (raw : gmap string jvalue) :
  (forall key key',
      KEY_MAPPING !! key = Some key' ->
      normalize_sow_data raw !! key' = raw !! key)
  /\ (forall key' v,
        normalize_sow_data raw !! key' = Some v ->
        exists key, KEY_MAPPING !! key = Some key' /\ raw !! key = Some v)
  /\ (raw !! "SOW ID" = None -> normalize_sow_data raw !! "sow_id" = None).
Proof.
  split; [apply normalize_sow_data_spec|]. split.
  - unfold normalize_sow_data.
    apply (map_fold_weak_ind
             (fun r m => forall key' v,
                  r !! key' = Some v ->
                  exists key, KEY_MAPPING !! key = Some key' /\ m !! key = Some v)).
    + intros key' v H. rewrite lookup_empty in H. discriminate.
    + intros i x m r Hi IH key' v H.
      destruct (KEY_MAPPING !! i) as [i'|] eqn:Hmap.
      * destruct (decide (i' = key')) as [<-|Hne].
        -- rewrite lookup_insert_eq in H. injection H as <-.
           exists i. rewrite lookup_insert_eq. auto.
        -- rewrite lookup_insert_ne in H by done.
           destruct (IH _ _ H) as (key & Hkey & Hm). exists key. split; [exact Hkey|].
           rewrite lookup_insert_ne; [exact Hm|]. intros ->. congruence.
      * destruct (IH _ _ H) as (key & Hkey & Hm). exists key. split; [exact Hkey|].
        rewrite lookup_insert_ne; [exact Hm|]. intros ->. congruence.
  - intros H. rewrite normalized_sow_id. exact H.
Qed.

(** X6. Without a SOW ID under its display name, or with one that is empty,
    null, zero or false, [create_or_update_sow] raises ValueError and leaves
    the table as it is; a record that carries its id under the column name
    [sow_id] is such a record. *)
Theorem create_or_update_requires_sow_id (raw : gmap string jvalue) (db : list SOW) :
  (forall v, raw !! "SOW ID" = Some v -> truthy v = false) ->
  create_or_update_sow parse_int parse_float parse_date raw db
  = (Throw (Py (ValueError "sow_id is required to create or update a SOW")), db).
Proof.
  intros H. unfold create_or_update_sow. cbv zeta. rewrite normalized_sow_id.
  destruct (raw !! "SOW ID") as [v|]; [|reflexivity].
  specialize (H v eq_refl).
  destruct v; cbn [truthy] in *;
    first [ reflexivity
          | rewrite H; reflexivity
          | apply negb_false_iff in H; rewrite H; reflexivity ].
Qed.

(** X7. For a SOW id the table already holds, [create_or_update_sow] is an
    update whatever else the record holds, valid or not: it returns the row
    with the risk and the status of the record where the record has them (as
    strings) and with every other column as it was, and the table afterwards
    is the table before with that row in the place of the old one. *)
Theorem update_touches_only_risk_and_status
  (raw : gmap string jvalue) (db : list SOW) (s : string) :
  consistent db ->
  s <> "" ->
  raw !! "SOW ID" = Some (JStr s) ->
  In s (map sow_id db) ->
  text_or_absent (raw !! "risk") ->
  text_or_absent (raw !! "status") ->
  exists old row,
    In old db /\ sow_id old = s
    /\ blank row = blank old
    /\ risk row = new_text (raw !! "risk") (risk old)
    /\ status row = new_text (raw !! "status") (status old)
    /\ create_or_update_sow parse_int parse_float parse_date raw db
       = (Return (row, Updated),
          map (fun r => if String.eqb (sow_id r) s then row else r) db).
Proof.
  intros Hdb Hne Hs Hin Hrisk Hstatus.
  destruct (first_with_sow_id_In db s Hin) as [old Hold].
  pose proof (first_with_sow_id_Some _ _ _ Hold) as [Hin' Hsid].
  rewrite (create_or_update_known raw db s old Hs Hne Hold).
  rewrite (assign_text set_risk) by (rewrite normalized_risk; exact Hrisk).
  cbn [mbind result_bind].
  rewrite (assign_text set_status) by (rewrite normalized_status; exact Hstatus).
  rewrite normalized_risk, normalized_status.
  cbv beta iota.
  match goal with |- context [Return (?r, Updated)] => exists old, r end.
  repeat (split; [eassumption|]).
  rewrite (replace_row_by_sow_id _ old db Hdb Hin'), Hsid.
  - unfold text_or_absent in *.
    destruct (raw !! "risk") as [[]|], (raw !! "status") as [[]|];
      try contradiction; repeat split; reflexivity.
  - destruct (raw !! "risk") as [[]|], (raw !! "status") as [[]|]; reflexivity.
Qed.

(** X8. A record with a SOW id the table does not hold yet is validated as a
    whole: if any of the sixteen fields is missing, the risk included,
    [create_or_update_sow] raises ValidationError and stores nothing. *)
Theorem new_record_needs_every_field
  (raw : gmap string jvalue) (db : list SOW) (s key : string) :
  raw !! "SOW ID" = Some (JStr s) ->
  s <> "" ->
  ~ In s (map sow_id db) ->
  is_Some (KEY_MAPPING !! key) ->
  raw !! key = None ->
  create_or_update_sow parse_int parse_float parse_date raw db
  = (Throw ValidationError, db).
Proof.
  intros Hs Hne Hnew [key' Hkey] Hnone.
  rewrite (create_or_update_new raw db s Hs Hne Hnew).
  rewrite (request_needs_field _ _ key key' Hkey); [reflexivity|].
  rewrite (proj1 (normalize_sow_data_spec raw) key key' Hkey). exact Hnone.
Qed.

Variable invoke : list (string * pvalue) -> result llm_reply.
Variable deliver : jvalue -> jvalue -> result unit.

Abbreviation process :=
  (process_sow_record parse_int parse_float parse_date invoke deliver).

(** The alert of a row that was created: the mail, if there is to be one. *)
Lemma process_sow_record_unfold raw s :
  process raw s
  = match risk_text (raw !! "risk") with
    | Throw e => (Throw e, s)
    | Return risk_val =>
        match create_or_update (with_default_status raw risk_val) (db s) with
        | (Throw e, db') =>
            (Throw e, {| db := db'; outbox := outbox s; stdout := stdout s |})
        | (Return (row, Updated), db') =>
            (Return (row, Updated),
             {| db := db'; outbox := outbox s;
                stdout := (stdout s ++ [("SOW updated: " ++ sow_id row)%string])%list |})
        | (Return (row, Created), db') =>
            let s' := {| db := db'; outbox := outbox s; stdout := stdout s |} in
            match is_high_risk_or_status (Some (risk row)) (Some (status row)) with
            | Throw e => (Throw e, s')
            | Return false =>
                (Return (row, Created),
                 {| db := db'; outbox := outbox s;
                    stdout := (stdout s ++ [("New SOW created (not high risk): "
                                               ++ sow_id row)%string])%list |})
            | Return true =>
                match invoke (sow_json row) with
                | Throw e => (Throw e, s')
                | Return reply =>
                    match subject_and_body reply ("High Risk SOW: " ++ sow_id row) with
                    | Throw e => (Throw e, s')
                    | Return (subject, body) =>
                        match deliver subject body with
                        | Throw e => (Throw e, s')
                        | Return _ =>
                            (Return (row, Created),
                             {| db := db';
                                outbox := (outbox s ++ [(subject, body)])%list;
                                stdout := (stdout s ++ [("Email sent for HIGH RISK SOW "
                                                           ++ sow_id row)%string])%list |})
                        end
                    end
                end
            end
        end
    end.
Proof.
  unfold process_sow_record, with_default_status, pure_, on_db, send_email, print_line.
  unfold mbind, mret, Eff_bind, Eff_ret. cbv beta.
  destruct (risk_text (raw !! "risk")) as [risk_val|e]; [|reflexivity].
  destruct (create_or_update _ (db s)) as [[[row []]|e] db']; [| |reflexivity].
  - cbv zeta.
    destruct (is_high_risk_or_status _ _) as [[]|e]; [| reflexivity | reflexivity].
    destruct (invoke _) as [reply|e]; [|reflexivity].
    destruct (subject_and_body _ _) as [[subject body]|e]; [|reflexivity].
    cbn [db outbox stdout].
    destruct (deliver subject body) as [[]|e]; reflexivity.
  - reflexivity.
Qed.

(** A record that was stored, sent once more: an update that changes
    nothing. *)
Lemma process_again raw risk_val db0 row a db1 s1 :
  risk_text (raw !! "risk") = Return risk_val ->
  create_or_update (with_default_status raw risk_val) db0 = (Return (row, a), db1) ->
  db s1 = db1 ->
  process raw s1
  = (Return (row, Updated),
     {| db := db1; outbox := outbox s1;
        stdout := (stdout s1 ++ [("SOW updated: " ++ sow_id row)%string])%list |}).
Proof.
  intros Hrisk Hfirst Hdb. rewrite process_sow_record_unfold, Hrisk, Hdb.
  set (raw' := with_default_status raw risk_val) in *.
  assert (forall r, (forall v, raw' !! "risk" = Some v -> v = JStr (risk r)) ->
                    (forall v, raw' !! "status" = Some v -> v = JStr (status r)) ->
                    (r ← assign set_risk (normalize_sow_data raw') "risk" r;
                     assign set_status (normalize_sow_data raw') "status" r)
                    = Return r) as Hassign.
  { intros r Hr Ht. unfold assign. rewrite normalized_risk, normalized_status.
    destruct (raw' !! "risk") as [v|].
    - rewrite (Hr v eq_refl). cbn [mbind result_bind]. rewrite set_risk_same.
      destruct (raw' !! "status") as [w|]; [|reflexivity].
      rewrite (Ht w eq_refl), set_status_same. reflexivity.
    - cbn [mbind result_bind].
      destruct (raw' !! "status") as [w|]; [|reflexivity].
      rewrite (Ht w eq_refl), set_status_same. reflexivity. }
  destruct (create_or_update_cases raw' db0)
    as [[e He]|[(s & old & r & Hs & Hne & Hold & Hid & Hsid & _ & Hr & _ & Ht & _ & Hcu)
               |(s & r & Hs & Hne & Hnew & Hid & Hsid & Hr & Ht & Hcu)]];
    rewrite Hfirst in *; [discriminate| |].
  - injection Hcu as -> -> ->.
    rewrite (create_or_update_known raw' _ s r Hs Hne
               (first_with_sow_id_replaced _ _ _ _ Hold Hid Hsid)).
    rewrite (Hassign r Hr Ht), replace_row_twice. reflexivity.
  - injection Hcu as -> -> ->. subst s.
    rewrite (create_or_update_known raw' _ (sow_id r) r Hs Hne
               (first_with_sow_id_appended _ _ Hnew)).
    rewrite (Hassign r), (replace_row_appended _ _ Hid); [reflexivity| |].
    + intros v Hv. congruence.
    + intros v Hv. congruence.
Qed.

(** For a SOW id the table holds, neither the model nor the mail server is
    reached. *)
Lemma process_known raw s sid :
  raw !! "SOW ID" = Some (JStr sid) ->
  In sid (map sow_id (db s)) ->
  process raw s
  = match risk_text (raw !! "risk") with
    | Throw e => (Throw e, s)
    | Return risk_val =>
        match create_or_update (with_default_status raw risk_val) (db s) with
        | (Throw e, db') =>
            (Throw e, {| db := db'; outbox := outbox s; stdout := stdout s |})
        | (Return (row, _), db') =>
            (Return (row, Updated),
             {| db := db'; outbox := outbox s;
                stdout := (stdout s ++ [("SOW updated: " ++ sow_id row)%string])%list |})
        end
    end.
Proof.
  intros Hs Hin. rewrite process_sow_record_unfold.
  destruct (risk_text (raw !! "risk")) as [risk_val|e]; [|reflexivity].
  destruct (create_or_update_cases (with_default_status raw risk_val) (db s))
    as [[e He]|[(s0 & old & r & _ & _ & _ & _ & _ & _ & _ & _ & _ & _ & Hcu)
               |(s0 & r & Hs0 & _ & Hnew & _)]].
  - rewrite He. reflexivity.
  - rewrite Hcu. reflexivity.
  - rewrite with_default_status_other in Hs0 by discriminate.
    rewrite Hs in Hs0. injection Hs0 as <-. contradiction.
Qed.

(** X10. What [process_sow_record] has done when it returns a record as
    created: the row is the last of the table; its risk is the risk of the
    record; its status is the status of the record if the record has one, and
    otherwise flagged when the risk reads high (whatever the case and the
    blanks around it) and healthy when it does not; and one mail, with the
    subject and body taken from the answer of the model, has been sent if the
    risk reads high or the status reads flagged, and none otherwise. So a
    record sent as high and healthy is stored healthy and alerts. *)
Theorem created_record_alert
  (raw : gmap string jvalue) (s s' : server) (row : SOW) :
  process_sow_record parse_int parse_float parse_date invoke deliver raw s
  = (Return (row, Created), s') ->
  db s' = (db s ++ [row])%list
  /\ raw !! "risk" = Some (JStr (risk row))
  /\ match raw !! "status" with
     | Some v => v = JStr (status row)
     | None => status row = if String.eqb (lower (strip (risk row))) "high"
                            then "flagged" else "healthy"
     end
  /\ if alerting row
     then exists reply subject body,
         invoke (sow_json row) = Return reply
         /\ subject_and_body reply ("High Risk SOW: " ++ sow_id row)
            = Return (subject, body)
         /\ outbox s' = (outbox s ++ [(subject, body)])%list
     else outbox s' = outbox s.
Proof.
  intros H. rewrite process_sow_record_unfold in H.
  destruct (risk_text (raw !! "risk")) as [risk_val|e] eqn:Hrisk; [|discriminate].
  destruct (create_or_update_cases (with_default_status raw risk_val) (db s))
    as [[e He]|[(s0 & old & r & _ & _ & _ & _ & _ & _ & _ & _ & _ & _ & Hcu)
               |(s0 & r & _ & _ & _ & _ & _ & Hr & Ht & Hcu)]];
    [rewrite He in H; discriminate | rewrite Hcu in H; discriminate |].
  rewrite Hcu in H. cbv zeta in H.
  rewrite with_default_status_other in Hr by discriminate.
  rewrite with_default_status_status in Ht.
  rewrite Hr in Hrisk. apply risk_text_of_string in Hrisk. subst risk_val.
  destruct (is_high_risk_or_status _ _) as [b|e] eqn:Halert; [|discriminate].
  apply is_high_risk_or_status_Return in Halert. fold (alerting r) in Halert. subst b.
  assert (match raw !! "status" with
          | Some v => v = JStr (status r)
          | None => status r = if String.eqb (lower (strip (risk r))) "high"
                               then "flagged" else "healthy"
          end) as Hstatus.
  { destruct (raw !! "status"); injection Ht as Ht; [exact Ht|]. symmetry. exact Ht. }
  destruct (alerting r) eqn:Ha.
  - destruct (invoke (sow_json r)) as [reply|e] eqn:Hreply; [|discriminate].
    destruct (subject_and_body _ _) as [[subject body]|e] eqn:Hsb; [|discriminate].
    destruct (deliver subject body) as [[]|e]; [|discriminate].
    injection H as <- <-. cbn [db outbox]. rewrite Ha.
    repeat split; try assumption. exists reply, subject, body. auto.
  - injection H as <- <-. cbn [db outbox]. rewrite Ha. auto.
Qed.

(** X11. The row is committed before the alert is attempted. When
    [process_sow_record] fails after it has changed the table (the model or
    the mail server raised, or the answer of the model was JSON but not an
    object), the new row stays in the table and no mail has been sent; and
    sending the same record again is then a mere update: it returns the
    stored row, changes nothing and sends no mail. *)
Theorem failed_alert_is_not_repeated
  (raw : gmap string jvalue) (s s' : server) (e : app_exn) :
  process_sow_record parse_int parse_float parse_date invoke deliver raw s
  = (Throw e, s') ->
  db s' <> db s ->
  exists row,
    db s' = (db s ++ [row])%list
    /\ outbox s' = outbox s
    /\ process_sow_record parse_int parse_float parse_date invoke deliver raw s'
       = (Return (row, Updated),
          {| db := db s'; outbox := outbox s;
             stdout := (stdout s' ++ [("SOW updated: " ++ sow_id row)%string])%list |}).
Proof.
  intros H Hchanged. rewrite process_sow_record_unfold in H.
  destruct (risk_text (raw !! "risk")) as [risk_val|e0] eqn:Hrisk;
    [|injection H as <- <-; contradiction].
  destruct (create_or_update_cases (with_default_status raw risk_val) (db s))
    as [[e0 He]|[(s0 & old & r & _ & _ & _ & _ & _ & _ & _ & _ & _ & _ & Hcu)
               |(s0 & r & _ & _ & _ & _ & _ & _ & _ & Hcu)]].
  - rewrite He in H. injection H as <- <-. contradiction.
  - rewrite Hcu in H. discriminate.
  - exists r. rewrite Hcu in H. cbv zeta in H.
    assert (s' = {| db := (db s ++ [r])%list; outbox := outbox s; stdout := stdout s |})
      as ->.
    { destruct (is_high_risk_or_status _ _) as [[]|]; [| discriminate | congruence].
      destruct (invoke _); [|congruence].
      destruct (subject_and_body _ _) as [[subject body]|]; [|congruence].
      destruct (deliver subject body) as [[]|]; [discriminate|congruence]. }
    split; [reflexivity|]. split; [reflexivity|].
    exact (process_again raw risk_val (db s) r Created _
             {| db := (db s ++ [r])%list; outbox := outbox s; stdout := stdout s |}
             Hrisk Hcu eq_refl).
Qed.

(** X12. Sending a record that was accepted once more changes nothing: the
    second [process_sow_record] returns the same row as an update, leaves the
    table and the mail that was sent as they are, and only reports the update
    on the console. *)
Theorem resending_a_record_changes_nothing
  (raw : gmap string jvalue) (s s1 : server) (row : SOW) (a : action) :
  process_sow_record parse_int parse_float parse_date invoke deliver raw s
  = (Return (row, a), s1) ->
  process_sow_record parse_int parse_float parse_date invoke deliver raw s1
  = (Return (row, Updated),
     {| db := db s1; outbox := outbox s1;
        stdout := (stdout s1 ++ [("SOW updated: " ++ sow_id row)%string])%list |}).
Proof.
  intros H. rewrite process_sow_record_unfold in H.
  destruct (risk_text (raw !! "risk")) as [risk_val|e0] eqn:Hrisk; [|discriminate].
  destruct (create_or_update (with_default_status raw risk_val) (db s))
    as [[[r a']|e0] db1] eqn:Hcu; [|discriminate].
  assert (r = row /\ db s1 = db1) as [-> Hdb1].
  { destruct a'; [|injection H as <- _ <-; auto].
    cbv zeta in H.
    destruct (is_high_risk_or_status _ _) as [[]|]; [| injection H as <- _ <-; auto
                                                     | discriminate].
    destruct (invoke _); [|discriminate].
    destruct (subject_and_body _ _) as [[subject body]|]; [|discriminate].
    destruct (deliver subject body) as [[]|]; [|discriminate].
    injection H as <- _ <-. auto. }
  rewrite (process_again raw risk_val (db s) row a' db1 s1 Hrisk Hcu Hdb1).
  rewrite Hdb1. reflexivity.
Qed.

Lemma replace_row_In r old db :
  In old db -> id r = id old -> In r (replace_row r db).
Proof.
  intros Hin Hid. unfold replace_row. apply in_map_iff. exists old.
  rewrite Hid, Z.eqb_refl. auto.
Qed.

Lemma replace_row_sow_ids r old db :
  consistent db -> In old db -> id r = id old -> sow_id r = sow_id old ->
  map sow_id (replace_row r db) = map sow_id db.
Proof.
  intros Hdb Hin Hid Hsid. rewrite (replace_row_by_sow_id r old db Hdb Hin Hid).
  rewrite map_map. apply map_ext. intros x.
  destruct (String.eqb (sow_id x) (sow_id old)) eqn:E; [|reflexivity].
  apply String.eqb_eq in E. congruence.
Qed.

(** What [create_or_update_sow] makes of the table. *)
Lemma create_or_update_table raw db :
  consistent db ->
  let db' := snd (create_or_update raw db) in
  consistent db'
  /\ (map sow_id db' = map sow_id db
      \/ exists r, fst (create_or_update raw db) = Return (r, Created)
                   /\ db' = (db ++ [r])%list).
Proof.
  intros Hdb.
  destruct (create_or_update_cases raw db)
    as [[e He]|[(s & old & r & _ & _ & Hold & Hid & Hsid & _ & _ & _ & _ & _ & Hcu)
               |(s & r & _ & _ & Hnew & Hid & Hsid & _ & _ & Hcu)]].
  - rewrite He. cbn [snd]. auto.
  - rewrite Hcu. cbn [snd].
    apply first_with_sow_id_Some in Hold as [Hin Hsold].
    assert (map sow_id (replace_row r db) = map sow_id db) as Hsids
        by (apply (replace_row_sow_ids r old); congruence).
    split; [|left; exact Hsids].
    destruct Hdb as [Hids Hsows]. split.
    + rewrite replace_row_ids. exact Hids.
    + rewrite Hsids. exact Hsows.
  - rewrite Hcu. cbn [snd fst]. split; [|right; exists r; auto].
    destruct Hdb as [Hids Hsows]. split; rewrite map_app; cbn [map];
      apply NoDup_app; (split; [assumption|]); (split; [|apply NoDup_singleton]).
    + intros x Hx Hx'. apply list_elem_of_singleton in Hx'. subst x.
      apply list_elem_of_In, in_map_iff in Hx as (y & Hy & Hin).
      pose proof (next_id_above db y Hin). lia.
    + intros x Hx Hx'. apply list_elem_of_singleton in Hx'. subst x.
      apply list_elem_of_In in Hx. apply Hnew. rewrite <- Hsid. exact Hx.
Qed.

(** What [process_sow_record] makes of the table and of the mail. *)
Lemma process_sow_record_table raw s :
  consistent (db s) ->
  let s' := snd (process raw s) in
  consistent (db s')
  /\ ((map sow_id (db s') = map sow_id (db s) /\ outbox s' = outbox s
       /\ forall r a, fst (process raw s) = Return (r, a) ->
                      a = Updated /\ In (sow_id r) (map sow_id (db s')))
      \/ (exists r, db s' = (db s ++ [r])%list
                    /\ (length (outbox s') <= S (length (outbox s)))%nat
                    /\ forall r' a, fst (process raw s) = Return (r', a) ->
                                    a = Created /\ r' = r)).
Proof.
  intros Hdb. rewrite process_sow_record_unfold.
  destruct (risk_text (raw !! "risk")) as [risk_val|e]; cbn [snd fst].
  2:{ split; [exact Hdb|]. left. repeat split; discriminate. }
  pose proof (create_or_update_table (with_default_status raw risk_val) (db s) Hdb)
    as Htable.
  destruct (create_or_update_cases (with_default_status raw risk_val) (db s))
    as [[e He]|[(s0 & old & r & _ & _ & Hold & Hid & _ & _ & _ & _ & _ & _ & Hcu)
               |(s0 & r & _ & _ & _ & _ & _ & _ & _ & Hcu)]].
  - rewrite He in *. cbn [snd fst db outbox] in *. destruct Htable as [Hc _].
    split; [exact Hc|]. left. repeat split; discriminate.
  - rewrite Hcu in *. cbn [snd fst db outbox] in *.
    destruct Htable as [Hc [Hsame|(r' & Habs & _)]]; [|discriminate Habs].
    split; [exact Hc|]. left. split; [exact Hsame|]. split; [reflexivity|].
    intros r' a [= <- <-]. split; [reflexivity|].
    apply in_map. apply first_with_sow_id_Some in Hold as [Hin _].
    apply (replace_row_In r old); assumption.
  - rewrite Hcu in *. cbn [snd fst] in Htable. destruct Htable as [Hc _]. cbv zeta.
    assert (forall (x : result (SOW * action)) out lines,
               (length out <= S (length (outbox s)))%nat ->
               (forall r' a, x = Return (r', a) -> a = Created /\ r' = r) ->
               let s' := snd (x, {| db := (db s ++ [r])%list; outbox := out;
                                    stdout := lines |}) in
               consistent (db s')
               /\ ((map sow_id (db s') = map sow_id (db s) /\ outbox s' = outbox s
                    /\ forall r0 a, fst (x, s') = Return (r0, a) ->
                                    a = Updated /\ In (sow_id r0) (map sow_id (db s')))
                   \/ (exists r0, db s' = (db s ++ [r0])%list
                                  /\ (length (outbox s') <= S (length (outbox s)))%nat
                                  /\ forall r' a, fst (x, s') = Return (r', a) ->
                                                  a = Created /\ r' = r0))) as Hall.
    { intros x out lines Hout Hx. cbn [snd fst db outbox].
      split; [exact Hc|]. right. exists r. auto. }
    destruct (is_high_risk_or_status _ _) as [[]|e].
    + destruct (invoke _) as [reply|e];
        [|apply Hall; [lia|discriminate]].
      destruct (subject_and_body _ _) as [[subject body]|e];
        [|apply Hall; [lia|discriminate]].
      destruct (deliver subject body) as [[]|e];
        [|apply Hall; [lia|discriminate]].
      apply Hall; [rewrite length_app; cbn [length]; lia|].
      intros r' a [= <- <-]. auto.
    + apply Hall; [lia|]. intros r' a [= <- <-]. auto.
    + apply Hall; [lia|discriminate].
Qed.

Abbreviation loop := (upload_loop parse_int parse_float parse_date invoke deliver).

Lemma upload_loop_app l1 l2 c u ids s :
  loop (l1 ++ l2) c u ids s
  = match loop l1 c u ids s with
    | (Return (c', u', ids'), s1) => loop l2 c' u' ids' s1
    | (Throw e, s1) => (Throw e, s1)
    end.
Proof.
  revert c u ids s. induction l1 as [|raw l1 IH]; intros c u ids s.
  - reflexivity.
  - cbn [app upload_loop]. unfold mbind, Eff_bind.
    destruct (process raw s) as [[[row []]|e] s1]; [apply IH|apply IH|reflexivity].
Qed.

Lemma upload_loop_accounts sows :
  forall c u ids s,
    consistent (db s) ->
    let s' := snd (loop sows c u ids s) in
    consistent (db s')
    /\ (forall sid, In sid (map sow_id (db s)) -> In sid (map sow_id (db s')))
    /\ forall c' u' ids',
        fst (loop sows c u ids s) = Return (c', u', ids') ->
        c <= c' /\ u <= u'
        /\ (c' - c) + (u' - u) = Z.of_nat (length sows)
        /\ Z.of_nat (length (db s')) = Z.of_nat (length (db s)) + (c' - c)
        /\ Z.of_nat (length (outbox s')) <= Z.of_nat (length (outbox s)) + (c' - c)
        /\ exists new_ids,
            ids' = (ids ++ new_ids)%list
            /\ length new_ids = length sows
            /\ forall sid, In sid new_ids -> In sid (map sow_id (db s')).
Proof.
  induction sows as [|raw sows IH]; intros c u ids s Hdb.
  - cbn [upload_loop]. unfold mret, Eff_ret. cbn [snd fst length].
    split; [exact Hdb|]. split; [auto|].
    intros c' u' ids' [= <- <- <-]. repeat split; try lia.
    exists []. rewrite app_nil_r. repeat split. intros sid [].
  - cbn [upload_loop]. unfold mbind, Eff_bind.
    pose proof (process_sow_record_table raw s Hdb) as [Hc Hstep].
    destruct (process raw s) as [[[row a]|e] s1] eqn:Hp; cbn [snd fst] in *.
    2:{ split; [exact Hc|]. split; [|discriminate].
        intros sid Hsid.
        destruct Hstep as [(Hsame & _)|(r & Hr & _)].
        - rewrite Hsame. exact Hsid.
        - rewrite Hr, map_app. apply in_or_app. left. exact Hsid. }
    assert (forall c0 u0,
               (a = Created -> c0 = c + 1 /\ u0 = u) ->
               (a = Updated -> c0 = c /\ u0 = u + 1) ->
               let s' := snd (loop sows c0 u0 (ids ++ [sow_id row])%list s1) in
               consistent (db s')
               /\ (forall sid, In sid (map sow_id (db s)) -> In sid (map sow_id (db s')))
               /\ forall c' u' ids',
                   fst (loop sows c0 u0 (ids ++ [sow_id row])%list s1)
                   = Return (c', u', ids') ->
                   c <= c' /\ u <= u'
                   /\ (c' - c) + (u' - u) = Z.of_nat (length (raw :: sows))
                   /\ Z.of_nat (length (db s')) = Z.of_nat (length (db s)) + (c' - c)
                   /\ Z.of_nat (length (outbox s'))
                      <= Z.of_nat (length (outbox s)) + (c' - c)
                   /\ exists new_ids,
                       ids' = (ids ++ new_ids)%list
                       /\ length new_ids = length (raw :: sows)
                       /\ forall sid, In sid new_ids -> In sid (map sow_id (db s')))
      as Hrest.
    { intros c0 u0 Hcreated Hupdated.
      destruct (IH c0 u0 (ids ++ [sow_id row])%list s1 Hc) as (Hc' & Hkeep & Hret).
      assert (forall sid, In sid (map sow_id (db s)) -> In sid (map sow_id (db s1)))
        as Hkeep1.
      { intros sid Hsid. destruct Hstep as [(Hsame & _)|(r & Hr & _)].
        - rewrite Hsame. exact Hsid.
        - rewrite Hr, map_app. apply in_or_app. left. exact Hsid. }
      split; [exact Hc'|]. split; [auto|].
      intros c' u' ids' Hloop.
      destruct (Hret c' u' ids' Hloop) as (Hc0 & Hu0 & Hsum & Hlen & Hout & new_ids
                                            & -> & Hnew & Hin).
      assert (In (sow_id row) (map sow_id (db s1))
              /\ Z.of_nat (length (db s1)) = Z.of_nat (length (db s)) + (c0 - c)
              /\ Z.of_nat (length (outbox s1))
                 <= Z.of_nat (length (outbox s)) + (c0 - c)
              /\ c <= c0 /\ u <= u0 /\ (c0 - c) + (u0 - u) = 1)
        as (Hrow & Hlen1 & Hout1 & ? & ? & ?).
      { destruct Hstep as [(Hsame & Hsameout & Hupd)|(r & Hr & Hrout & Hcre)].
        - destruct (Hupd row a eq_refl) as [-> Hrow].
          destruct (Hupdated eq_refl) as [-> ->].
          split; [exact Hrow|].
          assert (length (db s1) = length (db s)) as ->
              by (rewrite <- (length_map sow_id (db s1)), Hsame; apply length_map).
          rewrite Hsameout. lia.
        - destruct (Hcre row a eq_refl) as [-> ->].
          destruct (Hcreated eq_refl) as [-> ->].
          rewrite Hr, map_app, length_app. cbn [length map].
          split; [apply in_or_app; right; left; reflexivity|]. lia. }
      cbn [length]. repeat split; try lia.
      exists (sow_id row :: new_ids). rewrite <- app_assoc. cbn [app length].
      repeat split; [congruence|].
      intros sid [<-|Hsid]; [apply Hkeep; exact Hrow|apply Hin; exact Hsid]. }
    destruct a; apply Hrest; intros; try discriminate; auto.
Qed.

(** X13. The account [upload_sows] gives when it returns: every record of
    the list is counted once, as created or as updated, and its SOW id is
    reported; the table has grown by the number of created records and still
    holds every reported id; at most one mail per created record has been
    sent; and the table holds no key and no SOW id twice. *)
Theorem upload_sows_accounts_for_every_record
  (sows : list (gmap string jvalue)) (s s' : server) (response : upload_response) :
  consistent (db s) ->
  upload_sows parse_int parse_float parse_date invoke deliver sows s
  = (Return response, s') ->
  total_received response = length sows
  /\ 0 <= created response /\ 0 <= updated response
  /\ created response + updated response = Z.of_nat (length sows)
  /\ length (sow_ids response) = length sows
  /\ (forall sid, In sid (sow_ids response) -> In sid (map sow_id (db s')))
  /\ Z.of_nat (length (db s')) = Z.of_nat (length (db s)) + created response
  /\ Z.of_nat (length (outbox s')) <= Z.of_nat (length (outbox s)) + created response
  /\ consistent (db s').
Proof.
  intros Hdb H. unfold upload_sows, mbind, Eff_bind, mret, Eff_ret in H.
  pose proof (upload_loop_accounts sows 0 0 [] s Hdb) as (Hc & _ & Hret).
  destruct (loop sows 0 0 [] s) as [[[[c u] ids]|e] s1]; [|discriminate].
  injection H as <- <-. cbn [snd fst] in *.
  destruct (Hret c u ids eq_refl) as (? & ? & ? & ? & ? & new_ids & -> & Hlen & Hin).
  cbn [total_received created updated sow_ids app].
  repeat split; try lia; try assumption; apply Hc.
Qed.

(** X14. [upload_sows] stops at the first record that fails and takes
    nothing back: what the records before it, and the failing record itself
    up to its failure, have stored and sent stays, and the records after it
    are not looked at. *)
Theorem upload_sows_stops_at_first_failure
  (before after : list (gmap string jvalue)) (bad : gmap string jvalue)
  (s s1 s2 : server) (response : upload_response) (e : app_exn) :
  upload_sows parse_int parse_float parse_date invoke deliver before s
  = (Return response, s1) ->
  process_sow_record parse_int parse_float parse_date invoke deliver bad s1
  = (Throw e, s2) ->
  upload_sows parse_int parse_float parse_date invoke deliver
              (before ++ bad :: after) s
  = (Throw e, s2).
Proof.
  intros Hbefore Hbad. unfold upload_sows, mbind, Eff_bind, mret, Eff_ret in *.
  rewrite upload_loop_app.
  destruct (loop before 0 0 [] s) as [[[[c u] ids]|e0] s1']; [|discriminate].
  injection Hbefore as _ <-.
  cbn [upload_loop]. unfold mbind, Eff_bind. rewrite Hbad. reflexivity.
Qed.

(** X15. Whatever is uploaded and however the upload ends, in a return or in
    an exception, the table keeps its keys and its SOW ids without
    repetition and loses no SOW id. *)
Theorem upload_sows_keeps_the_table_consistent
  (sows : list (gmap string jvalue)) (s : server) :
  consistent (db s) ->
  let s' := snd (upload_sows parse_int parse_float parse_date invoke deliver sows s) in
  consistent (db s')
  /\ forall sid, In sid (map sow_id (db s)) -> In sid (map sow_id (db s')).
Proof.
  intros Hdb. unfold upload_sows, mbind, Eff_bind, mret, Eff_ret.
  pose proof (upload_loop_accounts sows 0 0 [] s Hdb) as (Hc & Hkeep & _).
  destruct (loop sows 0 0 [] s) as [[[[c u] ids]|e] s1]; cbn [snd] in *; auto.
Qed.

(** X27. What was uploaded can be read back: after [upload_sows] has
    returned, [analyze_sows] lists one item per row of the table, in the
    order of the keys, without changing anything; their number is the number
    of rows before the upload plus the created records; and every SOW id the
    upload reported is the [sow_id] of an item. *)
Theorem analyze_lists_what_was_uploaded
  (sows : list (gmap string jvalue)) (s s' : server) (response : upload_response) :
  consistent (db s) ->
  upload_sows parse_int parse_float parse_date invoke deliver sows s
  = (Return response, s') ->
  exists items,
    analyze_sows s' = (Return (length items, items), s')
    /\ map (field "sow_id") items = map (fun r => Some (VStr (sow_id r))) (db s')
    /\ Z.of_nat (length items) = Z.of_nat (length (db s)) + created response
    /\ forall sid, In sid (sow_ids response) ->
                   exists item, In item items /\ field "sow_id" item = Some (VStr sid).
Proof.
  intros Hdb H. unfold upload_sows, mbind, Eff_bind, mret, Eff_ret in H.
  pose proof (upload_loop_accounts sows 0 0 [] s Hdb) as (_ & _ & Hret).
  destruct (loop sows 0 0 [] s) as [[[[c u] ids]|e] s1]; [|discriminate].
  injection H as <- <-. cbn [snd fst] in *.
  destruct (Hret c u ids eq_refl) as (_ & _ & _ & Hlen & _ & new_ids & -> & _ & Hin).
  exists (map analyze_item (db s1)). unfold analyze_sows.
  split; [reflexivity|]. split; [|split].
  - rewrite map_map. reflexivity.
  - rewrite length_map. cbn [created]. lia.
  - cbn [sow_ids app]. intros sid Hsid. specialize (Hin sid Hsid).
    apply in_map_iff in Hin as (r & <- & Hr).
    exists (analyze_item r). split; [apply in_map, Hr|reflexivity].
Qed.

(** X16. [generate_email] never writes to the table. For a SOW id the table
    does not hold it raises HTTPException 404 without reaching the model or
    the mail server. For one it holds: an answer of the model that is not
    JSON is mailed as it is under the subject
    "[SOW Compliance] High Risk SOW <id>"; an answer that is JSON but not an
    object raises AttributeError and nothing is mailed. *)
Theorem generate_email_fallbacks (sid : string) (s : server) :
  let out := generate_email invoke deliver sid s in
  db (snd out) = db s
  /\ (~ In sid (map sow_id (db s)) ->
      out = (Throw (HTTPException 404 "SOW no encontrado"), s))
  /\ (In sid (map sow_id (db s)) ->
      exists row,
        In row (db s) /\ sow_id row = sid
        /\ (forall content,
               invoke (sow_payload row) = Return (NotJson content) ->
               deliver (JStr ("[SOW Compliance] High Risk SOW " ++ sid)) (JStr content)
               = Return tt ->
               outbox (snd out)
               = (outbox s ++ [(JStr ("[SOW Compliance] High Risk SOW " ++ sid),
                                JStr content)])%list
               /\ exists response,
                   fst out = Return response
                   /\ email_sow_id response = sid
                   /\ email_subject response
                      = JStr ("[SOW Compliance] High Risk SOW " ++ sid))
        /\ (forall content,
               invoke (sow_payload row) = Return (JsonOther content) ->
               out = (Throw (Py AttributeError), s))).
Proof.
  cbv zeta. unfold generate_email, pure_, send_email, mbind, Eff_bind, mret, Eff_ret.
  split; [|split].
  - destruct (first_with_sow_id (db s) sid) as [row|]; [|reflexivity].
    destruct (invoke _) as [reply|]; [|reflexivity].
    destruct (subject_and_body _ _) as [[subject body]|]; [|reflexivity].
    destruct (deliver subject body) as [[]|]; reflexivity.
  - intros Hnew. apply first_with_sow_id_None in Hnew. rewrite Hnew. reflexivity.
  - intros Hin. destruct (first_with_sow_id_In _ _ Hin) as [row Hrow].
    rewrite Hrow. apply first_with_sow_id_Some in Hrow as [Hrow Hsid].
    exists row. rewrite Hsid. repeat split; try assumption.
    + rewrite H. cbn [subject_and_body]. rewrite H0. reflexivity.
    + rewrite H. cbn [subject_and_body]. rewrite H0.
      eexists. cbn [fst]. split; [reflexivity|]. cbn [email_sow_id email_subject]. auto.
    + intros content Hreply. rewrite Hreply. reflexivity.
Qed.

End ServiceProofs.

(** X9. A record whose SOW id the table already holds never alerts, however
    high its risk: [process_sow_record] reaches neither the model nor the
    mail server (its outcome is the same whatever they would do) and the
    mail that was sent stays as it is. *)
Theorem known_sow_never_alerts
  (parse_int : jvalue -> option Z) (parse_float : jvalue -> option float)
  (parse_date : jvalue -> option date)
  (invoke invoke' : list (string * pvalue) -> result llm_reply)
  (deliver deliver' : jvalue -> jvalue -> result unit)
  (raw : gmap string jvalue) (s : server) (sid : string) :
  raw !! "SOW ID" = Some (JStr sid) ->
  In sid (map sow_id (db s)) ->
  process_sow_record parse_int parse_float parse_date invoke' deliver' raw s
  = process_sow_record parse_int parse_float parse_date invoke deliver raw s
  /\ outbox (snd (process_sow_record parse_int parse_float parse_date
                                      invoke deliver raw s))
     = outbox s.
Proof.
  intros Hs Hin.
  rewrite (process_known parse_int parse_float parse_date invoke' deliver' raw s sid Hs Hin).
  rewrite (process_known parse_int parse_float parse_date invoke deliver raw s sid Hs Hin).
  split; [reflexivity|].
  destruct (risk_text (raw !! "risk")) as [risk_val|e]; [|reflexivity].
  destruct (create_or_update_sow _ _ _ _ _) as [[[row a]|e] db']; reflexivity.
Qed.

Lemma uploaded_consistent : consistent (db uploaded).
Proof. split; apply (bool_decide_unpack _); vm_compute; reflexivity. Qed.

Lemma create_or_update_requires_sow_id_witness :
  create_or_update_sow json_int json_float json_date keyed_by_column_name (db uploaded)
  = (Throw (Py (ValueError "sow_id is required to create or update a SOW")),
     db uploaded).
Proof.
  apply create_or_update_requires_sow_id.
  intros v H. vm_compute in H. discriminate H.
Defined.

Lemma update_touches_only_risk_and_status_witness :
  exists old row,
    In old (db uploaded) /\ sow_id old = "SOW-2024-0023"
    /\ blank row = blank old /\ risk row = "high" /\ status row = status old
    /\ fst (create_or_update_sow json_int json_float json_date escalation_23 (db uploaded))
       = Return (row, Updated).
Proof.
  destruct (update_touches_only_risk_and_status json_int json_float json_date
              escalation_23 (db uploaded) "SOW-2024-0023")
    as (old & row & Hin & Hsid & Hblank & Hrisk & Hstatus & Hcu).
  - exact uploaded_consistent.
  - discriminate.
  - vm_compute. reflexivity.
  - vm_compute. right. left. reflexivity.
  - vm_compute. exact I.
  - vm_compute. exact I.
  - exists old, row. rewrite Hcu.
    vm_compute in Hrisk. vm_compute in Hstatus.
    split; [exact Hin|]. split; [exact Hsid|]. split; [exact Hblank|].
    split; [exact Hrisk|]. split; [exact Hstatus|]. reflexivity.
Defined.

Lemma new_record_needs_every_field_witness :
  create_or_update_sow json_int json_float json_date record_without_risk []
  = (Throw ValidationError, []).
Proof.
  apply (new_record_needs_every_field json_int json_float json_date
           record_without_risk [] "SOW-2024-0022" "risk").
  - vm_compute. reflexivity.
  - discriminate.
  - intros [].
  - vm_compute. eexists. reflexivity.
  - vm_compute. reflexivity.
Defined.

Lemma known_sow_never_alerts_witness :
  process_sow_record json_int json_float json_date model_down server_refuses
                     record_22 uploaded
  = process_sow_record json_int json_float json_date model_answers server_accepts
                       record_22 uploaded
  /\ outbox (snd (process_sow_record json_int json_float json_date
                                      model_answers server_accepts record_22 uploaded))
     = outbox uploaded.
Proof.
  apply (known_sow_never_alerts _ _ _ _ _ _ _ record_22 uploaded "SOW-2024-0022").
  - vm_compute. reflexivity.
  - vm_compute. left. reflexivity.
Defined.

Lemma created_record_alert_witness :
  exists row s',
    process_sow_record json_int json_float json_date model_answers server_accepts
                       record_24 empty_server
    = (Return (row, Created), s')
    /\ db s' = [row] /\ risk row = "high" /\ status row = "healthy"
    /\ outbox s' = [(JStr "Alert", JStr "Dear owner")].
Proof.
  eexists _, _.
  assert (process_sow_record json_int json_float json_date model_answers server_accepts
                             record_24 empty_server = (Return (_, Created), _)) as H
      by (vm_compute; reflexivity).
  split; [exact H|].
  destruct (created_record_alert _ _ _ _ _ _ _ _ _ H) as (Hdb & _).
  split; [exact Hdb|]. repeat split.
Defined.

Lemma failed_alert_is_not_repeated_witness :
  exists row s',
    process_sow_record json_int json_float json_date model_down server_accepts
                       record_22 empty_server
    = (Throw (ExternalError "connection refused"), s')
    /\ db s' = [row] /\ outbox s' = []
    /\ fst (process_sow_record json_int json_float json_date model_down server_accepts
                               record_22 s')
       = Return (row, Updated).
Proof.
  assert (exists s', process_sow_record json_int json_float json_date model_down
                       server_accepts record_22 empty_server
                     = (Throw (ExternalError "connection refused"), s')
                     /\ db s' <> db empty_server) as (s' & H & Hchanged).
  { eexists. split; [vm_compute; reflexivity|]. vm_compute. discriminate. }
  destruct (failed_alert_is_not_repeated _ _ _ _ _ _ _ _ _ H Hchanged)
    as (row & Hdb & Hout & Hagain).
  exists row, s'. rewrite Hagain. repeat split; assumption.
Defined.

Lemma resending_a_record_changes_nothing_witness :
  exists row s1,
    process_sow_record json_int json_float json_date model_answers server_accepts
                       record_22 empty_server
    = (Return (row, Created), s1)
    /\ let out := process_sow_record json_int json_float json_date model_answers
                                     server_accepts record_22 s1 in
       fst out = Return (row, Updated)
       /\ db (snd out) = db s1 /\ outbox (snd out) = outbox s1.
Proof.
  eexists _, _.
  assert (process_sow_record json_int json_float json_date model_answers server_accepts
                             record_22 empty_server = (Return (_, Created), _)) as H
      by (vm_compute; reflexivity).
  split; [exact H|]. cbv zeta.
  rewrite (resending_a_record_changes_nothing _ _ _ _ _ _ _ _ _ _ H).
  repeat split.
Defined.

Lemma upload_sows_accounts_witness :
  exists response s',
    upload_sows json_int json_float json_date model_answers server_accepts
                dataset empty_server
    = (Return response, s')
    /\ created response + updated response = 3
    /\ Z.of_nat (length (db s')) = created response.
Proof.
  eexists _, _.
  assert (upload_sows json_int json_float json_date model_answers server_accepts
                      dataset empty_server = (Return _, _)) as H
      by (vm_compute; reflexivity).
  split; [exact H|].
  destruct (upload_sows_accounts_for_every_record _ _ _ _ _ _ _ _ _
              (conj (NoDup_nil_2 : NoDup (map id (db empty_server)))
                    (NoDup_nil_2 : NoDup (map sow_id (db empty_server)))) H)
    as (_ & _ & _ & Hsum & _ & _ & Hlen & _).
  split; [exact Hsum|exact Hlen].
Defined.

Lemma upload_sows_stops_witness :
  exists s2,
    upload_sows json_int json_float json_date model_down server_accepts
                ([record_23] ++ record_22 :: [record_24]) empty_server
    = (Throw (ExternalError "connection refused"), s2)
    /\ map sow_id (db s2) = ["SOW-2024-0023"; "SOW-2024-0022"].
Proof.
  assert (exists r1 s1 s2,
             upload_sows json_int json_float json_date model_down server_accepts
                         [record_23] empty_server = (Return r1, s1)
             /\ process_sow_record json_int json_float json_date model_down
                                   server_accepts record_22 s1
                = (Throw (ExternalError "connection refused"), s2)
             /\ map sow_id (db s2) = ["SOW-2024-0023"; "SOW-2024-0022"])
    as (r1 & s1 & s2 & H1 & H2 & Hids).
  { eexists _, _, _. split; [vm_compute; reflexivity|].
    split; vm_compute; reflexivity. }
  exists s2. split; [|exact Hids].
  exact (upload_sows_stops_at_first_failure _ _ _ _ _ _ _ _ _ _ _ _ _ H1 H2).
Defined.

Lemma upload_sows_keeps_the_table_consistent_witness :
  consistent (db uploaded).
Proof.
  exact (proj1 (upload_sows_keeps_the_table_consistent
                  json_int json_float json_date model_answers server_accepts
                  dataset empty_server
                  (conj (NoDup_nil_2 : NoDup (map id (db empty_server)))
                        (NoDup_nil_2 : NoDup (map sow_id (db empty_server)))))).
Defined.

Lemma analyze_lists_what_was_uploaded_witness :
  exists items,
    analyze_sows uploaded = (Return (length items, items), uploaded)
    /\ map (field "sow_id") items
       = [Some (VStr "SOW-2024-0022"); Some (VStr "SOW-2024-0023");
          Some (VStr "SOW-2024-0024")].
Proof.
  assert (exists response,
             upload_sows json_int json_float json_date model_answers server_accepts
                         dataset empty_server = (Return response, uploaded))
    as [response H].
  { eexists. unfold uploaded. vm_compute. reflexivity. }
  destruct (analyze_lists_what_was_uploaded
              json_int json_float json_date model_answers server_accepts
              dataset empty_server uploaded response
              (conj (NoDup_nil_2 : NoDup (map id (db empty_server)))
                    (NoDup_nil_2 : NoDup (map sow_id (db empty_server)))) H)
    as (items & Hitems & Hids & _).
  exists items. rewrite Hids. split; [exact Hitems|]. vm_compute. reflexivity.
Defined.

(** * The check of the gold cases *)

Lemma alert_agrees_checked : alert_agrees_upto checked_cases = true.
Proof. vm_compute. reflexivity. Qed.

Lemma alert_agrees_upto_spec (N n k : nat) :
  alert_agrees_upto N = true -> (1 <= n <= N)%nat -> (k <= n)%nat ->
  alert_agrees n k = true.
Proof.
  unfold alert_agrees_upto. intros H Hn Hk. rewrite forallb_forall in H.
  specialize (H n ltac:(apply in_seq; lia)). rewrite forallb_forall in H.
  apply H, in_seq. lia.
Qed.

Lemma right_marks_le (marks : list bool) : (right_marks marks <= length marks)%nat.
Proof. unfold right_marks. apply length_filter. Qed.

(** Up to [checked_cases] marks, the alert is raised exactly when fewer than
    three quarters of them are right. *)
Lemma alert_is_three_quarters (marks : list bool) :
  (0 < length marks <= checked_cases)%nat ->
  (percent_true marks <? 75)%float
  = (4 * Z.of_nat (right_marks marks) <? 3 * Z.of_nat (length marks)).
Proof.
  intros [Hpos Hle]. pose proof (right_marks_le marks) as Hright.
  pose proof (alert_agrees_upto_spec checked_cases (length marks) (right_marks marks)
                alert_agrees_checked ltac:(lia) Hright) as H.
  unfold alert_agrees in H. apply Bool.eqb_prop in H. exact H.
Qed.

Lemma select_all_false {A} (mask : list bool) (l : list A) :
  forallb negb mask = true -> select mask l = [].
Proof.
  revert l. induction mask as [|b mask IH]; intros l H; [reflexivity|].
  destruct l as [|x l]; [reflexivity|]. cbn [forallb] in H.
  apply andb_true_iff in H as [Hb H]. destruct b; [discriminate|].
  cbn [select]. apply IH, H.
Qed.

Lemma select_map {A B} (f : A -> B) (mask : list bool) (l : list A) :
  select mask (map f l) = map f (select mask l).
Proof.
  revert l. induction mask as [|b mask IH]; intros [|x l]; try reflexivity.
  cbn [select map]. destruct b; cbn [map]; rewrite IH; reflexivity.
Qed.

Lemma float_cells_select (mask : list bool) (c : column) (xs : list R) :
  float_cells c = Ok xs -> float_cells (select_column mask c) = Ok (select mask xs).
Proof.
  destruct c; cbn [float_cells select_column]; intros [= <-].
  - rewrite select_map. reflexivity.
  - reflexivity.
Qed.

Lemma getitem_select_rows (mask : list bool) (d : DataFrame) (col : string) (c : column) :
  getitem d col = Ok c -> getitem (select_rows mask d) col = Ok (select_column mask c).
Proof.
  unfold getitem, select_rows. rewrite lookup_fmap.
  destruct (d !! col); intros [= <-]. reflexivity.
Qed.

(** The feature matrix of the selected rows is the selection of the rows of
    the feature matrix. *)
Lemma feature_matrix_select (mask : list bool) (d : DataFrame) (cols : list string) :
  forall raw,
    feature_matrix d cols = Ok raw ->
    exists cs,
      traverse (getitem (select_rows mask d)) cols = Ok cs
      /\ traverse float_cells cs = Ok (map (select mask) raw).
Proof.
  unfold feature_matrix. induction cols as [|col cols IH]; intros raw H.
  - injection H as <-. exists []. auto.
  - cbn [traverse] in H. unfold_M.
    destruct (getitem d col) as [c|] eqn:Hc; [|discriminate].
    destruct (float_cells c) as [xs|] eqn:Hxs; [|discriminate].
    destruct (traverse _ cols) as [raw'|] eqn:Hrest; [|discriminate].
    injection H as <-. destruct (IH raw' eq_refl) as (cs & Hcs & Hfl).
    exists (select_column mask c :: cs). cbn [traverse map].
    rewrite (getitem_select_rows mask d col c Hc), Hcs.
    rewrite (float_cells_select mask c xs Hxs), Hfl. auto.
Qed.

(** Conversely, the feature columns of the selected rows come from the
    feature matrix of the whole frame. *)
Lemma feature_matrix_of_selected (mask : list bool) (d : DataFrame) (cols : list string) :
  forall cs cells,
    traverse (getitem (select_rows mask d)) cols = Ok cs ->
    traverse float_cells cs = Ok cells ->
    exists raw,
      feature_matrix d cols = Ok raw /\ cells = map (select mask) raw.
Proof.
  unfold feature_matrix. induction cols as [|col cols IH]; intros cs cells Hcs Hcells.
  - injection Hcs as <-. injection Hcells as <-. exists []. auto.
  - cbn [traverse] in Hcs |- *. unfold_M.
    destruct (getitem (select_rows mask d) col) as [c'|] eqn:Hc'; [|discriminate].
    destruct (traverse _ cols) as [cs'|] eqn:Hrest; [|discriminate].
    injection Hcs as <-. cbn [traverse] in Hcells.
    destruct (float_cells c') as [xs'|] eqn:Hxs'; [|discriminate].
    destruct (traverse float_cells cs') as [cells'|] eqn:Hcells'; [|discriminate].
    injection Hcells as <-.
    destruct (IH cs' cells' eq_refl Hcells') as (raw & Hraw & ->).
    rewrite Hraw.
    unfold getitem, select_rows in Hc'. rewrite lookup_fmap in Hc'.
    unfold getitem. destruct (d !! col) as [c|]; [|discriminate].
    cbn [fmap option_fmap option_map] in Hc'. injection Hc' as <-.
    destruct c as [xs|xs|xs]; cbn [select_column float_cells] in Hxs' |- *;
      [| |discriminate]; injection Hxs' as <-.
    + exists (map IZR xs :: raw). split; [reflexivity|].
      cbn [map]. rewrite select_map. reflexivity.
    + exists (xs :: raw). auto.
Qed.

(** The columns [engineer_features] does not write are those of the frame it
    was given. *)
Lemma engineered_keeps (d : DataFrame) (days workers : list Z) (budget : list R)
  (cells classes : string -> list string) (col : string) :
  col ∈ ["SOW ID"; "SOW title"; "# Days before expiration"; "Active SOW workers";
         "Criticality"] ->
  with_encoded cells classes categorical_cols (numeric_frame d days workers budget)
  !! col = d !! col.
Proof.
  intros Hcol. unfold with_encoded, categorical_cols, numeric_frame.
  cbn [foldl String.append].
  repeat (apply elem_of_cons in Hcol as [->|Hcol];
          [rewrite !lookup_insert_ne by done; reflexivity|]).
  apply elem_of_nil in Hcol. contradiction.
Qed.

(** [validate_critical_cases] on a frame that has gold cases, the feature
    columns and the columns of the table it prints. *)
Lemma validate_critical_cases_checked
  (sk_predict : Estimator -> list (string * list R) -> outcome (list string))
  (classifier : CriticalityClassifier) (est : Estimator) (d : DataFrame)
  (ids labels : list string) (raw : list (list R)) :
  d !! "SOW ID" = Some (StrCol ids) ->
  forallb negb (gold_mask ids) = false ->
  feature_matrix d get_feature_columns = Ok raw ->
  model classifier = Some est ->
  is_Some (d !! "SOW title") ->
  is_Some (d !! "# Days before expiration") ->
  is_Some (d !! "Active SOW workers") ->
  d !! "Criticality" = Some (StrCol labels) ->
  validate_critical_cases sk_predict classifier d
  = validation_of labels (gold_mask ids)
      (sk_predict est (zip get_feature_columns (map (select (gold_mask ids)) raw))).
Proof.
  intros Hids Hgold Hraw Hmodel [c1 H1] [c2 H2] [c3 H3] Hlabels.
  assert (getitem d "SOW ID" = Ok (StrCol ids)) as Hg
      by (unfold getitem; rewrite Hids; reflexivity).
  unfold validate_critical_cases. unfold_M. rewrite Hg.
  cbn [str_contains]. fold (gold_mask ids). rewrite Hgold.
  destruct (feature_matrix_select (gold_mask ids) d _ raw Hraw) as (cs & Hcs & Hfl).
  rewrite Hcs, Hmodel, Hfl.
  destruct (sk_predict est _) as [predictions|e]; [|reflexivity].
  unfold results_columns. cbn [traverse validation_of].
  rewrite (getitem_select_rows _ d "SOW ID" (StrCol ids))
    by (unfold getitem; rewrite Hids; reflexivity).
  rewrite (getitem_select_rows _ d "SOW title" c1)
    by (unfold getitem; rewrite H1; reflexivity).
  rewrite (getitem_select_rows _ d "# Days before expiration" c2)
    by (unfold getitem; rewrite H2; reflexivity).
  rewrite (getitem_select_rows _ d "Active SOW workers" c3)
    by (unfold getitem; rewrite H3; reflexivity).
  rewrite (getitem_select_rows _ d "Criticality" (StrCol labels))
    by (unfold getitem; rewrite Hlabels; reflexivity).
  fold (right_marks (gold_mask ids)).
  destruct (negb _); reflexivity.
Qed.

(** X17. Without a gold case (no SOW id contains CRIT)
    [validate_critical_cases] reports that there is nothing to check and
    never consults the classifier: it does so on a classifier that was never
    trained and on a frame without feature columns as well. *)
Theorem validate_without_gold_cases
  (sk_predict : Estimator -> list (string * list R) -> outcome (list string))
  (classifier : CriticalityClassifier) (d : DataFrame) (ids : list string) :
  d !! "SOW ID" = Some (StrCol ids) ->
  Forall (fun sow_id => contains "CRIT" sow_id = false) ids ->
  validate_critical_cases sk_predict classifier d = Ok NoCriticalCases.
Proof.
  intros Hids Hnone.
  assert (getitem d "SOW ID" = Ok (StrCol ids)) as Hg
      by (unfold getitem; rewrite Hids; reflexivity).
  unfold validate_critical_cases. unfold_M. rewrite Hg.
  cbn [str_contains].
  assert (forallb negb (map (contains "CRIT") ids) = true) as ->; [|reflexivity].
  clear Hids Hg. induction Hnone as [|sow_id ids H _ IH]; [reflexivity|].
  cbn [map forallb]. rewrite H, IH. reflexivity.
Qed.

(** X18. A classifier that was never trained cannot predict: [predict] and
    [predict_proba] raise AttributeError whatever the matrix, and
    [validate_critical_cases] raises it as soon as the frame has a gold case
    (and the feature columns). *)
Theorem untrained_classifier_cannot_predict
  (sk_predict : Estimator -> list (string * list R) -> outcome (list string))
  (sk_predict_proba : Estimator -> list (string * list R) -> outcome (list (list Q)))
  (classifier : CriticalityClassifier) :
  model classifier = None ->
  (forall X, predict sk_predict classifier X = Raise AttributeError)
  /\ (forall X, predict_proba sk_predict_proba classifier X = Raise AttributeError)
  /\ (forall d ids raw,
        d !! "SOW ID" = Some (StrCol ids) ->
        Exists (fun sow_id => contains "CRIT" sow_id = true) ids ->
        feature_matrix d get_feature_columns = Ok raw ->
        validate_critical_cases sk_predict classifier d = Raise AttributeError).
Proof.
  intros Hmodel. unfold predict, predict_proba. rewrite Hmodel.
  split; [reflexivity|]. split; [reflexivity|].
  intros d ids raw Hids Hgold Hraw.
  assert (getitem d "SOW ID" = Ok (StrCol ids)) as Hg
      by (unfold getitem; rewrite Hids; reflexivity).
  unfold validate_critical_cases. unfold_M. rewrite Hg.
  cbn [str_contains].
  assert (forallb negb (map (contains "CRIT") ids) = false) as ->.
  { clear Hids Hg. induction Hgold as [sow_id ids H|sow_id ids _ IH]; cbn [map forallb].
    - rewrite H. reflexivity.
    - rewrite IH. apply andb_false_r. }
  destruct (feature_matrix_select (map (contains "CRIT") ids) d _ raw Hraw)
    as (cs & Hcs & _).
  rewrite Hcs, Hmodel. reflexivity.
Qed.

(** X19. When [validate_critical_cases] has checked gold cases, the frame
    has a column of SOW ids and a column of labels and the classifier has an
    estimator; the predictions are the answer of that estimator to the rows
    of the gold cases of the feature matrix of the frame, one for each gold
    case; there is a mark for the comparison of label and prediction of each
    gold case, in the order of the rows; the accuracy is the percentage of
    right marks, and (for up to [checked_cases] cases) the alert is printed
    exactly when fewer than three quarters of the marks are right: three
    right out of four do not alert. *)
Theorem validate_alert_threshold
  (sk_predict : Estimator -> list (string * list R) -> outcome (list string))
  (classifier : CriticalityClassifier) (d : DataFrame)
  (marks : list bool) (accuracy : float) (alert : bool) :
  validate_critical_cases sk_predict classifier d = Ok (Checked marks accuracy alert) ->
  (exists ids labels est raw predictions,
      d !! "SOW ID" = Some (StrCol ids)
      /\ d !! "Criticality" = Some (StrCol labels)
      /\ model classifier = Some est
      /\ feature_matrix d get_feature_columns = Ok raw
      /\ sk_predict est (zip get_feature_columns (map (select (gold_mask ids)) raw))
         = Ok predictions
      /\ length predictions = right_marks (gold_mask ids)
      /\ marks = zip_with String.eqb (select (gold_mask ids) labels) predictions)
  /\ accuracy = percent_true marks
  /\ ((0 < length marks <= checked_cases)%nat ->
      alert = (4 * Z.of_nat (right_marks marks) <? 3 * Z.of_nat (length marks))).
Proof.
  intros H. unfold validate_critical_cases in H. unfold_M.
  destruct (getitem d "SOW ID") as [[| |ids]|] eqn:Hids; try discriminate H.
  unfold getitem in Hids.
  destruct (d !! "SOW ID") as [c|]; [injection Hids as ->|discriminate Hids].
  cbn [str_contains] in H. fold (gold_mask ids) in H.
  destruct (forallb negb (gold_mask ids)); [discriminate H|].
  destruct (traverse _ get_feature_columns) as [cs|] eqn:Hcs; [|discriminate H].
  destruct (model classifier) as [est|]; [|discriminate H].
  destruct (traverse float_cells cs) as [cells|] eqn:Hcells; [|discriminate H].
  destruct (feature_matrix_of_selected _ _ _ _ _ Hcs Hcells) as (raw & Hraw & ->).
  destruct (sk_predict est _) as [predictions|] eqn:Hanswer; [|discriminate H].
  destruct (traverse _ results_columns) as [results|]; [|discriminate H].
  destruct (getitem _ "Criticality") as [criticality|] eqn:Hcrit; [|discriminate H].
  fold (right_marks (gold_mask ids)) in H.
  destruct (Nat.eqb (length predictions) (right_marks (gold_mask ids))) eqn:Hlen;
    [|discriminate H].
  cbn [negb] in H.
  destruct criticality as [| |selected]; try discriminate H.
  cbn [label_cells] in H. injection H as <- <- <-.
  unfold getitem, select_rows in Hcrit. rewrite lookup_fmap in Hcrit.
  destruct (d !! "Criticality") as [[| |labels]|]; try discriminate Hcrit.
  cbn [fmap option_fmap option_map select_column] in Hcrit. injection Hcrit as <-.
  split; [|split; [reflexivity|]].
  - exists ids, labels, est, raw, predictions. apply Nat.eqb_eq in Hlen.
    repeat split; assumption || reflexivity.
  - intros Hmarks. apply alert_is_three_quarters, Hmarks.
Qed.

(** [prepare_for_training] on a frame with the raw columns and at least one
    row, by an engineer without encoders: its value and the world it
    leaves. *)
Lemma prepare_for_training_result
  (w : world) (df : nat) (d : DataFrame) (days workers : list Z)
  (budget : list R) (cells : string -> list string) :
  frames w !! df = Some d ->
  numeric_columns d days workers budget ->
  categorical_columns d cells ->
  (forall col, col ∈ categorical_cols -> label_encoders (self w) !! col = None) ->
  days <> [] ->
  let raw := raw_matrix days workers budget cells (fun col => np_unique (cells col)) in
  let crit := criticality_column days workers in
  let labelled := <[df := <["Criticality" := crit]> d]> (frames w) in
  let processed :=
    with_encoded cells (fun col => np_unique (cells col)) categorical_cols
      (numeric_frame (<["Criticality" := crit]> d) days workers budget) in
  exists st : ScalerStats,
    StandardScaler_fit raw = Ok st
    /\ prepare_for_training df w
       = (Ok (zip get_feature_columns (StandardScaler_transform st raw), crit,
              fresh (dom labelled)),
          {| frames := <[fresh (dom labelled) := processed]> labelled;
             self := {| label_encoders :=
                          with_fitted cells categorical_cols (label_encoders (self w));
                        scaler := Some st |} |}).
Proof.
  intros Hd Hnum Hcat Hnone Hrows raw crit labelled processed.
  pose proof (create_criticality_label_mutates w df d days workers Hd
                (col_days _ _ _ _ Hnum) (col_workers _ _ _ _ Hnum)) as Hlabel.
  fold crit in Hlabel. fold labelled in Hlabel.
  match type of Hlabel with _ = (_, ?x) => set (w0 := x) in * end.
  assert (Hd0 : frames w0 !! df = Some (<["Criticality" := crit]> d))
    by (unfold w0, labelled; cbn [frames]; apply lookup_insert_eq).
  pose proof (engineer_features_fit_mode w0 df _ days workers budget cells Hd0
                (numeric_columns_labelled _ crit _ _ _ Hnum)
                (categorical_columns_labelled _ crit _ Hcat) Hnone) as Heng.
  fold processed in Heng.
  assert (Hfit : exists st, StandardScaler_fit raw = Ok st).
  { unfold StandardScaler_fit, raw, raw_matrix, n_rows.
    rewrite length_map. destruct days; [contradiction|]. simpl. eauto. }
  destruct Hfit as [st Hst]. exists st. split; [exact Hst|].
  unfold prepare_for_training. unfold_M. rewrite Hlabel, Heng.
  unfold deref, on_self, scaler_fit_transform. unfold_M.
  cbn [frames]. rewrite lookup_insert_eq.
  unfold processed. rewrite feature_matrix_engineered, criticality_survives.
  fold raw. rewrite Hst. reflexivity.
Qed.

(** X20. The script prepares the data and then checks the gold cases on the
    annotated frame. The matrix [prepare_for_training] returns for training
    is scaled; the rows [validate_critical_cases] hands to the estimator are
    the rows of the gold cases of the matrix before scaling: the scaler is
    not applied to them. The marks compare the answers with the labels of
    those rows, in the order of the rows. *)
Theorem gold_cases_are_checked_on_unscaled_features
  (sk_predict : Estimator -> list (string * list R) -> outcome (list string))
  (w : world) (df : nat) (d : DataFrame) (days workers : list Z)
  (budget : list R) (cells : string -> list string) (ids : list string)
  (classifier : CriticalityClassifier) (est : Estimator) :
  frames w !! df = Some d ->
  numeric_columns d days workers budget ->
  categorical_columns d cells ->
  (forall col, col ∈ categorical_cols -> label_encoders (self w) !! col = None) ->
  days <> [] ->
  d !! "SOW ID" = Some (StrCol ids) ->
  is_Some (d !! "SOW title") ->
  Exists (fun sow_id => contains "CRIT" sow_id = true) ids ->
  model classifier = Some est ->
  let raw := raw_matrix days workers budget cells (fun col => np_unique (cells col)) in
  exists (st : ScalerStats) (r : nat) (w' : world) (processed : DataFrame),
    prepare_for_training df w
    = (Ok (zip get_feature_columns (StandardScaler_transform st raw),
           criticality_column days workers, r), w')
    /\ frames w' !! r = Some processed
    /\ validate_critical_cases sk_predict classifier processed
       = validation_of (map label_name (zip_with classify days workers))
           (gold_mask ids)
           (sk_predict est (zip get_feature_columns
                                (map (select (gold_mask ids)) raw))).
Proof.
  intros Hd Hnum Hcat Hnone Hrows Hids Htitle Hgold Hmodel raw.
  destruct (prepare_for_training_result w df d days workers budget cells
              Hd Hnum Hcat Hnone Hrows) as (st & _ & Hprep).
  set (crit := criticality_column days workers) in *.
  set (processed := with_encoded cells (fun col => np_unique (cells col))
                      categorical_cols
                      (numeric_frame (<["Criticality" := crit]> d) days workers budget))
    in *.
  eexists st, _, _, processed.
  split; [exact Hprep|]. split.
  - cbn [frames]. apply lookup_insert_eq.
  - assert (forall col,
               col ∈ ["SOW ID"; "SOW title"; "# Days before expiration";
                      "Active SOW workers"; "Criticality"] ->
               processed !! col = (<["Criticality" := crit]> d) !! col) as Hkeep
        by (intros col Hcol; apply engineered_keeps, Hcol).
    apply (validate_critical_cases_checked sk_predict classifier est processed ids _ raw).
    + rewrite (Hkeep "SOW ID") by (repeat constructor).
      rewrite lookup_insert_ne by done. exact Hids.
    + clear -Hgold. unfold gold_mask.
      induction Hgold as [sow_id ids H|sow_id ids _ IH]; cbn [map forallb].
      * rewrite H. reflexivity.
      * rewrite IH. apply andb_false_r.
    + apply feature_matrix_engineered.
    + exact Hmodel.
    + rewrite (Hkeep "SOW title") by (repeat constructor).
      rewrite lookup_insert_ne by done. exact Htitle.
    + rewrite (Hkeep "# Days before expiration") by (repeat constructor).
      rewrite lookup_insert_ne by done.
      destruct (col_days _ _ _ _ Hnum) as (c & -> & _). eauto.
    + rewrite (Hkeep "Active SOW workers") by (repeat constructor).
      rewrite lookup_insert_ne by done.
      destruct (col_workers _ _ _ _ Hnum) as (c & -> & _). eauto.
    + rewrite (Hkeep "Criticality") by (repeat constructor).
      apply lookup_insert_eq.
Qed.


Lemma gold_frame_numeric :
  numeric_columns gold_frame [28; 100] [25; 0] (map IZR [1500000; 20000]).
Proof.
  split; try (eexists; split; vm_compute; reflexivity).
  repeat constructor; lia.
Defined.

Lemma gold_frame_categorical : categorical_columns gold_frame (cells_of gold_frame).
Proof.
  apply cells_of_columns. intros col Hcol.
  each_categorical Hcol; eexists; eexists; split; vm_compute; reflexivity.
Defined.

Lemma validate_without_gold_cases_witness :
  validate_critical_cases (always "BAJO") (CriticalityClassifier_init "random_forest")
                          plain_frame
  = Ok NoCriticalCases.
Proof.
  apply (validate_without_gold_cases _ _ _ ["SOW-2024-0007"]).
  - vm_compute. reflexivity.
  - repeat constructor.
Defined.

Lemma untrained_classifier_cannot_predict_witness :
  predict (always "BAJO") (CriticalityClassifier_init "random_forest") []
  = Raise AttributeError.
Proof.
  apply (untrained_classifier_cannot_predict
           (always "BAJO") (fun _ _ => Ok []) (CriticalityClassifier_init "random_forest")).
  reflexivity.
Defined.

Lemma gold_cases_are_checked_witness :
  exists (st : ScalerStats) (r : nat) (w' : world) (processed : DataFrame),
    fst (prepare_for_training 0%nat gold_world)
    = Ok (zip get_feature_columns
            (StandardScaler_transform st
               (raw_matrix [28; 100] [25; 0] (map IZR [1500000; 20000])
                  (cells_of gold_frame)
                  (fun col => np_unique (cells_of gold_frame col)))),
          criticality_column [28; 100] [25; 0], r)
    /\ frames w' !! r = Some processed
    /\ validate_critical_cases (always "BAJO") trained_sample processed
       = Ok (Checked [false] 0 true).
Proof.
  destruct (gold_cases_are_checked_on_unscaled_features
              (always "BAJO") gold_world 0%nat gold_frame [28; 100] [25; 0]
              (map IZR [1500000; 20000]) (cells_of gold_frame)
              ["SOW-2024-CRIT-001"; "SOW-2024-0007"] trained_sample sample_estimator)
    as (st & r & w' & processed & Hprep & Hframe & Hcheck).
  - reflexivity.
  - exact gold_frame_numeric.
  - exact gold_frame_categorical.
  - intros col _. apply lookup_empty.
  - discriminate.
  - reflexivity.
  - eexists. reflexivity.
  - left. reflexivity.
  - reflexivity.
  - exists st, r, w', processed. rewrite Hprep, Hcheck.
    split; [reflexivity|]. split; [exact Hframe|]. reflexivity.
Defined.

Lemma validate_alert_threshold_witness :
  validate_critical_cases (always "CRÍTICO") trained_sample gold_processed
  = Ok (Checked [true] 100 false)
  /\ false = (4 * Z.of_nat (right_marks [true]) <? 3 * Z.of_nat (length [true])).
Proof.
  assert (validate_critical_cases (always "CRÍTICO") trained_sample gold_processed
          = Ok (Checked [true] 100 false)) as H.
  { vm_compute. reflexivity. }
  split; [exact H|].
  apply (validate_alert_threshold _ _ _ _ _ _ H). vm_compute. split; lia.
Defined.

(** * Training *)

(** X21. [train] on a new classifier whose model type is neither
    random_forest nor gradient_boosting raises AttributeError before anything
    is fitted, and leaves the classifier as it was: no model, no metrics, no
    training date; nothing is printed of the importance report. *)
Theorem train_with_unknown_model_type
  (np_argsort : list Q -> list nat)
  (sk_fit : string -> list (string * list R) -> list string -> option Estimator)
  (sk_predict : Estimator -> list (string * list R) -> outcome (list string))
  (sk_report : list string -> list string -> outcome unit) (now : string)
  (X_train X_test : list (string * list R)) (y_train y_test : list string)
  (self : CriticalityClassifier) (out : list line) :
  model_type self <> "random_forest" ->
  model_type self <> "gradient_boosting" ->
  model self = None ->
  train np_argsort sk_fit sk_predict sk_report now X_train y_train X_test y_test
        (self, out)
  = (Raise AttributeError, (self, out)).
Proof.
  intros Hrf Hgb Hmodel. unfold train. unfold_M. cbn [fst].
  apply String.eqb_neq in Hrf, Hgb. rewrite Hrf, Hgb, Hmodel. reflexivity.
Qed.

(** X22. When [train] returns, the classifier holds the estimator that was
    fitted on the train part, the four metrics (the two accuracies and the
    sizes of the two parts) and the date of the run, and its model type and
    engineer are as before. The script can save it, with whatever engineer
    it has attached, on every disk where nothing on the way to [/app/models]
    is a regular file and neither of the two files is a directory; and
    whenever it has been saved, [load_model] returns the same classifier
    without the engineer: it finds the test accuracy it prints. *)
Theorem trained_classifier_round_trip
  (np_argsort : list Q -> list nat)
  (sk_fit : string -> list (string * list R) -> list string -> option Estimator)
  (sk_predict : Estimator -> list (string * list R) -> outcome (list string))
  (sk_report : list string -> list string -> outcome unit) (now : string)
  (X_train X_test : list (string * list R)) (y_train y_test : list string)
  (self self' : CriticalityClassifier) (out out' : list line) :
  train np_argsort sk_fit sk_predict sk_report now X_train y_train X_test y_test
        (self, out)
  = (Ok tt, (self', out')) ->
  (exists est train_acc test_acc,
      sk_fit (model_type self) X_train y_train = Some est
      /\ self' = {| model_type := model_type self;
                    model := Some est;
                    feature_engineer := feature_engineer self;
                    training_date := Some now;
                    metrics :=
                      <["train_accuracy" := MFloat train_acc]>
                      (<["test_accuracy" := MFloat test_acc]>
                      (<["train_size" := MInt (Z.of_nat (n_samples X_train))]>
                      (<["test_size" := MInt (Z.of_nat (n_samples X_test))]> ∅))) |})
  /\ (forall (fe : option SOWFeatureEngineering) (fs : filesystem),
        script_can_save fs ->
        exists fs',
          save_model (with_engineer fe self') script_path fs = (Ok tt, fs')
          /\ load_model fs' script_path = Ok (reloaded self'))
  /\ (forall (fe : option SOWFeatureEngineering) (fs fs' : filesystem),
        save_model (with_engineer fe self') script_path fs = (Ok tt, fs') ->
        load_model fs' script_path = Ok (reloaded self')).
Proof.
  intros H. unfold train in H. unfold_M. cbn [fst snd] in H.
  assert (exists est train_acc test_acc,
      sk_fit (model_type self) X_train y_train = Some est
      /\ self' = {| model_type := model_type self;
                    model := Some est;
                    feature_engineer := feature_engineer self;
                    training_date := Some now;
                    metrics :=
                      <["train_accuracy" := MFloat train_acc]>
                      (<["test_accuracy" := MFloat test_acc]>
                      (<["train_size" := MInt (Z.of_nat (n_samples X_train))]>
                      (<["test_size" := MInt (Z.of_nat (n_samples X_test))]> ∅))) |})
    as (est & train_acc & test_acc & Hfit & ->).
  { destruct (String.eqb (model_type self) "random_forest"
              || String.eqb (model_type self) "gradient_boosting").
    2:{ destruct (model self); discriminate H. }
    destruct (sk_fit (model_type self) X_train y_train) as [est|]; [|discriminate H].
    unfold _evaluate, on_report, on_classifier in H. unfold_M.
    cbn [fst snd model set_model] in H.
    destruct (sk_predict est X_train) as [y_train_pred|];
      [|cbv beta iota in H; discriminate H].
    destruct (sk_predict est X_test) as [y_test_pred|];
      [|cbv beta iota in H; discriminate H].
    destruct (accuracy_score y_train y_train_pred) as [train_acc|];
      [|cbv beta iota in H; discriminate H].
    destruct (accuracy_score y_test y_test_pred) as [test_acc|];
      [|cbv beta iota in H; discriminate H].
    cbv beta iota in H. cbn [fst snd] in H.
    destruct (sk_report y_test y_test_pred) as [[]|];
      [|cbv beta iota in H; discriminate H].
    destruct (_print_feature_importance _ _ _ _ _) as [[[]|] out1];
      [|cbv beta iota in H; discriminate H].
    cbv beta iota in H. cbn [fst snd] in H.
    injection H as <- _. exists est, train_acc, test_acc. auto. }
  split; [eauto|].
  match goal with |- _ /\ ?P => assert P as Hload end.
  { intros fe fs fs' Hsave.
    destruct (save_model_returns _ _ _ _ Hsave) as (p & q & Hp & Hq & _ & Hpickle).
    destruct script_places as (Hp' & Hq' & _). unfold script_path in *.
    rewrite Hp' in Hp. rewrite Hq' in Hq. injection Hp as <-. injection Hq as <-.
    match goal with |- load_model _ _ = Ok (reloaded ?c) =>
      change (reloaded c) with (reloaded (with_engineer fe c)) end.
    apply load_saved_package; [apply Hpickle; discriminate|].
    cbn [with_engineer metrics]. rewrite lookup_insert_ne by done.
    rewrite lookup_insert_eq. eauto. }
  split; [|exact Hload].
  intros fe fs Hcan.
  match goal with |- exists fs', save_model ?c _ _ = _ /\ _ =>
    destruct (save_model_succeeds c fs script_path _ _ _ _ Hcan)
      as (fs1 & _ & _ & Hsave)
  end.
  eexists. split; [exact Hsave|]. apply (Hload fe fs _ Hsave).
Qed.

Lemma train_with_unknown_model_type_witness :
  train (argsort_with in_index_order) fits_sample (always "BAJO") report_prints
        "2024-05-01 10:00:00"
        (sample_X 2) ["BAJO"; "ALTO"] (sample_X 1) ["BAJO"]
        (CriticalityClassifier_init "xgboost", [])
  = (Raise AttributeError, (CriticalityClassifier_init "xgboost", [])).
Proof.
  apply train_with_unknown_model_type; [discriminate|discriminate|reflexivity].
Defined.

Lemma trained_classifier_round_trip_witness :
  exists self' out' fs',
    train (argsort_with in_index_order) fits_sample (always "BAJO") report_prints
          "2024-05-01 10:00:00"
          (sample_X 2) ["BAJO"; "ALTO"] (sample_X 1) ["BAJO"]
          (CriticalityClassifier_init "random_forest", [])
    = (Ok tt, (self', out'))
    /\ save_model (with_engineer (Some SOWFeatureEngineering_init) self') script_path ∅
       = (Ok tt, fs')
    /\ load_model fs' script_path = Ok (reloaded self').
Proof.
  assert (exists self' out',
             train (argsort_with in_index_order) fits_sample (always "BAJO")
                   report_prints "2024-05-01 10:00:00"
                   (sample_X 2) ["BAJO"; "ALTO"] (sample_X 1) ["BAJO"]
                   (CriticalityClassifier_init "random_forest", [])
             = (Ok tt, (self', out'))) as (self' & out' & H).
  { eexists _, _. vm_compute. reflexivity. }
  destruct (trained_classifier_round_trip _ _ _ _ _ _ _ _ _ _ _ _ _ H)
    as (_ & Hsave & _).
  destruct (Hsave (Some SOWFeatureEngineering_init) ∅) as (fs' & Hs & Hl).
  - split; try (vm_compute; reflexivity); vm_compute; discriminate.
  - exists self', out', fs'. auto.
Defined.

(** * Paths [save_model] does not take well *)

(** X28. What [save_model] does on some paths, whatever the classifier. A
    path without a directory part raises FileNotFoundError in [os.makedirs]
    on every disk, and nothing is written. With a directory whose name has
    [.pkl] in it, the package is written and the metrics are not: their path
    names a directory that was never made, and FileNotFoundError is raised.
    With a path without [.pkl], the path of the metrics is the path itself,
    and the file holds the metrics, not the package. With a regular file
    [/app], the script cannot save: NotADirectoryError, and nothing is
    written. *)
Theorem save_model_path_pitfalls (self : CriticalityClassifier) :
  (forall (fs : filesystem) (filepath : string),
      dirname filepath = "" ->
      save_model self filepath fs = (Raise (FileNotFoundError ""), fs))
  /\ (exists fs' : filesystem,
        save_model self "a.pkl/b.pkl" ∅
        = (Raise (FileNotFoundError "a_metrics.json/b_metrics.json"), fs')
        /\ read_file fs' "a.pkl/b.pkl" = Ok (PickledDict (model_package self))
        /\ read_file fs' "a.pkl/b_metrics.json"
           = Raise (FileNotFoundError "a.pkl/b_metrics.json"))
  /\ (exists fs' : filesystem,
        metrics_file "e/model.bin" = "e/model.bin"
        /\ save_model self "e/model.bin" ∅ = (Ok tt, fs')
        /\ read_file fs' "e/model.bin" = Ok (JsonFile (metrics self)))
  /\ (forall f : file,
        save_model self script_path {[ (true, ["app"]) := Regular f ]}
        = (Raise (NotADirectoryError "/app/models"),
           {[ (true, ["app"]) := Regular f ]})).
Proof.
  split; [|split; [|split]].
  - intros fs filepath Hdir. rewrite save_model_unfold, Hdir. reflexivity.
  - eexists. split; [|split].
    + rewrite save_model_unfold.
      assert (makedirs (dirname "a.pkl/b.pkl") ∅
              = (Ok tt, {[ (false, ["a.pkl"]) := Directory ]})) as ->
          by (vm_compute; reflexivity).
      rewrite (write_file_in_directory "a.pkl/b.pkl" _ _ false "b.pkl" ["a.pkl"]);
        [|vm_compute; reflexivity ..|vm_compute; discriminate].
      unfold write_file. unfold_M.
      replace (metrics_file "a.pkl/b.pkl") with "a_metrics.json/b_metrics.json"
        by (vm_compute; reflexivity).
      replace (locate "a_metrics.json/b_metrics.json")
        with (Ok (false, ["b_metrics.json"; "a_metrics.json"]) : outcome place)
        by (vm_compute; reflexivity).
      reflexivity.
    + apply (read_file_regular _ _ _ false "b.pkl" ["a.pkl"]);
        [vm_compute; reflexivity ..|].
      apply lookup_insert_eq.
    + unfold read_file. unfold_M.
      replace (locate "a.pkl/b_metrics.json")
        with (Ok (false, ["b_metrics.json"; "a.pkl"]) : outcome place)
        by (vm_compute; reflexivity).
      reflexivity.
  - eexists. split; [vm_compute; reflexivity|]. split.
    + rewrite save_model_unfold.
      assert (makedirs (dirname "e/model.bin") ∅
              = (Ok tt, {[ (false, ["e"]) := Directory ]})) as ->
          by (vm_compute; reflexivity).
      rewrite (write_file_in_directory "e/model.bin" _ _ false "model.bin" ["e"]);
        [|vm_compute; reflexivity ..|vm_compute; discriminate].
      apply (write_file_in_directory _ _ _ false "model.bin" ["e"]);
        [vm_compute; reflexivity ..|].
      rewrite lookup_insert_eq. discriminate.
    + apply (read_file_regular _ _ _ false "model.bin" ["e"]);
        [vm_compute; reflexivity ..|].
      apply lookup_insert_eq.
  - intros f. rewrite save_model_unfold.
    assert (makedirs (dirname script_path) {[ (true, ["app"]) := Regular f ]}
            = (Raise (NotADirectoryError "/app/models"),
               {[ (true, ["app"]) := Regular f ]})) as ->; [|reflexivity].
    unfold makedirs.
    replace (dirname script_path) with "/app/models" by (vm_compute; reflexivity).
    replace (String.eqb "/app/models" "") with false by reflexivity.
    unfold_M.
    replace (locate "/app/models") with (Ok (true, ["models"; "app"]) : outcome place)
      by (vm_compute; reflexivity).
    cbn [fst snd makedirs_at]. unfold_M.
    unfold path_exists, pass_FileExistsError, mkdir_exist_ok, mkdir, path_isdir.
    unfold_M. cbn [stat fst snd].
    rewrite lookup_singleton_eq. reflexivity.
Qed.

Lemma save_model_path_pitfalls_witness :
  save_model trained_sample "model.pkl" ∅ = (Raise (FileNotFoundError ""), ∅).
Proof.
  destruct (save_model_path_pitfalls trained_sample) as [Hplain _].
  apply Hplain. reflexivity.
Defined.

(** * Loading the data *)

Lemma compare_lt_trans (a b c : string) :
  String.compare a b = Lt -> String.compare b c = Lt -> String.compare a c = Lt.
Proof.
  intros H1 H2.
  exact (@RelationClasses.StrictOrder_Transitive _ _
           OrdersEx.String_as_OT.lt_strorder a b c H1 H2).
Qed.

Lemma compare_lt_irrefl (a : string) : String.compare a a <> Lt.
Proof.
  intros H. pose proof (String.compare_antisym a a) as Ha.
  rewrite H in Ha. discriminate Ha.
Qed.

Lemma insert_sorted_strict (x : string) (l : list string) :
  StronglySorted (fun a b => String.compare a b = Lt) l ->
  StronglySorted (fun a b => String.compare a b = Lt) (insert_sorted x l).
Proof.
  induction 1 as [|y l Hl IH Hy]; cbn [insert_sorted]; [repeat constructor|].
  destruct (String.compare x y) eqn:Hc.
  - constructor; assumption.
  - constructor; [constructor; assumption|].
    constructor; [exact Hc|].
    eapply Forall_impl; [exact Hy|]. intros z Hz. eapply compare_lt_trans; eauto.
  - constructor; [exact IH|].
    apply Forall_forall. intros z Hz. apply insert_sorted_elem in Hz as [->|Hz].
    + rewrite String.compare_antisym, Hc. reflexivity.
    + rewrite Forall_forall in Hy. apply Hy, Hz.
Qed.

Lemma np_unique_strict (y : list string) :
  StronglySorted (fun a b => String.compare a b = Lt) (np_unique y).
Proof.
  induction y as [|x y IH]; [constructor|]. apply insert_sorted_strict, IH.
Qed.

(** [np.unique] gives no value twice. *)
Lemma np_unique_NoDup (y : list string) : NoDup (np_unique y).
Proof.
  pose proof (np_unique_strict y) as H.
  induction H as [|x l _ IH Hx]; constructor; [|exact IH].
  intros Hin. rewrite Forall_forall in Hx. exact (compare_lt_irrefl x (Hx x Hin)).
Qed.

Lemma count_cons (x c : string) (y : list string) :
  length (filter (fun z => String.eqb z c) (x :: y))
  = ((if String.eqb x c then 1 else 0)
     + length (filter (fun z => String.eqb z c) y))%nat.
Proof.
  rewrite filter_cons. cbv beta.
  destruct (String.eqb x c); case_decide as H; cbn [length];
    first [reflexivity | exfalso; apply H; exact I | destruct H].
Qed.

Lemma sum_indicator (x : string) (U : list string) :
  NoDup U -> x ∈ U ->
  sum_list (map (fun c => if String.eqb x c then 1 else 0)%nat U) = 1%nat.
Proof.
  induction 1 as [|c U Hc _ IH]; intros Hx; [apply elem_of_nil in Hx; contradiction|].
  cbn [map sum_list]. destruct (String.eqb x c) eqn:E.
  - apply String.eqb_eq in E. subst c.
    assert (sum_list (map (fun c => if String.eqb x c then 1 else 0)%nat U) = 0%nat)
      as ->; [|reflexivity].
    clear IH Hx. induction U as [|c U IHU]; [reflexivity|]. cbn [map sum_list].
    destruct (String.eqb x c) eqn:E'.
    + apply String.eqb_eq in E'. subst c. exfalso. apply Hc. left.
    + rewrite IHU; [reflexivity|]. intros H. apply Hc. right. exact H.
  - apply elem_of_cons in Hx as [->|Hx]; [rewrite String.eqb_refl in E; discriminate|].
    rewrite (IH Hx). reflexivity.
Qed.

(** The counts of the labels add up to the number of rows. *)
Lemma sum_counts (U y : list string) :
  NoDup U -> (forall x, x ∈ y -> x ∈ U) ->
  sum_list (map (fun c => length (filter (fun z => String.eqb z c) y)) U) = length y.
Proof.
  intros HU. induction y as [|x y IH]; intros Hy.
  - clear. induction U as [|c U IH]; [reflexivity|]. cbn [map sum_list].
    rewrite IH. reflexivity.
  - assert (sum_list (map (fun c => length (filter (fun z => String.eqb z c) (x :: y))) U)
            = (sum_list (map (fun c => if String.eqb x c then 1 else 0)%nat U)
               + sum_list (map (fun c => length (filter (fun z => String.eqb z c) y)) U))%nat)
      as ->.
    { clear. induction U as [|c U IHU]; [reflexivity|]. cbn [map sum_list].
      rewrite IHU, count_cons. unfold Datatypes.id. lia. }
    rewrite (sum_indicator x U HU) by (apply Hy; left).
    rewrite IH by (intros z Hz; apply Hy; right; exact Hz). reflexivity.
Qed.

Lemma value_counts_sum (y : list string) :
  sum_list (map snd (value_counts y)) = length y.
Proof.
  unfold value_counts. rewrite map_map. cbn [snd].
  apply sum_counts; [apply np_unique_NoDup|].
  intros x Hx. apply (proj2 (np_unique_elem x y)), Hx.
Qed.

Lemma value_counts_labels (y : list string) :
  map fst (value_counts y) = np_unique y.
Proof. unfold value_counts. rewrite map_map. cbn [fst]. apply map_id. Qed.

Lemma value_counts_positive (y : list string) (label : string) (n : nat) :
  (label, n) ∈ value_counts y -> label ∈ y /\ (1 <= n)%nat.
Proof.
  unfold value_counts. intros H. apply list_elem_of_fmap in H as (c & [= -> ->] & Hc).
  apply (proj1 (np_unique_elem c y)) in Hc. split; [exact Hc|].
  induction y as [|x y IH]; [apply elem_of_nil in Hc; contradiction|].
  rewrite count_cons. apply elem_of_cons in Hc as [->|Hc].
  - rewrite String.eqb_refl. lia.
  - specialize (IH Hc). lia.
Qed.

(** X26. [load_and_prepare_data] starts from a new engineer, so what the
    engineer of an earlier run had fitted plays no part: on a readable file
    whose frame has the raw columns and at least one row it returns, for
    every state of the world; the objects that existed stay as they were;
    the labels are those of the rows in row order; the engineer it returns
    has the scaler and the four encoders fitted on this frame; and the class
    distribution it prints lists every label that occurs once, in the order
    of the labels, with a count of at least one, the counts adding up to the
    number of rows. *)
Theorem load_and_prepare_data_distribution
  (read_csv : string -> outcome DataFrame) (w : world) (csv_path : string)
  (d : DataFrame) (days workers : list Z) (budget : list R)
  (cells : string -> list string) :
  read_csv csv_path = Ok d ->
  numeric_columns d days workers budget ->
  categorical_columns d cells ->
  days <> [] ->
  exists X r fe w',
    let labels := map label_name (zip_with classify days workers) in
    load_and_prepare_data read_csv csv_path w
    = (Ok (X, StrCol labels, r, fe, value_counts labels, percentages labels), w')
    /\ fe = self w'
    /\ scaler fe <> None
    /\ (forall col, col ∈ categorical_cols ->
                    label_encoders fe !! col = Some (Some (np_unique (cells col))))
    /\ (forall k v, frames w !! k = Some v -> frames w' !! k = Some v)
    /\ NoDup (map fst (value_counts labels))
    /\ (forall label n, (label, n) ∈ value_counts labels ->
                        label ∈ labels /\ (1 <= n)%nat)
    /\ sum_list (map snd (value_counts labels)) = length labels.
Proof.
  intros Hread Hnum Hcat Hrows.
  set (df := fresh (dom (frames w))).
  set (w1 := {| frames := <[df := d]> (frames w); self := SOWFeatureEngineering_init |}).
  destruct (prepare_for_training_result w1 df d days workers budget cells)
    as (st & _ & Hprep); try assumption.
  { unfold w1. cbn [frames]. apply lookup_insert_eq. }
  { intros col _. unfold w1. cbn [self]. apply lookup_empty. }
  eexists _, _, _, _. cbv zeta. split; [|split; [|split; [|split; [|split; [|split; [|split]]]]]].
  - unfold load_and_prepare_data, alloc. unfold_M. rewrite Hread. cbv beta iota zeta.
    fold df. cbn [frames self]. fold w1. rewrite Hprep. unfold criticality_column.
    reflexivity.
  - reflexivity.
  - cbn [self scaler]. discriminate.
  - intros col Hcol. cbn [self label_encoders].
    rewrite with_fitted_lookup by exact categorical_NoDup.
    rewrite decide_True by exact Hcol. reflexivity.
  - intros k v Hk. cbn [frames]. unfold w1. cbn [frames].
    assert (k <> df) as Hne.
    { intros ->. pose proof (is_fresh (dom (frames w))) as Hf. apply Hf.
      apply elem_of_dom. eauto. }
    rewrite lookup_insert_ne.
    + rewrite lookup_insert_ne by (intros Heq; apply Hne; symmetry; exact Heq).
      rewrite lookup_insert_ne by (intros Heq; apply Hne; symmetry; exact Heq).
      exact Hk.
    + intros Heq. 
      match type of Heq with fresh (dom ?m) = _ =>
        apply (is_fresh (dom m)); rewrite Heq; apply elem_of_dom end.
      rewrite lookup_insert_ne by (intros Heq'; apply Hne; symmetry; exact Heq').
      rewrite lookup_insert_ne by (intros Heq'; apply Hne; symmetry; exact Heq').
      eauto.
  - rewrite value_counts_labels. apply np_unique_NoDup.
  - apply value_counts_positive.
  - apply value_counts_sum.
Qed.

Lemma load_and_prepare_data_witness :
  exists X r fe w',
    fst (load_and_prepare_data (fun _ => Ok sample_frame) "synthetic_sows_fieldglass.csv"
                               fitted_world)
    = Ok (X, StrCol ["CRÍTICO"; "BAJO"], r, fe,
          [("BAJO", 1%nat); ("CRÍTICO", 1%nat)],
          [("BAJO", 50%float); ("CRÍTICO", 50%float)])
    /\ fe = self w'
    /\ scaler fe <> None.
Proof.
  destruct (load_and_prepare_data_distribution
              (fun _ => Ok sample_frame) fitted_world "synthetic_sows_fieldglass.csv"
              sample_frame [28; 100] [25; 0] (map IZR [1500000; 20000])
              (cells_of sample_frame))
    as (X & r & fe & w' & Hload & Hfe & Hscaler & _).
  - reflexivity.
  - exact sample_frame_numeric.
  - exact sample_frame_categorical.
  - discriminate.
  - exists X, r, fe, w'. cbv zeta in Hload. rewrite Hload.
    split; [reflexivity|]. split; assumption.
Defined.

(** * The generator *)

Import Generator GeneratorData.

Lemma label_name_critico (c : Criticality) :
  String.eqb "CRÍTICO" (label_name c) = match c with CRITICO => true | _ => false end.
Proof. destruct c; reflexivity. Qed.

Lemma classify_critico (d w : Z) :
  match classify d w with CRITICO => true | _ => false end = (d <=? 30) && (w >? 0).
Proof.
  unfold classify. destruct ((d <=? 30) && (w >? 0)) eqn:E; [reflexivity|].
  repeat match goal with |- context [if ?b then _ else _] => destruct b end;
    reflexivity.
Qed.

(** The rows labelled CRÍTICO are the rows in the 30-day window that have
    workers. *)
Lemma critico_mask (days workers : list Z) :
  map (String.eqb "CRÍTICO") (map label_name (zip_with classify days workers))
  = zip_with andb (map (fun d => d <=? 30) days) (map (fun w => w >? 0) workers).
Proof.
  revert workers. induction days as [|d days IH]; intros [|w workers]; try reflexivity.
  cbn [zip_with map]. rewrite IH, label_name_critico, classify_critico. reflexivity.
Qed.

Lemma count_true_cons (b : bool) (mask : list bool) :
  count_true (b :: mask) = ((if b then 1 else 0) + count_true mask)%nat.
Proof.
  unfold count_true. rewrite filter_cons.
  destruct b; case_decide as H; try reflexivity.
  - exfalso. apply H. exact I.
  - destruct H.
Qed.

Lemma count_label_mask (label : string) (y : list string) :
  count_label y label = count_true (map (String.eqb label) y).
Proof.
  unfold count_label. induction y as [|x y IH]; [reflexivity|].
  cbn [map]. rewrite count_true_cons, filter_cons, (String.eqb_sym label x).
  destruct (String.eqb x label); case_decide as H; cbn [length]; rewrite ?IH;
    first [reflexivity | exfalso; apply H; exact I | destruct H].
Qed.

Lemma count_true_le (mask : list bool) : (count_true mask <= length mask)%nat.
Proof. apply length_filter. Qed.

Lemma count_true_mono (m1 m2 : list bool) :
  Forall2 (fun a b : bool => a = true -> b = true) m1 m2 ->
  (count_true m1 <= count_true m2)%nat.
Proof.
  induction 1 as [|a b m1 m2 Hab _ IH]; [reflexivity|].
  rewrite !count_true_cons.
  destruct a, b; first [lia | discriminate (Hab eq_refl)].
Qed.

(** Rows without workers add nothing to a head count. *)
Lemma Zsum_select_staffed (days workers : list Z) :
  Forall (fun w => 0 <= w) workers ->
  Zsum (select (map (fun d => d <=? 30) days) workers)
  = Zsum (select (zip_with andb (map (fun d => d <=? 30) days)
                                (map (fun w => w >? 0) workers)) workers).
Proof.
  intros Hpos. revert days. induction Hpos as [|w workers Hw _ IH]; intros days.
  - destruct days; reflexivity.
  - destruct days as [|d days]; [reflexivity|]. cbn [map zip_with select].
    destruct (d <=? 30); cbn [andb]; [|apply IH].
    destruct (w >? 0) eqn:E; cbn [Zsum foldr]; fold (Zsum (select (map (fun d => d <=? 30) days) workers)).
    + rewrite IH. reflexivity.
    + rewrite IH. rewrite Z.gtb_ltb in E. apply Z.ltb_ge in E. unfold Zsum. lia.
Qed.


Lemma count_true_and_l (m1 m2 : list bool) :
  (count_true (zip_with andb m1 m2) <= count_true m1)%nat.
Proof.
  revert m2. induction m1 as [|a m1 IH]; intros [|b m2]; cbn [zip_with];
    rewrite ?count_true_cons; try (unfold count_true; cbn; lia).
  specialize (IH m2). destruct a, b; cbn [andb]; lia.
Qed.

Lemma count_true_and_r (m1 m2 : list bool) :
  (count_true (zip_with andb m1 m2) <= count_true m2)%nat.
Proof.
  revert m2. induction m1 as [|a m1 IH]; intros [|b m2]; cbn [zip_with];
    rewrite ?count_true_cons; try (unfold count_true; cbn; lia).
  specialize (IH m2). destruct a, b; cbn [andb]; lia.
Qed.

(** X23. The statistics of the generator agree with the labels of the
    classifier: on a frame with integer day and head counts, a column of
    currencies, a numeric budget and at least one row, [generate_statistics]
    returns; its count of critical SOWs with workers is the number of rows
    [create_criticality_label] labels CRÍTICO; the expired SOWs are among
    the critical ones and these among all; and when no head count is
    negative, the workers at risk are the head count of the rows labelled
    CRÍTICO (as an int64 sum). *)
Theorem statistics_agree_with_labels
  (df : DataFrame) (days workers : list Z) (currency : list string) (budget : column) :
  df !! "# Days before expiration" = Some (IntCol days) ->
  df !! "Active SOW workers" = Some (IntCol workers) ->
  df !! "currency" = Some (StrCol currency) ->
  df !! "Latest maximum budget" = Some budget ->
  (forall xs, budget <> StrCol xs) ->
  workers <> [] ->
  exists stats,
    generate_statistics df = Ok stats
    /\ total_sows stats = length days
    /\ critical_sows_with_workers stats
       = count_label (map label_name (zip_with classify days workers)) "CRÍTICO"
    /\ (expired_sows stats <= critical_sows stats <= total_sows stats)%nat
    /\ (critical_sows_with_workers stats <= critical_sows stats)%nat
    /\ (critical_sows_with_workers stats <= sows_with_workers stats)%nat
    /\ (Forall (fun w => 0 <= w) workers ->
        workers_at_risk stats
        = wrap64 (Zsum (workers_labelled "CRÍTICO" days workers))).
Proof.
  intros Hdays Hworkers Hcurrency Hbudget Hnum Hrows.
  unfold generate_statistics, getitem. rewrite Hdays, Hworkers, Hcurrency, Hbudget.
  unfold_M. cbn [int_cells label_cells].
  assert (exists total, column_sum (select_column (map (fun c => String.eqb c "USD")
                                                      currency) budget) = Ok total)
    as [total ->].
  { destruct budget as [xs|xs|xs]; cbn [select_column column_sum]; eauto.
    exfalso. exact (Hnum xs eq_refl). }
  destruct workers as [|w0 workers0] eqn:Ew; [contradiction|]. rewrite <- Ew in *.
  eexists. split; [reflexivity|].
  cbn [total_sows critical_sows sows_with_workers critical_sows_with_workers
       workers_at_risk expired_sows].
  split; [reflexivity|]. split; [|split; [|split; [|split]]].
  - rewrite count_label_mask, critico_mask. reflexivity.
  - split.
    + apply count_true_mono. clear. induction days as [|d days IH]; constructor.
      * intros H. apply Z.ltb_lt in H. apply Z.leb_le. lia.
      * exact IH.
    + pose proof (count_true_le (map (fun d => d <=? 30) days)) as H.
      rewrite length_map in H. exact H.
  - apply count_true_and_l.
  - apply count_true_and_r.
  - intros Hpos. unfold workers_labelled. rewrite critico_mask.
    rewrite (Zsum_select_staffed days workers Hpos). reflexivity.
Qed.

(** X24. Whatever the random generator draws (its [randint] staying within
    its bounds), [generate_realistic_workers] gives a head count between 0
    and 50; at most 2 for a contract that has expired; at least 1 for a
    running contract with a budget over 50000 and at least 10 with a budget
    over 500000. So a generated contract within 30 days of its end and with
    a budget over 50000 is always labelled CRÍTICO, and an expired one is
    either without workers or CRÍTICO. *)
Theorem generated_workers_are_bounded
  (rng : Type) (random_random : rng -> float * rng)
  (random_randint : Z -> Z -> rng -> Z * rng) (days budget : Z) (g : rng) :
  (forall a b g, a <= b -> a <= fst (random_randint a b g) <= b) ->
  let workers :=
    fst (generate_realistic_workers rng random_random random_randint days budget g) in
  0 <= workers <= 50
  /\ (days < 0 -> workers <= 2)
  /\ (0 <= days -> 50000 < budget -> 1 <= workers)
  /\ (0 <= days -> 500000 < budget -> 10 <= workers)
  /\ (0 <= days <= 30 -> 50000 < budget -> classify days workers = CRITICO)
  /\ (days < 0 -> workers = 0 \/ classify days workers = CRITICO).
Proof.
  intros Hrange. cbv zeta. unfold generate_realistic_workers, classify.
  pose proof (fun g => Hrange 1 2 g ltac:(lia)) as H12.
  pose proof (Hrange 10 50 g ltac:(lia)) as H1050.
  pose proof (Hrange 5 20 g ltac:(lia)) as H520.
  pose proof (Hrange 1 10 g ltac:(lia)) as H110.
  pose proof (Hrange 0 5 g ltac:(lia)) as H05.
  destruct (Z.ltb_spec days 0).
  - destruct (random_random g) as [u g'].
    destruct (PrimFloat.ltb _ u); cbn [fst].
    + repeat split; first [lia | intros _; left; reflexivity].
    + specialize (H12 g').
      repeat split;
        first [ lia
              | intros _; right;
                destruct (Z.leb_spec days 30); [|lia];
                rewrite Z.gtb_ltb;
                destruct (Z.ltb_spec 0 (fst (random_randint 1 2 g')));
                [reflexivity|lia] ].
  - rewrite !Z.gtb_ltb.
    destruct (Z.ltb_spec 500000 budget); [|destruct (Z.ltb_spec 200000 budget);
      [|destruct (Z.ltb_spec 50000 budget)]];
      (repeat split;
       first [ lia
             | intros [_ Hd] Hb;
               apply Z.leb_le in Hd; rewrite Hd;
               match goal with |- context [0 <? ?w] =>
                 destruct (Z.ltb_spec 0 w); [reflexivity|lia] end ]).
Qed.

Lemma statistics_agree_with_labels_witness :
  exists stats,
    generate_statistics generated_frame = Ok stats
    /\ total_sows stats = 2%nat
    /\ critical_sows_with_workers stats = 1%nat
    /\ workers_at_risk stats = 25.
Proof.
  destruct (statistics_agree_with_labels generated_frame [28; 100] [25; 0]
              ["USD"; "EUR"] (IntCol [1500000; 20000]))
    as (stats & Hstats & Htotal & Hcritical & _ & _ & _ & Hrisk);
    try reflexivity; try discriminate.
  exists stats. split; [exact Hstats|]. split; [exact Htotal|].
  split; [rewrite Hcritical; reflexivity|].
  rewrite Hrisk by (repeat constructor; lia). reflexivity.
Defined.

Lemma counter_randint_range (a b g : Z) :
  a <= b -> a <= fst (counter_randint a b g) <= b.
Proof.
  intros Hab. unfold counter_randint. cbn [fst].
  pose proof (Z.mod_pos_bound g (b - a + 1) ltac:(lia)). lia.
Qed.

Lemma generated_workers_are_bounded_witness :
  let workers :=
    fst (generate_realistic_workers Z counter_random counter_randint 20 120000 7) in
  1 <= workers <= 50 /\ classify 20 workers = CRITICO.
Proof.
  destruct (generated_workers_are_bounded Z counter_random counter_randint 20 120000 7
              counter_randint_range)
    as (Hw & _ & Hone & _ & Hcrit & _).
  cbv zeta. split; [|apply Hcrit; lia]. split; [apply Hone; lia|apply Hw].
Defined.

Lemma read_zeros (k : nat) (s : string) :
  read_index (zeros k +:+ s) = read_index s.
Proof.
  induction k as [|k IH]; [reflexivity|].
  change (zeros (S k) +:+ s) with (String "0" (zeros k +:+ s)).
  rewrite <- IH. unfold read_index.
  change (NilEmpty.uint_of_string (String "0" (zeros k +:+ s)))
    with (uint_of_char "0" (NilEmpty.uint_of_string (zeros k +:+ s))).
  destruct (NilEmpty.uint_of_string (zeros k +:+ s)) as [d|]; reflexivity.
Qed.

Lemma str_nonneg (i : Z) :
  0 <= i ->
  exists d, d <> Decimal.Nil /\ str i = NilEmpty.string_of_uint d /\ Z.of_uint d = i.
Proof.
  intros Hi. unfold str. destruct i as [|p|p]; [| |lia].
  - exists (Decimal.D0 Decimal.Nil). repeat split. discriminate.
  - assert (Pos.to_uint p <> Decimal.Nil) as Hnn.
    { intros H. pose proof (DecimalPos.Unsigned.of_to p) as Hp.
      rewrite H in Hp. discriminate Hp. }
    exists (Pos.to_uint p). split; [exact Hnn|split].
    + cbn [Z.to_int NilZero.string_of_int]. unfold NilZero.string_of_uint.
      destruct (Pos.to_uint p); [contradiction|reflexivity..].
    + unfold Z.of_uint. rewrite DecimalPos.Unsigned.of_to. reflexivity.
Qed.

(** The index can be read back from its padded form. *)
Lemma read_zfill (width : nat) (i : Z) :
  0 <= i -> read_index (zfill width (str i)) = Some i.
Proof.
  intros Hi. destruct (str_nonneg i Hi) as (d & Hd & -> & <-). unfold zfill.
  assert (read_index (NilEmpty.string_of_uint d) = Some (Z.of_uint d)) as Hread
      by (unfold read_index; rewrite NilEmpty.usu; reflexivity).
  destruct d; try contradiction;
    cbn [NilEmpty.string_of_uint Ascii.eqb Bool.eqb orb andb] in *;
    rewrite read_zeros; exact Hread.
Qed.

Lemma append_same_length (a a' b b' : string) :
  String.length a = String.length a' -> a +:+ b = a' +:+ b' -> a = a' /\ b = b'.
Proof.
  revert a'. induction a as [|c a IH]; intros [|c' a'] Hlen H;
    try discriminate Hlen; [auto|].
  cbn [String.append] in H. injection H as -> H. injection Hlen as Hlen.
  destruct (IH a' Hlen H) as [-> ->]. auto.
Qed.

Lemma length_append (a b : string) :
  String.length (a +:+ b) = (String.length a + String.length b)%nat.
Proof.
  induction a as [|c a IH]; [reflexivity|].
  change (S (String.length (a +:+ b)) = S (String.length a + String.length b)).
  rewrite IH. reflexivity.
Qed.

Lemma four_wide_checked : four_wide (Z.to_nat 10000) = true.
Proof. vm_compute. reflexivity. Qed.

Lemma four_wide_spec (n : nat) (i : Z) :
  four_wide n = true -> 0 <= i < Z.of_nat n ->
  String.length (zfill 4 (str i)) = 4%nat.
Proof.
  unfold four_wide. intros H Hi. rewrite forallb_forall in H.
  specialize (H (Z.to_nat i) ltac:(apply in_seq; lia)).
  rewrite Z2Nat.id in H by lia. apply Nat.eqb_eq, H.
Qed.

(** X25. The ids of the generator are distinct for distinct indexes: two
    calls of [generate_sow_id] (or of [generate_contract_id]) with indexes
    that are not negative and years written with the same number of digits
    give the same id only for the same index; and up to index 9999 the index
    part has exactly four characters. *)
Theorem generated_ids_are_distinct :
  (forall year year' index index',
      0 <= index -> 0 <= index' ->
      String.length (str year) = String.length (str year') ->
      generate_sow_id year index = generate_sow_id year' index' ->
      index = index')
  /\ (forall year year' index index',
        0 <= index -> 0 <= index' ->
        String.length (str year) = String.length (str year') ->
        generate_contract_id year index = generate_contract_id year' index' ->
        index = index')
  /\ (forall year index,
        0 <= index <= 9999 ->
        String.length (generate_sow_id year index)
        = (9 + String.length (str year))%nat).
Proof.
  assert (forall prefix year year' index index',
             0 <= index -> 0 <= index' ->
             String.length (str year) = String.length (str year') ->
             prefix +:+ str year +:+ "-" +:+ zfill 4 (str index)
             = prefix +:+ str year' +:+ "-" +:+ zfill 4 (str index') ->
             index = index') as Hinj.
  { intros prefix year year' index index' Hi Hi' Hlen H.
    apply append_same_length in H as [_ H]; [|reflexivity].
    apply append_same_length in H as [_ H]; [|exact Hlen].
    apply append_same_length in H as [_ H]; [|reflexivity].
    apply (f_equal read_index) in H. rewrite !read_zfill in H by assumption.
    injection H as H. exact H. }
  split; [exact (Hinj "SOW-")|]. split; [exact (Hinj "CNT-")|].
  intros year index Hindex. unfold generate_sow_id.
  rewrite !length_append.
  rewrite (four_wide_spec (Z.to_nat 10000) index four_wide_checked) by lia.
  cbn [String.length]. lia.
Qed.
